(** * Employee performance tracker: task store and aggregation engine

    A shallow embedding of the server actions of the repository: the task
    actions [submitTask], [updateTask], [deleteTask], [getUserTasks] and
    [getTaskById], and the performance actions [getOverallSkillAverages],
    [getWeeklySkillTrends], [getMonthlySkillTrends] and
    [getPerformanceSummary], together with the part of the JavaScript
    runtime and of the relational backend they call.

    Conventions of the embedding.
    - A JavaScript number that holds a database INTEGER or an array length
      is a [Z]; a number that results from a division (an average, a rate)
      is an exact rational [Q].  The doubles of the code round each sum and
      each quotient; where a statement depends on that, the computation is
      given in binary64 as well (module [Double]).
    - A database DATE, and the ['YYYY-MM-DD'] string that carries it to the
      JavaScript side, is a calendar triple [CivilDate].
    - A JavaScript [Map] is an association list in insertion order.
    - A server action is a computation in the monad [M]: it threads the
      [World] (database, session, clock, fault schedule) and either returns
      a value or throws.
    - The backend is the schema of the setup script: the three tables with
      their keys, CHECK and UNIQUE constraints, the cascade from a task to
      its ratings and the row-level policies, which a flag of the world
      switches on or off.

    Left out: record ids of ratings and the timestamps of all rows, the
    length limits of the text columns, logging to the console and the
    revalidation of cached pages.  These have no part in the properties
    proved below. *)

From Stdlib Require Import String ZArith QArith Bool Lia List.
From Stdlib Require Import Permutation Sorted Lqa.
From Stdlib Require PrimFloat Uint63.
Import ListNotations.

Local Open Scope string_scope.
Local Open Scope list_scope.
Local Open Scope Z_scope.

Set Implicit Arguments.

(* ===================================================================== *)
(** ** The JavaScript runtime used by the actions *)
(* ===================================================================== *)

(** Stable insertion sort.  [after x y] says that [x] has to be placed
    behind [y]; an element is moved behind the elements that follow it in
    the input only as far as [after] demands, so elements that [after] does
    not separate keep their input order. *)
Section StableSort.
Variable A : Type.
Variable after : A -> A -> bool.

Fixpoint insert (x : A) (l : list A) : list A :=
  match l with
  | [] => [x]
  | y :: l' => if after x y then y :: insert x l' else x :: l
  end.

Fixpoint stable_sort (l : list A) : list A :=
  match l with
  | [] => []
  | x :: l' => insert x (stable_sort l')
  end.

(** [x] may stand before [y]. *)
Definition may_precede (x y : A) : Prop := after x y = false.
End StableSort.

Module Js.

(** Relative index normalisation of [Array.prototype.slice]: a negative
    index counts from the end, and the result is clamped to [0, len]. *)
Definition rel_index (len i : Z) : Z :=
  if i <? 0 then Z.max (len + i) 0 else Z.min i len.

(** [arr.slice(start, end)]; [end_ = None] is the omitted argument. *)
Definition slice {A} (arr : list A) (start : Z) (end_ : option Z) : list A :=
  let len := Z.of_nat (length arr) in
  let k := rel_index len start in
  let final := match end_ with
               | None => len
               | Some e => rel_index len e
               end in
  firstn (Z.to_nat (final - k)) (skipn (Z.to_nat k) arr).

(** [arr.reverse()]. *)
Definition reverse {A} (arr : list A) : list A := rev arr.

(** [arr.sort(compareFn)].  The language requires the sort to be stable;
    for a consistent comparator every stable sort returns the same array
    (for the comparator of the actions: [sort_by_average_unique] below),
    so the model is the stable insertion sort.  An element moves behind
    another one only when [compareFn] of the two is strictly positive. *)
Definition sort {A} (compareFn : A -> A -> Q) (arr : list A) : list A :=
  stable_sort (fun x y => negb (Qle_bool (compareFn x y) 0)) arr.

(** [arr.reduce((a, b) => a + b, 0)] on integers. *)
Definition sum (l : list Z) : Z := fold_left Z.add l 0.

(** [Math.min(...arr)] and [Math.max(...arr)] on a non-empty array of
    integers.  On the empty array JavaScript answers [Infinity] and
    [-Infinity]; the actions never call them there, the model answers 0. *)
Definition Math_min (l : list Z) : Z :=
  match l with
  | [] => 0
  | x :: l' => fold_left Z.min l' x
  end.

Definition Math_max (l : list Z) : Z :=
  match l with
  | [] => 0
  | x :: l' => fold_left Z.max l' x
  end.

(** Truthiness of a string: only the empty string is falsy. *)
Definition truthy (s : string) : bool := negb (s =? "")%string.

(** A [Map] in insertion order, with the equality test of its keys. *)
Section MapModel.
Variables K V : Type.
Variable eqb : K -> K -> bool.

Definition Map := list (K * V).

Fixpoint has (m : Map) (k : K) : bool :=
  match m with
  | [] => false
  | (k', _) :: m' => if eqb k' k then true else has m' k
  end.

Fixpoint get (m : Map) (k : K) : option V :=
  match m with
  | [] => None
  | (k', v) :: m' => if eqb k' k then Some v else get m' k
  end.

(** [m.set(k, v)]: an existing key keeps its position. *)
Fixpoint set (m : Map) (k : K) (v : V) : Map :=
  match m with
  | [] => [(k, v)]
  | (k', v') :: m' =>
      if eqb k' k then (k, v) :: m' else (k', v') :: set m' k v
  end.

(** Mutation of the value stored under [k], as in
    [m.get(k)!.push(x)]; nothing happens when the key is absent. *)
Fixpoint update (m : Map) (k : K) (f : V -> V) : Map :=
  match m with
  | [] => []
  | (k', v') :: m' =>
      if eqb k' k then (k', f v') :: m' else (k', v') :: update m' k f
  end.
End MapModel.

End Js.

(* ===================================================================== *)
(** ** Data model ([types/skills.ts]) *)
(* ===================================================================== *)

Definition uuid := string.

Inductive Priority := high | medium | low.

(** A calendar date: the value of a DATE column and of its ISO string. *)
Record CivilDate := mkDate { year : Z; month : Z; day : Z }.

Module Skill.
Record t := mk { id : uuid; name : string; is_active : bool }.
End Skill.

Module Task.
Record t := mk {
  id : uuid;
  user_id : uuid;
  title : string;
  description : string;
  task_date : CivilDate;
  external_link : option string;
  priority : Priority;
  delivered_on_time : bool;
  manager_found_issues : bool;
  manager_notes : option string;
  manager_helped_analysis : bool
}.
End Task.

Module SkillRating.
Record t := mk { task_id : uuid; skill_id : uuid; rating : Z }.
End SkillRating.

Module SkillAverage.
Record t := mk {
  skill_id : uuid;
  skill_name : string;
  average_rating : Q;
  rating_count : Z;
  min_rating : Z;
  max_rating : Z
}.
End SkillAverage.

Module SkillTrend.
Record t := mk {
  skill_id : uuid;
  skill_name : string;
  period : CivilDate;
  average_rating : Q;
  rating_count : Z
}.
End SkillTrend.

Module PerformanceSummary.
Record t := mk {
  total_tasks : Z;
  overall_average : Q;
  skill_averages : list SkillAverage.t;
  strengths : list SkillAverage.t;
  growth_opportunities : list SkillAverage.t;
  on_time_delivery_rate : Q;
  manager_issues_rate : Q;
  manager_helped_rate : Q
}.
End PerformanceSummary.

Module TaskSubmissionFormData.
Record t := mk {
  title : string;
  description : string;
  task_date : CivilDate;
  external_link : option string;
  priority : Priority;
  delivered_on_time : bool;
  manager_found_issues : bool;
  manager_notes : option string;
  manager_helped_analysis : bool;
  skill_ratings : Js.Map uuid Z
}.
End TaskSubmissionFormData.

(* ===================================================================== *)
(** ** Dates: the calendar and the [Date] object *)
(* ===================================================================== *)

Module Date.

Definition msPerDay : Z := 86400000.

(** Day number and time within the day of a time value (milliseconds
    since 1970-01-01T00:00Z). *)
Definition Day (t : Z) : Z := t / msPerDay.
Definition TimeWithinDay (t : Z) : Z := t mod msPerDay.

(** 0 is Sunday, 1 is Monday, ..., 6 is Saturday. *)
Definition WeekDay (t : Z) : Z := (Day t + 4) mod 7.

(** Day number of a proleptic Gregorian date, and back.  [month] is
    1-based here; the day may lie outside the month and then carries
    over, as the [Date] setters need. *)
Definition days_from_civil (y m d : Z) : Z :=
  let y' := if m <=? 2 then y - 1 else y in
  let era := y' / 400 in
  let yoe := y' - era * 400 in
  let doy := (153 * (if m >? 2 then m - 3 else m + 9) + 2) / 5 + d - 1 in
  let doe := yoe * 365 + yoe / 4 - yoe / 100 + doy in
  era * 146097 + doe - 719468.

Definition civil_from_days (z : Z) : CivilDate :=
  let z' := z + 719468 in
  let era := z' / 146097 in
  let doe := z' - era * 146097 in
  let yoe := (doe - doe / 1460 + doe / 36524 - doe / 146096) / 365 in
  let y := yoe + era * 400 in
  let doy := doe - (365 * yoe + yoe / 4 - yoe / 100) in
  let mp := (5 * doy + 2) / 153 in
  let d := doy - (153 * mp + 2) / 5 + 1 in
  let m := if mp <? 10 then mp + 3 else mp - 9 in
  mkDate (if m <=? 2 then y + 1 else y) m d.

Definition YearFromTime (t : Z) : Z := year (civil_from_days (Day t)).
(** Months of a time value are 0-based, as everywhere in [Date]. *)
Definition MonthFromTime (t : Z) : Z := month (civil_from_days (Day t)) - 1.
Definition DateFromTime (t : Z) : Z := day (civil_from_days (Day t)).

Definition MakeDay (y m dt : Z) : Z :=
  let ym := y + m / 12 in
  let mn := m mod 12 in
  days_from_civil ym (mn + 1) 1 + dt - 1.

Definition MakeDate (d time : Z) : Z := d * msPerDay + time.

(** [new Date('YYYY-MM-DD')]: a date-only string is UTC midnight. *)
Definition of_date_string (d : CivilDate) : Z :=
  MakeDate (days_from_civil (year d) (month d) (day d)) 0.

(** [d.toISOString().split('T')[0]]: the UTC calendar date. *)
Definition toISODate (t : Z) : CivilDate := civil_from_days (Day t).

(** The methods that read or write local time.  [LocalTZA] is the offset
    of the server's time zone from UTC in milliseconds, taken constant
    (no daylight-saving transitions). *)
Section LocalZone.
Variable LocalTZA : Z.

Definition LocalTime (t : Z) : Z := t + LocalTZA.
Definition UTC (t : Z) : Z := t - LocalTZA.

Definition getFullYear (t : Z) : Z := YearFromTime (LocalTime t).
Definition getMonth (t : Z) : Z := MonthFromTime (LocalTime t).
Definition getDate (t : Z) : Z := DateFromTime (LocalTime t).
Definition getDay (t : Z) : Z := WeekDay (LocalTime t).

(** [d.setDate(dt)], returning the new time value. *)
Definition setDate (t dt : Z) : Z :=
  let lt := LocalTime t in
  UTC (MakeDate (MakeDay (YearFromTime lt) (MonthFromTime lt) dt)
                (TimeWithinDay lt)).

(** [d.setMonth(m)]. *)
Definition setMonth (t m : Z) : Z :=
  let lt := LocalTime t in
  UTC (MakeDate (MakeDay (YearFromTime lt) m (DateFromTime lt))
                (TimeWithinDay lt)).

(** [new Date(y, m, dt)]: local midnight; a year in 0..99 means
    1900 + y. *)
Definition of_components (y m dt : Z) : Z :=
  let yr := if (0 <=? y) && (y <=? 99) then 1900 + y else y in
  UTC (MakeDate (MakeDay yr m dt) 0).
End LocalZone.

End Date.

(** Order of calendar dates (the order of DATE values, and of their ISO
    strings under [localeCompare] for four-digit years). *)
Definition date_compare (a b : CivilDate) : comparison :=
  match year a ?= year b with
  | Eq => match month a ?= month b with
          | Eq => day a ?= day b
          | c => c
          end
  | c => c
  end.

Definition date_leb (a b : CivilDate) : bool :=
  match date_compare a b with Gt => false | _ => true end.

Definition date_eqb (a b : CivilDate) : bool :=
  (year a =? year b) && (month a =? month b) && (day a =? day b).

(* ===================================================================== *)
(** ** The world: database, session, clock and fault schedule *)
(* ===================================================================== *)

Record Db := mkDb {
  skills : list Skill.t;
  tasks : list Task.t;
  skill_ratings : list SkillRating.t
}.

(** Everything outside the actions.
    - [session]: the identity the auth service reports, if any.
    - [rls]: whether the row-level security policies of the setup script
      are enabled on the three tables.
    - [faults]: the fate of the coming requests to the backend, in order;
      [true] is a request that fails (network, timeout, outage) without
      touching the database.  An exhausted schedule means no more faults.
    - [uuid_source], [uuid_drawn]: the identifiers [gen_random_uuid()]
      hands out.
    - [now], [LocalTZA]: the server clock and its time-zone offset (ms).
    - [rpc_get_overall_skill_averages]: the stored function of that name,
      when the database has one; the setup script defines none. *)
Record World := mkWorld {
  db : Db;
  session : option uuid;
  rls : bool;
  faults : list bool;
  uuid_source : nat -> uuid;
  uuid_drawn : nat;
  now : Z;
  LocalTZA : Z;
  rpc_get_overall_skill_averages :
    option (Db -> uuid -> option (list SkillAverage.t))
}.

Definition with_db (d : Db) (w : World) : World :=
  mkWorld d (session w) (rls w) (faults w) (uuid_source w) (uuid_drawn w)
          (now w) (LocalTZA w) (rpc_get_overall_skill_averages w).

Definition with_faults (fs : list bool) (w : World) : World :=
  mkWorld (db w) (session w) (rls w) fs (uuid_source w) (uuid_drawn w)
          (now w) (LocalTZA w) (rpc_get_overall_skill_averages w).

Definition with_uuid_drawn (n : nat) (w : World) : World :=
  mkWorld (db w) (session w) (rls w) (faults w) (uuid_source w) n
          (now w) (LocalTZA w) (rpc_get_overall_skill_averages w).

(* ===================================================================== *)
(** ** The monad of server actions *)
(* ===================================================================== *)

(** A JavaScript [Error] with its message. *)
Inductive Exn := Error (message : string).

Definition message_of (e : Exn) : string := let 'Error m := e in m.

Inductive Outcome (A : Type) :=
| Returned (a : A)
| Thrown (e : Exn).
Arguments Returned {A} a.
Arguments Thrown {A} e.

(** An action runs in a world and leaves a world; what it did to the
    database before it threw stays done. *)
Definition M (A : Type) : Type := World -> Outcome A * World.

Definition ret {A} (a : A) : M A := fun w => (Returned a, w).

Definition bind {A B} (m : M A) (k : A -> M B) : M B :=
  fun w => match m w with
           | (Returned a, w') => k a w'
           | (Thrown e, w') => (Thrown e, w')
           end.

Definition throw {A} (e : Exn) : M A := fun w => (Thrown e, w).

(** [try { body } catch (error) { handler }]. *)
Definition try_catch {A} (body : M A) (handler : Exn -> M A) : M A :=
  fun w => match body w with
           | (Returned a, w') => (Returned a, w')
           | (Thrown e, w') => handler e w'
           end.

Declare Scope action_scope.
Delimit Scope action_scope with action.
Notation "x <- c ;; k" := (bind c (fun x => k))
  (at level 100, c at next level, right associativity) : action_scope.
Notation "c ;;; k" := (bind c (fun _ => k))
  (at level 100, right associativity) : action_scope.
Local Open Scope action_scope.

(** The [{ data, error }] answer of a backend request. *)
Inductive Response (A : Type) :=
| Data (data : A)
| Failed (error : string).
Arguments Data {A} data.
Arguments Failed {A} error.

(** The fate of the next request: the head of the fault schedule. *)
Definition next_fault (w : World) : bool * World :=
  match faults w with
  | [] => (false, w)
  | b :: fs => (b, with_faults fs w)
  end.

(** One request to the backend: it consumes one entry of the fault
    schedule; a faulty request answers with an error and changes nothing,
    otherwise the operation runs against the world. *)
Definition request {A} (op : World -> Response A * World) : M (Response A) :=
  fun w =>
    let (faulty, w1) := next_fault w in
    if faulty then (Returned (Failed "request failed"), w1)
    else let (r, w') := op w1 in (Returned r, w').

(* ===================================================================== *)
(** ** The backend: tables, constraints and policies of the setup script *)
(* ===================================================================== *)

(** A related record embedded in a row: the client delivers it as an
    object (or null) or as an array, depending on the query path. *)
Inductive Embedded (A : Type) :=
| Single (o : option A)
| Many (l : list A).
Arguments Single {A} o.
Arguments Many {A} l.

Module SkillRef.
Record t := mk { id : uuid; name : string }.
End SkillRef.

Module TaskRef.
Record t := mk { user_id : uuid; task_date : CivilDate }.
End TaskRef.

(** A row of [skill_ratings] joined with its skill and its task. *)
Module RatingRow.
Record t := mk {
  rating : Z;
  skill : Embedded SkillRef.t;
  task : Embedded TaskRef.t
}.
End RatingRow.

(** A rating with its embedded skill, and a task with its ratings. *)
Module RatingWithSkill.
Record t := mk { row : SkillRating.t; skill : option Skill.t }.
End RatingWithSkill.

Module TaskWithDetails.
Record t := mk {
  task : Task.t;
  skill_ratings : list RatingWithSkill.t;
  average_rating : option Q
}.
End TaskWithDetails.

Module Supabase.

(** [auth.uid()] is the session; a policy compares it with an owner. *)
Definition owns (w : World) (owner : uuid) : bool :=
  match session w with
  | Some u => (u =? owner)%string
  | None => false
  end.

Definition find_task (d : Db) (tid : uuid) : option Task.t :=
  find (fun t => (Task.id t =? tid)%string) (tasks d).

Definition find_skill (d : Db) (sid : uuid) : option Skill.t :=
  find (fun s => (Skill.id s =? sid)%string) (skills d).

(** The USING and WITH CHECK clauses of the policies. *)
Definition policy_task (w : World) (t : Task.t) : bool :=
  if rls w then owns w (Task.user_id t) else true.

Definition policy_rating (w : World) (r : SkillRating.t) : bool :=
  if rls w then
    match find_task (db w) (SkillRating.task_id r) with
    | Some t => owns w (Task.user_id t)
    | None => false
    end
  else true.

Definition policy_skill (w : World) (s : Skill.t) : bool :=
  if rls w then Skill.is_active s else true.

(** [.single()]: exactly one row, else an error. *)
Definition single {A} (rows : list A) : Response A :=
  match rows with
  | [x] => Data x
  | _ => Failed "JSON object requested, multiple (or no) rows returned"
  end.

(** A query that only reads. *)
Definition read {A} (rows : World -> Response A) : M (Response A) :=
  request (fun w => (rows w, w)).

(** A statement that writes: its answer and the database it leaves. *)
Definition write {A} (stmt : World -> Response A * Db) : M (Response A) :=
  request (fun w => let (r, d) := stmt w in (r, with_db d w)).

(** [auth.getUser()]. *)
Definition auth_getUser : M (Response (option uuid)) :=
  read (fun w =>
    match session w with
    | Some u => Data (Some u)
    | None => Failed "Auth session missing!"
    end).

(** [from('skills').select('*').eq('is_active', true).order('name')].
    The names are ordered as strings of bytes; the collation of the
    database may order them otherwise. *)
Definition active_skills (w : World) : list Skill.t :=
  stable_sort (fun x y => (Skill.name y <? Skill.name x)%string)
    (filter (fun s => policy_skill w s && Skill.is_active s) (skills (db w))).

Definition select_active_skills : M (Response (list Skill.t)) :=
  read (fun w => Data (active_skills w)).

(** [from('tasks').insert(row).select().single()].  The new row gets a
    generated primary key; the insert is refused when the key exists or
    when the policy rejects the owner. *)
Definition insert_task (row : uuid -> Task.t) : M (Response Task.t) :=
  request (fun w =>
    let t := row (uuid_source w (uuid_drawn w)) in
    let w1 := with_uuid_drawn (S (uuid_drawn w)) w in
    if policy_task w t
       && negb (existsb (fun t' => (Task.id t' =? Task.id t)%string)
                        (tasks (db w)))
    then (Data t,
          with_db (mkDb (skills (db w)) (tasks (db w) ++ [t])
                        (skill_ratings (db w))) w1)
    else (Failed "insert into tasks refused", w1)).

(** Two rating rows with the same (task_id, skill_id). *)
Definition same_key (r r' : SkillRating.t) : bool :=
  (SkillRating.task_id r' =? SkillRating.task_id r)%string
  && (SkillRating.skill_id r' =? SkillRating.skill_id r)%string.

(** The constraints on one new row of [skill_ratings]: CHECK on the
    rating, the two foreign keys, UNIQUE(task_id, skill_id) against the
    stored rows, and the insert policy. *)
Definition rating_row_ok (w : World) (r : SkillRating.t) : bool :=
  (1 <=? SkillRating.rating r) && (SkillRating.rating r <=? 5)
  && existsb (fun t => (Task.id t =? SkillRating.task_id r)%string)
             (tasks (db w))
  && existsb (fun s => (Skill.id s =? SkillRating.skill_id r)%string)
             (skills (db w))
  && negb (existsb (same_key r) (skill_ratings (db w)))
  && policy_rating w r.

Fixpoint distinct_keys (rows : list SkillRating.t) : bool :=
  match rows with
  | [] => true
  | r :: rows' => negb (existsb (same_key r) rows') && distinct_keys rows'
  end.

(** [from('skill_ratings').insert(rows)]: one statement, all rows or
    none. *)
Definition insert_skill_ratings (rows : list SkillRating.t)
  : M (Response unit) :=
  write (fun w =>
    if forallb (rating_row_ok w) rows && distinct_keys rows
    then (Data tt,
          mkDb (skills (db w)) (tasks (db w)) (skill_ratings (db w) ++ rows))
    else (Failed "insert into skill_ratings refused", db w)).

(** [from('tasks').update(fields).eq('id', tid)]: rewrites the rows the
    policy lets through; matching no row is not an error. *)
Definition update_task (tid : uuid) (fields : Task.t -> Task.t)
  : M (Response unit) :=
  write (fun w =>
    (Data tt,
     mkDb (skills (db w))
          (map (fun t => if (Task.id t =? tid)%string && policy_task w t
                         then fields t else t)
               (tasks (db w)))
          (skill_ratings (db w)))).

(** [from('tasks').delete().eq('id', tid)], with ON DELETE CASCADE to
    the ratings of the deleted rows. *)
Definition delete_task (tid : uuid) : M (Response unit) :=
  write (fun w =>
    let gone t := (Task.id t =? tid)%string && policy_task w t in
    (Data tt,
     mkDb (skills (db w))
          (filter (fun t => negb (gone t)) (tasks (db w)))
          (filter (fun r =>
                     negb (existsb
                             (fun t => gone t
                                && (Task.id t =? SkillRating.task_id r)%string)
                             (tasks (db w))))
                  (skill_ratings (db w))))).

(** [from('skill_ratings').delete().eq('task_id', tid)]. *)
Definition delete_skill_ratings (tid : uuid) : M (Response unit) :=
  write (fun w =>
    (Data tt,
     mkDb (skills (db w)) (tasks (db w))
          (filter (fun r => negb ((SkillRating.task_id r =? tid)%string
                                  && policy_rating w r))
                  (skill_ratings (db w))))).

(** The rows of [tasks] with a given id that the policy shows. *)
Definition tasks_by_id (w : World) (tid : uuid) : list Task.t :=
  filter (fun t => (Task.id t =? tid)%string && policy_task w t)
         (tasks (db w)).

(** [from('tasks').select('user_id').eq('id', tid).single()]. *)
Definition select_task_owner (tid : uuid) : M (Response uuid) :=
  read (fun w => single (map Task.user_id (tasks_by_id w tid))).

(** The embedding [skill_ratings ( *, skill:skills ( * ) )] of a task. *)
Definition with_details (w : World) (t : Task.t) : TaskWithDetails.t :=
  TaskWithDetails.mk t
    (map (fun r =>
            RatingWithSkill.mk r
              (match find_skill (db w) (SkillRating.skill_id r) with
               | Some s => if policy_skill w s then Some s else None
               | None => None
               end))
         (filter (fun r => (SkillRating.task_id r =? Task.id t)%string
                           && policy_rating w r)
                 (skill_ratings (db w))))
    None.

(** The task list query of [getUserTasks]: newest task date first, then
    the window [offset .. offset + limit - 1]. *)
Definition user_tasks (w : World) (target : uuid) (limit offset : Z)
  : list TaskWithDetails.t :=
  firstn (Z.to_nat limit)
    (skipn (Z.to_nat offset)
       (map (with_details w)
          (stable_sort
             (fun x y => negb (date_leb (Task.task_date y) (Task.task_date x)))
             (filter (fun t => (Task.user_id t =? target)%string
                               && policy_task w t)
                     (tasks (db w)))))).

Definition select_user_tasks (target : uuid) (limit offset : Z)
  : M (Response (list TaskWithDetails.t)) :=
  read (fun w => Data (user_tasks w target limit offset)).

(** The single-task query of [getTaskById]. *)
Definition select_task_by_id (tid : uuid)
  : M (Response TaskWithDetails.t) :=
  read (fun w => single (map (with_details w) (tasks_by_id w tid))).

(** Optional bounds of a date filter ([gte] and [lte] on [task_date]). *)
Definition in_range (from to : option CivilDate) (d : CivilDate) : bool :=
  match from with Some a => date_leb a d | None => true end
  && match to with Some b => date_leb d b | None => true end.

(** The tasks of [user] the policy shows, within the bounds. *)
Definition tasks_of (w : World) (user : uuid) (from to : option CivilDate)
  : list Task.t :=
  filter (fun t => policy_task w t
                   && (Task.user_id t =? user)%string
                   && in_range from to (Task.task_date t))
         (tasks (db w)).

(** The task query of [getPerformanceSummary]. *)
Definition select_tasks (user : uuid) (from to : option CivilDate)
  : M (Response (list Task.t)) :=
  read (fun w => Data (tasks_of w user from to)).

(** The skill embedded in a rating row. *)
Definition skill_ref (w : World) (sid : uuid) : option SkillRef.t :=
  match find_skill (db w) sid with
  | Some s =>
      if policy_skill w s
      then Some (SkillRef.mk (Skill.id s) (Skill.name s))
      else None
  | None => None
  end.

(** The rating query of the aggregations: [skill_ratings] with its skill
    and, by inner join, its task, for the tasks of [user] whose date lies
    within the bounds. *)
Definition rating_rows (w : World) (user : uuid) (from to : option CivilDate)
  : list RatingRow.t :=
  flat_map
    (fun r =>
       match find_task (db w) (SkillRating.task_id r) with
       | Some t =>
           if policy_rating w r && policy_task w t
              && (Task.user_id t =? user)%string
              && in_range from to (Task.task_date t)
           then [RatingRow.mk (SkillRating.rating r)
                   (Single (skill_ref w (SkillRating.skill_id r)))
                   (Single (Some (TaskRef.mk (Task.user_id t)
                                             (Task.task_date t))))]
           else []
       | None => []
       end)
    (skill_ratings (db w)).

Definition select_rating_rows (user : uuid) (from to : option CivilDate)
  : M (Response (list RatingRow.t)) :=
  read (fun w => Data (rating_rows w user from to)).

(** [rpc('get_overall_skill_averages', { p_user_id })]. *)
Definition rpc_overall (user : uuid)
  : M (Response (option (list SkillAverage.t))) :=
  read (fun w =>
    match rpc_get_overall_skill_averages w with
    | Some f => Data (f (db w) user)
    | None => Failed "function get_overall_skill_averages does not exist"
    end).

End Supabase.

(* ===================================================================== *)
(** ** The task actions *)
(* ===================================================================== *)

(** What a write action hands back: [{ success: true, ... }] or
    [{ error: message }]. *)
Inductive ActionResult (A : Type) :=
| success (payload : A)
| error (message : string).
Arguments success {A} payload.
Arguments error {A} message.

(** [value || null] on an optional string. *)
Definition or_null (o : option string) : option string :=
  match o with
  | Some s => if Js.truthy s then Some s else None
  | None => None
  end.

Definition getCurrentUser : M uuid :=
  r <- Supabase.auth_getUser ;;
  match r with
  | Data (Some user) => ret user
  | _ => throw (Error "Not authenticated")
  end.

Definition getAllSkills : M (list Skill.t) :=
  r <- Supabase.select_active_skills ;;
  match r with
  | Failed _ => throw (Error "Failed to fetch skills")
  | Data data => ret data
  end.

(** The rows [Array.from(formData.skill_ratings.entries()).map(...)]. *)
Definition ratingsToInsert (task_id : uuid) (skill_ratings : Js.Map uuid Z)
  : list SkillRating.t :=
  map (fun '(skill_id, rating) => SkillRating.mk task_id skill_id rating)
      skill_ratings.

Definition submitTask (formData : TaskSubmissionFormData.t)
  : M (ActionResult Task.t) :=
  try_catch
    (user <- getCurrentUser ;;
     (* Validate all skills are rated *)
     skills <- getAllSkills ;;
     if negb (Z.of_nat (length (TaskSubmissionFormData.skill_ratings formData))
              =? Z.of_nat (length skills))
     then ret (error "All skills must be rated")
     else
       (* Insert task *)
       r <- Supabase.insert_task (fun id =>
              Task.mk id user
                (TaskSubmissionFormData.title formData)
                (TaskSubmissionFormData.description formData)
                (TaskSubmissionFormData.task_date formData)
                (or_null (TaskSubmissionFormData.external_link formData))
                (TaskSubmissionFormData.priority formData)
                (TaskSubmissionFormData.delivered_on_time formData)
                (TaskSubmissionFormData.manager_found_issues formData)
                (or_null (TaskSubmissionFormData.manager_notes formData))
                (TaskSubmissionFormData.manager_helped_analysis formData)) ;;
       match r with
       | Failed _ => ret (error "Failed to create task")
       | Data task =>
           (* Insert skill ratings *)
           r2 <- Supabase.insert_skill_ratings
                   (ratingsToInsert (Task.id task)
                      (TaskSubmissionFormData.skill_ratings formData)) ;;
           match r2 with
           | Failed _ =>
               (* Rollback: delete the task *)
               Supabase.delete_task (Task.id task) ;;;
               ret (error "Failed to save skill ratings")
           | Data _ => ret (success task)
           end
       end)
    (fun e => ret (error (message_of e))).

Definition updateTask (taskId : uuid) (formData : TaskSubmissionFormData.t)
  : M (ActionResult unit) :=
  try_catch
    (user <- getCurrentUser ;;
     (* Verify ownership *)
     r0 <- Supabase.select_task_owner taskId ;;
     match r0 with
     | Failed _ => ret (error "Task not found")
     | Data existing_user_id =>
         if negb (existing_user_id =? user)%string
         then ret (error "Not authorized to update this task")
         else
           (* Validate all skills are rated *)
           skills <- getAllSkills ;;
           if negb (Z.of_nat (length (TaskSubmissionFormData.skill_ratings formData))
                    =? Z.of_nat (length skills))
           then ret (error "All skills must be rated")
           else
             (* Update task *)
             r <- Supabase.update_task taskId (fun t =>
                    Task.mk (Task.id t) (Task.user_id t)
                      (TaskSubmissionFormData.title formData)
                      (TaskSubmissionFormData.description formData)
                      (TaskSubmissionFormData.task_date formData)
                      (or_null (TaskSubmissionFormData.external_link formData))
                      (TaskSubmissionFormData.priority formData)
                      (TaskSubmissionFormData.delivered_on_time formData)
                      (TaskSubmissionFormData.manager_found_issues formData)
                      (or_null (TaskSubmissionFormData.manager_notes formData))
                      (TaskSubmissionFormData.manager_helped_analysis formData)) ;;
             match r with
             | Failed _ => ret (error "Failed to update task")
             | Data _ =>
                 (* Delete existing ratings *)
                 Supabase.delete_skill_ratings taskId ;;;
                 (* Insert new skill ratings *)
                 r2 <- Supabase.insert_skill_ratings
                         (ratingsToInsert taskId
                            (TaskSubmissionFormData.skill_ratings formData)) ;;
                 match r2 with
                 | Failed _ => ret (error "Failed to update skill ratings")
                 | Data _ => ret (success tt)
                 end
             end
     end)
    (fun e => ret (error (message_of e))).

Definition deleteTask (taskId : uuid) : M (ActionResult unit) :=
  try_catch
    (user <- getCurrentUser ;;
     (* Verify ownership *)
     r0 <- Supabase.select_task_owner taskId ;;
     match r0 with
     | Failed _ => ret (error "Task not found")
     | Data existing_user_id =>
         if negb (existing_user_id =? user)%string
         then ret (error "Not authorized to delete this task")
         else
           (* Delete task (cascades to skill_ratings) *)
           r <- Supabase.delete_task taskId ;;
           match r with
           | Failed _ => ret (error "Failed to delete task")
           | Data _ => ret (success tt)
           end
     end)
    (fun e => ret (error (message_of e))).

(** The mean rating attached to a fetched task; 0 without ratings. *)
Definition task_average (ratings : list RatingWithSkill.t) : Q :=
  let total :=
    fold_left (fun sum r => sum + SkillRating.rating (RatingWithSkill.row r))
              ratings 0 in
  if 0 <? Z.of_nat (length ratings)
  then Qdiv (inject_Z total) (inject_Z (Z.of_nat (length ratings)))
  else 0%Q.

Definition with_average (t : TaskWithDetails.t) : TaskWithDetails.t :=
  TaskWithDetails.mk (TaskWithDetails.task t)
    (TaskWithDetails.skill_ratings t)
    (Some (task_average (TaskWithDetails.skill_ratings t))).

Definition getUserTasks (userId : option uuid) (limit offset : Z)
  : M (list TaskWithDetails.t) :=
  try_catch
    (user <- getCurrentUser ;;
     let targetUserId :=
       match userId with
       | Some u => if Js.truthy u then u else user
       | None => user
       end in
     (* Only allow users to fetch their own tasks *)
     if negb (targetUserId =? user)%string
     then throw (Error "Not authorized to view these tasks")
     else
       r <- Supabase.select_user_tasks targetUserId limit offset ;;
       match r with
       | Failed _ => throw (Error "Failed to fetch tasks")
       | Data data =>
           (* Calculate average rating for each task *)
           ret (map with_average data)
       end)
    (fun _ => ret []).

Definition getTaskById (taskId : uuid) : M (option TaskWithDetails.t) :=
  try_catch
    (user <- getCurrentUser ;;
     r <- Supabase.select_task_by_id taskId ;;
     match r with
     | Failed _ => ret None
     | Data data =>
         (* Verify ownership *)
         if negb (Task.user_id (TaskWithDetails.task data) =? user)%string
         then throw (Error "Not authorized to view this task")
         else ret (Some (with_average data))
     end)
    (fun _ => ret None).

(* ===================================================================== *)
(** ** The performance actions *)
(* ===================================================================== *)

(** [Array.isArray(x) ? x[0] : x]. *)
Definition unwrap {A} (x : Embedded A) : option A :=
  match x with
  | Many l => hd_error l
  | Single o => o
  end.

Module Overall.
Record t := mk {
  all_skills : list SkillAverage.t;
  strengths : list SkillAverage.t;
  growth_opportunities : list SkillAverage.t
}.
End Overall.

Definition no_skills : Overall.t := Overall.mk [] [] [].

(** The entry [{ ratings, name }] of the skill map. *)
Module Group.
Record t := mk { ratings : list Z; name : string }.
Definition push (x : Z) (g : t) : t := mk (ratings g ++ [x]) (name g).
End Group.

(** One round of [manualData.forEach]: group by skill. *)
Definition group_step (skillMap : Js.Map uuid Group.t) (item : RatingRow.t)
  : Js.Map uuid Group.t :=
  match unwrap (RatingRow.skill item) with
  | Some skill =>
      if Js.truthy (SkillRef.id skill) && Js.truthy (SkillRef.name skill)
      then
        let m := if negb (Js.has String.eqb skillMap (SkillRef.id skill))
                 then Js.set String.eqb skillMap (SkillRef.id skill)
                             (Group.mk [] (SkillRef.name skill))
                 else skillMap in
        Js.update String.eqb m (SkillRef.id skill) (Group.push (RatingRow.rating item))
      else skillMap
  | None => skillMap
  end.

Definition group_by_skill (manualData : list RatingRow.t)
  : Js.Map uuid Group.t :=
  fold_left group_step manualData [].

(** [sum / length] of an array of integers. *)
Definition mean (ratings : list Z) : Q :=
  Qdiv (inject_Z (Js.sum ratings)) (inject_Z (Z.of_nat (length ratings))).

(** The [SkillAverage] of one entry of the skill map. *)
Definition to_average (entry : uuid * Group.t) : SkillAverage.t :=
  let (skill_id, g) := entry in
  SkillAverage.mk skill_id (Group.name g)
    (mean (Group.ratings g))
    (Z.of_nat (length (Group.ratings g)))
    (Js.Math_min (Group.ratings g))
    (Js.Math_max (Group.ratings g)).

Definition manual_averages (manualData : list RatingRow.t)
  : list SkillAverage.t :=
  map to_average (group_by_skill manualData).

(** The comparator [(a, b) => b.average_rating - a.average_rating]. *)
Definition by_average_desc (a b : SkillAverage.t) : Q :=
  Qminus (SkillAverage.average_rating b) (SkillAverage.average_rating a).

(** Sort by average rating, then cut the two ends. *)
Definition rank (all_skills : list SkillAverage.t) : Overall.t :=
  let sorted := Js.sort by_average_desc all_skills in
  Overall.mk sorted
    (Js.slice sorted 0 (Some 5))
    (Js.reverse (Js.slice sorted (-5) None)).

Definition getOverallSkillAverages : M Overall.t :=
  try_catch
    (user <- getCurrentUser ;;
     r <- Supabase.rpc_overall user ;;
     match r with
     | Failed _ =>
         (* If RPC doesn't exist, fallback to manual query *)
         r' <- Supabase.select_rating_rows user None None ;;
         match r' with
         | Failed _ => ret no_skills
         | Data manualData => ret (rank (manual_averages manualData))
         end
     | Data data =>
         (* Process RPC result *)
         ret (rank (match data with Some d => d | None => [] end))
     end)
    (fun _ => ret no_skills).

(** The bucket keys. *)
Definition weekKey (tz : Z) (task_date : CivilDate) : CivilDate :=
  let taskDate := Date.of_date_string task_date in
  (* Get Monday of the week *)
  let weekStart :=
    Date.setDate tz taskDate
      (Date.getDate tz taskDate - Date.getDay tz taskDate + 1) in
  Date.toISODate weekStart.

Definition monthKey (tz : Z) (task_date : CivilDate) : CivilDate :=
  let taskDate := Date.of_date_string task_date in
  (* Get first day of month *)
  let monthStart :=
    Date.of_components tz (Date.getFullYear tz taskDate)
                       (Date.getMonth tz taskDate) 1 in
  Date.toISODate monthStart.

(** One round of [data.forEach]: group by skill and bucket. *)
Definition trend_step (key : CivilDate -> CivilDate)
  (trendMap : Js.Map uuid (Js.Map CivilDate (list Z))) (item : RatingRow.t)
  : Js.Map uuid (Js.Map CivilDate (list Z)) :=
  match unwrap (RatingRow.skill item), unwrap (RatingRow.task item) with
  | Some skill, Some task =>
      if Js.truthy (SkillRef.id skill)
      then
        let k := key (TaskRef.task_date task) in
        let m := if negb (Js.has String.eqb trendMap (SkillRef.id skill))
                 then Js.set String.eqb trendMap (SkillRef.id skill) []
                 else trendMap in
        Js.update String.eqb m (SkillRef.id skill)
          (fun buckets =>
             let b := if negb (Js.has date_eqb buckets k)
                      then Js.set date_eqb buckets k []
                      else buckets in
             Js.update date_eqb b k (fun ratings => ratings ++ [RatingRow.rating item]))
      else trendMap
  | _, _ => trendMap
  end.

(** [skill?.name || 'Unknown'] of the first row of that skill. *)
Definition skill_name_of (data : list RatingRow.t) (skillId : uuid) : string :=
  match find (fun item =>
                match unwrap (RatingRow.skill item) with
                | Some skill => (SkillRef.id skill =? skillId)%string
                | None => false
                end) data with
  | Some skillData =>
      match unwrap (RatingRow.skill skillData) with
      | Some skill =>
          if Js.truthy (SkillRef.name skill) then SkillRef.name skill
          else "Unknown"
      | None => "Unknown"
      end
  | None => "Unknown"
  end.

(** [a.period.localeCompare(b.period)]. *)
Definition by_period (a b : SkillTrend.t) : Q :=
  match date_compare (SkillTrend.period a) (SkillTrend.period b) with
  | Lt => (-1)%Q
  | Eq => 0%Q
  | Gt => 1%Q
  end.

Definition trends_of (key : CivilDate -> CivilDate) (data : list RatingRow.t)
  : list SkillTrend.t :=
  let trendMap := fold_left (trend_step key) data [] in
  let trends :=
    flat_map
      (fun '(skillId, buckets) =>
         map (fun '(k, ratings) =>
                SkillTrend.mk skillId (skill_name_of data skillId) k
                  (mean ratings) (Z.of_nat (length ratings)))
             buckets)
      trendMap in
  (* Sort by period *)
  Js.sort by_period trends.

Definition getWeeklySkillTrends (weekCount : Z) : M (list SkillTrend.t) :=
  try_catch
    (user <- getCurrentUser ;;
     fun w =>
       (* Calculate date range *)
       let tz := LocalTZA w in
       let endDate := now w in
       let startDate :=
         Date.setDate tz (now w) (Date.getDate tz (now w) - weekCount * 7) in
       (r <- Supabase.select_rating_rows user
               (Some (Date.toISODate startDate))
               (Some (Date.toISODate endDate)) ;;
        match r with
        | Failed _ => ret []
        | Data data => ret (trends_of (weekKey tz) data)
        end) w)
    (fun _ => ret []).

Definition getMonthlySkillTrends (monthCount : Z) : M (list SkillTrend.t) :=
  try_catch
    (user <- getCurrentUser ;;
     fun w =>
       (* Calculate date range *)
       let tz := LocalTZA w in
       let endDate := now w in
       let startDate :=
         Date.setMonth tz (now w) (Date.getMonth tz (now w) - monthCount) in
       (r <- Supabase.select_rating_rows user
               (Some (Date.toISODate startDate))
               (Some (Date.toISODate endDate)) ;;
        match r with
        | Failed _ => ret []
        | Data data => ret (trends_of (monthKey tz) data)
        end) w)
    (fun _ => ret []).

Definition no_summary : PerformanceSummary.t :=
  PerformanceSummary.mk 0 0 [] [] [] 0 0 0.

(** [(count / total_tasks) * 100]. *)
Definition rate (count total_tasks : Z) : Q :=
  Qmult (Qdiv (inject_Z count) (inject_Z total_tasks)) 100.

(** [tasks.filter(flag).length]. *)
Definition count_if (flag : Task.t -> bool) (tasks : list Task.t) : Z :=
  Z.of_nat (length (filter flag tasks)).

(** The mean of the averages of a list of skills; 0 on the empty list. *)
Definition overall_average_of (all_skills : list SkillAverage.t) : Q :=
  if 0 <? Z.of_nat (length all_skills)
  then Qdiv (fold_left (fun sum skill => Qplus sum (SkillAverage.average_rating skill))
                       all_skills 0%Q)
            (inject_Z (Z.of_nat (length all_skills)))
  else 0%Q.

Definition getPerformanceSummary (startDate endDate : option CivilDate)
  : M PerformanceSummary.t :=
  try_catch
    (user <- getCurrentUser ;;
     r <- Supabase.select_tasks user startDate endDate ;;
     match r with
     | Failed _ => throw (Error "Failed to fetch performance summary")
     | Data tasks =>
         let total_tasks := Z.of_nat (length tasks) in
         if total_tasks =? 0
         then ret no_summary
         else
           (* Calculate delivery and manager metrics *)
           let on_time_count := count_if Task.delivered_on_time tasks in
           let manager_issues_count := count_if Task.manager_found_issues tasks in
           let manager_helped_count := count_if Task.manager_helped_analysis tasks in
           (* Get skill averages for the period *)
           o <- getOverallSkillAverages ;;
           ret (PerformanceSummary.mk total_tasks
                  (overall_average_of (Overall.all_skills o))
                  (Overall.all_skills o)
                  (Overall.strengths o)
                  (Overall.growth_opportunities o)
                  (rate on_time_count total_tasks)
                  (rate manager_issues_count total_tasks)
                  (rate manager_helped_count total_tasks))
     end)
    (fun _ => ret no_summary).

(** *** The averages in double arithmetic *)

(** The arithmetic of the code is IEEE 754 binary64: each sum and each
    quotient is rounded to nearest.  The integers involved (a sum of
    ratings, a length) are far below 2^53 and convert exactly. *)
Module Double.

Definition of_int (z : Z) : PrimFloat.float :=
  PrimFloat.of_uint63 (Uint63.of_Z z).

(** [ratings.reduce((a, b) => a + b, 0) / ratings.length]. *)
Definition mean (ratings : list Z) : PrimFloat.float :=
  PrimFloat.div (of_int (Js.sum ratings)) (of_int (Z.of_nat (length ratings))).

(** [all_skills.reduce((sum, skill) => sum + skill.average_rating, 0)
    / all_skills.length], and 0 on the empty list. *)
Definition overall_average_of (averages : list PrimFloat.float)
  : PrimFloat.float :=
  if 0 <? Z.of_nat (length averages)
  then PrimFloat.div (fold_left PrimFloat.add averages PrimFloat.zero)
                     (of_int (Z.of_nat (length averages)))
  else PrimFloat.zero.

End Double.

(* ===================================================================== *)
(** ** The pages and components that call the actions *)
(* ===================================================================== *)

(** The part of the callers that computes: the grouping and the counters
    of the performance page, the sort of the trend chart, and the rating
    map of the submission form.  Rendering is left out. *)

Module PerformancePage.



(** Get top 4 skills to show trends for. *)
Definition topSkillsToChart (skillAverages : Overall.t) : list SkillAverage.t :=
  Js.slice (Overall.strengths skillAverages) 0 (Some 4).

Definition hasData (skillAverages : Overall.t) : bool :=
  0 <? Z.of_nat (length (Overall.all_skills skillAverages)).



End PerformancePage.

Module SkillTrendChart.

(** Sort trends by period. *)
Definition sortedTrends (trends : list SkillTrend.t) : list SkillTrend.t :=
  Js.sort by_period trends.

(** The series of the chart. *)
Definition data (trends : list SkillTrend.t) : list Q :=
  map SkillTrend.average_rating (sortedTrends trends).

End SkillTrendChart.

Module RatingInput.

(** The five buttons of the input of a skill. *)
Definition ratings : list Z := [1; 2; 3; 4; 5].

End RatingInput.

Module TaskSubmissionForm.

(** [handleRatingChange]: a copy of the map in which the skill has the
    rating. *)
Definition handleRatingChange (prev : Js.Map uuid Z) (skillId : uuid) (rating : Z)
  : Js.Map uuid Z :=
  Js.set String.eqb prev skillId rating.

(** A click on the button [rating] of the input of the skill [skillId]. *)
Record Click := click { skillId : uuid; rating : Z }.

(** The form renders one input for each loaded skill, with the five
    buttons each. *)
Definition offered (skills : list Skill.t) (c : Click) : bool :=
  existsb (fun s => (Skill.id s =? skillId c)%string) skills
  && existsb (Z.eqb (rating c)) RatingInput.ratings.

(** The state [skillRatings] after a sequence of clicks, from the empty
    map of the first render; a click on a button that is not rendered
    does not happen. *)
Definition skillRatings (skills : list Skill.t) (clicks : list Click)
  : Js.Map uuid Z :=
  fold_left
    (fun m c => if offered skills c
                then handleRatingChange m (skillId c) (rating c)
                else m)
    clicks [].

End TaskSubmissionForm.

(* ===================================================================== *)
(** ** Notions used in the statements *)
(* ===================================================================== *)

(** *** Order of the skill lists *)

(** [x] has to go behind [y] in the sort of the action: the comparator
    [(a, b) => b.average_rating - a.average_rating] is strictly positive. *)
Definition after_avg (x y : SkillAverage.t) : bool :=
  negb (Qle_bool (by_average_desc x y) 0).

(** Descending order of the averages. *)
Definition avg_ge (x y : SkillAverage.t) : Prop :=
  (SkillAverage.average_rating y <= SkillAverage.average_rating x)%Q.

(** The skills whose average is [q]. *)
Definition has_average (q : Q) (a : SkillAverage.t) : bool :=
  Qeq_bool (SkillAverage.average_rating a) q.

(** The order the specification asks for: mean descending, then count
    descending, then name ascending. *)
Definition spec_before (a b : SkillAverage.t) : Prop :=
  (SkillAverage.average_rating b < SkillAverage.average_rating a)%Q \/
  ((SkillAverage.average_rating a == SkillAverage.average_rating b)%Q /\
   (SkillAverage.rating_count b < SkillAverage.rating_count a \/
    (SkillAverage.rating_count a = SkillAverage.rating_count b /\
     (SkillAverage.skill_name a <=? SkillAverage.skill_name b)%string = true))).

(** [top5] and [bottom5] are the two ends of the sorted list [all]: its
    first five entries, and its last five in reverse order, so that
    reversing [bottom5] gives the tail of [all] and the entry with the
    lowest mean comes first; with at most five entries both hold all of
    them. *)
Definition two_ends (all top5 bottom5 : list SkillAverage.t) : Prop :=
  top5 = firstn 5 all /\
  bottom5 = rev (skipn (length all - 5) all) /\
  rev bottom5 = skipn (length all - 5) all /\
  all = firstn (length all - 5) all ++ rev bottom5 /\
  ((length all <= 5)%nat -> top5 = all /\ bottom5 = rev all) /\
  (forall lowest rest x,
     bottom5 = lowest :: rest -> In x all ->
     (SkillAverage.average_rating lowest <= SkillAverage.average_rating x)%Q).

(** *** Means and raw ratings *)

(** The words of the specification: the arithmetic mean of a list of
    numbers is their sum divided by their number. *)
Definition Qsum (l : list Q) : Q := fold_right Qplus 0%Q l.

Definition arithmetic_mean (l : list Q) : Q :=
  Qdiv (Qsum l) (inject_Z (Z.of_nat (length l))).

(** The ratings collected in a skill map, group after group. *)
Definition all_ratings (groups : Js.Map uuid Group.t) : list Z :=
  flat_map (fun e => Group.ratings (snd e)) groups.

(** The rows the grouping loop takes: those with a skill whose id and name
    are both truthy. *)
Definition counted (item : RatingRow.t) : bool :=
  match unwrap (RatingRow.skill item) with
  | Some skill => Js.truthy (SkillRef.id skill) && Js.truthy (SkillRef.name skill)
  | None => false
  end.

Definition raw_ratings (manualData : list RatingRow.t) : list Z :=
  map RatingRow.rating (filter counted manualData).

(** The id of the skill of a row, and the rows the grouping loop files
    under the skill [k], with their ratings. *)
Definition skill_id_of (item : RatingRow.t) : uuid :=
  match unwrap (RatingRow.skill item) with
  | Some skill => SkillRef.id skill
  | None => ""
  end.

Definition rated_as (k : uuid) (item : RatingRow.t) : bool :=
  counted item && (skill_id_of item =? k)%string.

Definition ratings_of_skill (manualData : list RatingRow.t) (k : uuid) : list Z :=
  map RatingRow.rating (filter (rated_as k) manualData).

(** *** Actions *)

(** Authentication fails: the auth service is unreachable, or it reports
    no identity. *)
Definition auth_fails (w : World) : Prop :=
  session w = None \/ exists fs, faults w = true :: fs.

(** The fate of the [i]-th coming request ([true]: it fails). *)
Definition fate (w : World) (i : nat) : bool := nth i (faults w) false.

(** The call of [getOverallSkillAverages] nested in the summary is the
    third request and the following ones; it fails at its authentication,
    or at the stored function and then at the manual query. *)
Definition nested_call_fails (w : World) : Prop :=
  fate w 2 = true \/
  (fate w 2 = false /\
   (fate w 3 = true \/ rpc_get_overall_skill_averages w = None) /\
   fate w 4 = true).

(** The caller owns no task with this id. *)
Definition not_owner (w : World) (tid : uuid) : Prop :=
  forall t, In t (tasks (db w)) -> Task.id t = tid ->
            Supabase.owns w (Task.user_id t) = false.

(** The messages with which a write action turns a caller away. *)
Definition denial (verb msg : string) : Prop :=
  msg = "Not authenticated" \/ msg = "Task not found"
  \/ msg = ("Not authorized to " ++ verb ++ " this task")%string.

(** Two worlds with the same backend: they differ at most in the fault
    schedule. *)
Definition same_backend (w w1 : World) : Prop :=
  db w1 = db w /\ session w1 = session w /\ rls w1 = rls w /\
  rpc_get_overall_skill_averages w1 = rpc_get_overall_skill_averages w.

(** The summary built from the filtered tasks and from an answer of
    [getOverallSkillAverages]. *)
Definition summary_from (filtered : list Task.t) (o : Overall.t)
  : PerformanceSummary.t :=
  let total_tasks := Z.of_nat (length filtered) in
  PerformanceSummary.mk total_tasks
    (overall_average_of (Overall.all_skills o))
    (Overall.all_skills o) (Overall.strengths o)
    (Overall.growth_opportunities o)
    (rate (count_if Task.delivered_on_time filtered) total_tasks)
    (rate (count_if Task.manager_found_issues filtered) total_tasks)
    (rate (count_if Task.manager_helped_analysis filtered) total_tasks).

(** The list the action sorts: the answer of the stored function when the
    call succeeds, else the averages computed from all rating rows of the
    user. *)
Inductive overall_source (w : World) (user : uuid) : list SkillAverage.t -> Prop :=
| from_rpc f :
    rpc_get_overall_skill_averages w = Some f ->
    overall_source w user (match f (db w) user with Some d => d | None => [] end)
| from_rows :
    overall_source w user
      (manual_averages (Supabase.rating_rows w user None None)).

(** The list [getOverallSkillAverages] sorts when no request fails: the
    answer of the stored function where the database has one, else the
    averages computed from all rating rows of the user. *)
Definition skills_source (w : World) (user : uuid) : list SkillAverage.t :=
  match rpc_get_overall_skill_averages w with
  | Some f => match f (db w) user with Some d => d | None => [] end
  | None => manual_averages (Supabase.rating_rows w user None None)
  end.

(** The skill lists the specification asks for: computed from the rating
    rows of the tasks within the date range. *)
Definition spec_filtered_skills (w : World) (user : uuid)
  (from to : option CivilDate) : Overall.t :=
  rank (manual_averages (Supabase.rating_rows w user from to)).

(** Every rating belongs to a stored task (the foreign key of
    [skill_ratings.task_id]). *)
Definition referential (d : Db) : Prop :=
  forall r, In r (skill_ratings d) ->
            exists t, In t (tasks d) /\ Task.id t = SkillRating.task_id r.

(** The user has no task. *)
Definition no_tasks_of (w : World) (user : uuid) : Prop :=
  forall t, In t (tasks (db w)) -> Task.user_id t <> user.

(** *** Calendar *)

(** The bucket starts of the specification: the Monday on or before a
    date (day 0, 1970-01-01, is a Thursday). *)
Definition spec_week_start (d : CivilDate) : CivilDate :=
  let n := Date.days_from_civil (year d) (month d) (day d) in
  Date.civil_from_days (n - (n + 3) mod 7).

(** The first day of the month of a date. *)
Definition spec_month_start (d : CivilDate) : CivilDate :=
  mkDate (year d) (month d) 1.

(** One hour of time-zone offset, in milliseconds. *)
Definition hour : Z := 3600000.

(** The calendar computations on one day of a 400-year era. *)
Definition era_day_ok (doe : Z) : bool :=
  let yoe := (doe - doe / 1460 + doe / 36524 - doe / 146096) / 365 in
  let doy := doe - (365 * yoe + yoe / 4 - yoe / 100) in
  let mp := (5 * doy + 2) / 153 in
  let d := doy - (153 * mp + 2) / 5 + 1 in
  let m := if mp <? 10 then mp + 3 else mp - 9 in
  (0 <=? yoe) && (yoe <? 400) && (1 <=? m) && (m <=? 12)
  && (1 <=? d) && (d <=? 31)
  && (yoe * 365 + yoe / 4 - yoe / 100
      + ((153 * (if m >? 2 then m - 3 else m + 9) + 2) / 5 + d - 1) =? doe).

(** [p] holds of [count] consecutive integers from [start]. *)
Fixpoint all_from (p : Z -> bool) (start : Z) (count : nat) : bool :=
  match count with
  | O => true
  | S c => p start && all_from p (start + 1) c
  end.

(** The first day of month [m] of the year [yoe] of an era (years of an
    era start in March) is found again by [civil_from_days]. *)
Definition first_of_month_ok (yoe m : Z) : bool :=
  let doy := (153 * (if m >? 2 then m - 3 else m + 9) + 2) / 5 in
  let doe := yoe * 365 + yoe / 4 - yoe / 100 + doy in
  let yoe' := (doe - doe / 1460 + doe / 36524 - doe / 146096) / 365 in
  let doy' := doe - (365 * yoe' + yoe' / 4 - yoe' / 100) in
  let mp := (5 * doy' + 2) / 153 in
  (0 <=? doe) && (doe <? 146097) && (yoe' =? yoe)
  && ((if mp <? 10 then mp + 3 else mp - 9) =? m)
  && (doy' - (153 * mp + 2) / 5 + 1 =? 1).

Definition months_ok (yoe : Z) : bool := all_from (first_of_month_ok yoe) 1 12.

(** *** Maps and grouping loops *)

Section MapNotions.
Variables K V : Type.
Variable eqb : K -> K -> bool.

(** The keys of a map, in insertion order. *)
Definition keys (m : Js.Map K V) : list K := map fst m.

(** The idiom of the grouping loops: [if (!m.has(k)) m.set(k, init)],
    then a mutation of [m.get(k)]. *)
Definition upsert (m : Js.Map K V) (k : K) (init : V) (f : V -> V) : Js.Map K V :=
  Js.update eqb (if negb (Js.has eqb m k) then Js.set eqb m k init else m) k f.

(** The content of a map, measured value by value. *)
Variable size : V -> nat.

Definition total (m : Js.Map K V) : nat :=
  fold_right (fun e n => (size (snd e) + n)%nat) O m.
End MapNotions.

Section GroupNotions.
Variables A K V : Type.
Variable eqb : K -> K -> bool.
Variable taken : A -> bool.
Variable key : A -> K.
Variable init : V.
Variable add : A -> V -> V.


End GroupNotions.

(** *** Groups and buckets of the aggregations *)

Definition skill_name_in (item : RatingRow.t) : string :=
  match unwrap (RatingRow.skill item) with
  | Some skill => SkillRef.name skill
  | None => ""
  end.

(** The entry of the skill map for the skill [k]: its ratings in the
    order of the rows, under the name of its first row. *)
Definition group_of_skill (manualData : list RatingRow.t) (k : uuid)
  : option Group.t :=
  match find (rated_as k) manualData with
  | Some first =>
      Some (Group.mk (ratings_of_skill manualData k) (skill_name_in first))
  | None => None
  end.








Definition name_le (a b : Skill.t) : Prop :=
  (Skill.name a <=? Skill.name b)%string = true.

Definition newer_first (a b : TaskWithDetails.t) : Prop :=
  date_leb (Task.task_date (TaskWithDetails.task b))
           (Task.task_date (TaskWithDetails.task a)) = true.

(** *** What an action does to the database *)

(** An action keeps a relation between the database it finds and the one
    it leaves, whatever it answers and whichever requests fail. *)
Definition keeps (R : Db -> Db -> Prop) (A : Type) (m : M A) : Prop :=
  forall w, R (db w) (db (snd (m w))).

(** What [updateTask] and [deleteTask] leave alone: the skills, the rows
    of the other tasks, and the ratings of the other tasks. *)
Definition other_tasks (tid : uuid) (d : Db) : list Task.t :=
  filter (fun t => negb (Task.id t =? tid)%string) (tasks d).

Definition other_ratings (tid : uuid) (d : Db) : list SkillRating.t :=
  filter (fun r => negb (SkillRating.task_id r =? tid)%string) (skill_ratings d).

Definition only_touches (tid : uuid) (d d' : Db) : Prop :=
  skills d' = skills d /\
  other_tasks tid d' = other_tasks tid d /\
  other_ratings tid d' = other_ratings tid d.

(** No task changes its id or its owner, and none appears or goes. *)
Definition same_ids_and_owners (d d' : Db) : Prop :=
  map Task.id (tasks d') = map Task.id (tasks d) /\
  map Task.user_id (tasks d') = map Task.user_id (tasks d).

(** What [updateTask] may do to the database. *)
Definition update_frame (tid : uuid) (d d' : Db) : Prop :=
  only_touches tid d d' /\ same_ids_and_owners d d'.

(** What [deleteTask] may do to the database: nothing is added. *)
Definition delete_frame (tid : uuid) (d d' : Db) : Prop :=
  only_touches tid d d' /\
  incl (tasks d') (tasks d) /\ incl (skill_ratings d') (skill_ratings d).

(** The primary key of [tasks]: no two rows share an id. *)
Definition tasks_key (d : Db) : Prop := NoDup (map Task.id (tasks d)).

(** The row [submitTask] inserts for a user, with the id the database
    gives it. *)
Definition new_task (id user : uuid) (formData : TaskSubmissionFormData.t)
  : Task.t :=
  Task.mk id user
    (TaskSubmissionFormData.title formData)
    (TaskSubmissionFormData.description formData)
    (TaskSubmissionFormData.task_date formData)
    (or_null (TaskSubmissionFormData.external_link formData))
    (TaskSubmissionFormData.priority formData)
    (TaskSubmissionFormData.delivered_on_time formData)
    (TaskSubmissionFormData.manager_found_issues formData)
    (or_null (TaskSubmissionFormData.manager_notes formData))
    (TaskSubmissionFormData.manager_helped_analysis formData).

(** A rating map the database accepts in full: every key the id of a
    stored skill, no key twice, every rating from 1 to 5. *)
Definition acceptable (d : Db) (ratings : Js.Map uuid Z) : Prop :=
  Forall (fun e => 1 <= snd e <= 5 /\ In (fst e) (map Skill.id (skills d)))
         ratings /\
  NoDup (map fst ratings).

(** The database after [t] and its ratings have been stored. *)
Definition with_task (d : Db) (t : Task.t) (ratings : Js.Map uuid Z) : Db :=
  mkDb (skills d) (tasks d ++ [t])
       (skill_ratings d ++ ratingsToInsert (Task.id t) ratings).

(** A world [w1] in which the new task [t] of [user] is stored next to
    the tasks of [d]. *)
Definition holds_new (d : Db) (user : uuid) (t : Task.t) (w1 : World) : Prop :=
  Task.user_id t = user /\ session w1 = Some user /\
  ~ In (Task.id t) (map Task.id (tasks d)) /\
  skills (db w1) = skills d /\ tasks (db w1) = tasks d ++ [t].

(* ===================================================================== *)
(** ** Scenarios *)
(* ===================================================================== *)

Module Scenario.

Definition skills : list Skill.t :=
  [Skill.mk "s1" "Analysis" true;
   Skill.mk "s2" "Planning" true;
   Skill.mk "s3" "Legacy" false].

Definition uuids (n : nat) : uuid :=
  match n with
  | O => "t1"
  | S O => "t2"
  | _ => "t3"
  end.

Definition form (d : CivilDate) (ratings : Js.Map uuid Z)
  : TaskSubmissionFormData.t :=
  TaskSubmissionFormData.mk "Fix login" "Session bug" d None medium
    true false None false ratings.

Definition task (id user : uuid) (d : CivilDate) : Task.t :=
  Task.mk id user "Fix login" "Session bug" d None medium true false None false.

(** The server clock of the scenarios: 2024-06-30T00:00Z. *)
Definition midnight : Z := Date.of_date_string (mkDate 2024 6 30).

Definition world (d : Db) (user : option uuid) (fs : list bool) : World :=
  mkWorld d user true fs uuids 0 midnight 0 None.

(** Alice signed in, no task yet. *)
Definition fresh : World := world (mkDb skills [] []) (Some "alice") [].

(** Alice has one task, fully rated. *)
Definition one_task : Db :=
  mkDb skills
    [task "t0" "alice" (mkDate 2024 1 10)]
    [SkillRating.mk "t0" "s1" 5; SkillRating.mk "t0" "s2" 3].

(** Alice has a task in January rated 5 and 3 and one in June rated 1
    and 1. *)
Definition two_periods : Db :=
  mkDb skills
    [task "t0" "alice" (mkDate 2024 1 10); task "t9" "alice" (mkDate 2024 6 10)]
    [SkillRating.mk "t0" "s1" 5; SkillRating.mk "t0" "s2" 3;
     SkillRating.mk "t9" "s1" 1; SkillRating.mk "t9" "s2" 1].

(** Two skills rated alike: Zeta is stored first, Alpha second. *)
Definition tied : Db :=
  mkDb [Skill.mk "s1" "Zeta" true; Skill.mk "s2" "Alpha" true]
    [task "t0" "alice" (mkDate 2024 1 10)]
    [SkillRating.mk "t0" "s1" 3; SkillRating.mk "t0" "s2" 3].

(** Bob has a task; Alice has none. *)
Definition bobs_task : Db :=
  mkDb skills
    [task "t0" "bob" (mkDate 2024 1 10)]
    [SkillRating.mk "t0" "s1" 5; SkillRating.mk "t0" "s2" 3].

(** Seven skills, and one task of Alice that rates them 3, 5, 1, 4, 2, 5
    and 2. *)
Definition seven_skills : Db :=
  mkDb [Skill.mk "k1" "Analysis" true; Skill.mk "k2" "Planning" true;
        Skill.mk "k3" "Testing" true; Skill.mk "k4" "Design" true;
        Skill.mk "k5" "Review" true; Skill.mk "k6" "Delivery" true;
        Skill.mk "k7" "Estimation" true]
    [task "t0" "alice" (mkDate 2024 1 10)]
    [SkillRating.mk "t0" "k1" 3; SkillRating.mk "t0" "k2" 5;
     SkillRating.mk "t0" "k3" 1; SkillRating.mk "t0" "k4" 4;
     SkillRating.mk "t0" "k5" 2; SkillRating.mk "t0" "k6" 5;
     SkillRating.mk "t0" "k7" 2].

End Scenario.

(** Rows in which Analysis and Planning are rated twice each. *)
Definition even_rows : list RatingRow.t :=
  let row r sid name :=
    RatingRow.mk r (Single (Some (SkillRef.mk sid name)))
                 (Single (Some (TaskRef.mk "alice" (mkDate 2024 1 10)))) in
  [row 5 "s1" "Analysis"; row 3 "s2" "Planning";
   row 1 "s1" "Analysis"; row 1 "s2" "Planning"].

(** Rows in which Analysis is rated once and Planning twice, always 3. *)
Definition uneven_rows : list RatingRow.t :=
  let row sid name :=
    RatingRow.mk 3 (Single (Some (SkillRef.mk sid name)))
                 (Single (Some (TaskRef.mk "alice" (mkDate 2024 1 10)))) in
  [row "s1" "Analysis"; row "s2" "Planning"; row "s2" "Planning"].

(** Rows in which Analysis is rated 1, 1, 1 and Planning 1, 1, 2. *)
Definition near_rows : list RatingRow.t :=
  let row r sid name :=
    RatingRow.mk r (Single (Some (SkillRef.mk sid name)))
                 (Single (Some (TaskRef.mk "alice" (mkDate 2024 1 10)))) in
  [row 1 "s1" "Analysis"; row 1 "s2" "Planning";
   row 1 "s1" "Analysis"; row 1 "s2" "Planning";
   row 1 "s1" "Analysis"; row 2 "s2" "Planning"].

(** The two doubles next to 7/6: 1.1666666666666665 below it and
    1.1666666666666667 above it. *)
Module SevenSixths.
Import PrimFloat.
Definition below : float := 0x1.2aaaaaaaaaaaap+0%float.
Definition above : float := 0x1.2aaaaaaaaaaabp+0%float.
End SevenSixths.

(* ===================================================================== *)
(** ** Proofs *)
(* ===================================================================== *)

(** *** The stable sort *)

Section StableSortFacts.
Variable A : Type.
Variable after : A -> A -> bool.

Lemma insert_perm (x : A) (l : list A) :
  Permutation (insert after x l) (x :: l).
Proof.
  induction l as [|y l IH]; simpl.
  - apply Permutation_refl.
  - destruct (after x y).
    + eapply perm_trans; [apply perm_skip, IH | apply perm_swap].
    + apply Permutation_refl.
Qed.

Lemma stable_sort_perm (l : list A) : Permutation (stable_sort after l) l.
Proof.
  induction l as [|x l IH]; simpl.
  - constructor.
  - eapply perm_trans; [apply insert_perm | apply perm_skip, IH].
Qed.

Hypothesis after_asym : forall x y, after x y = true -> after y x = false.

Lemma insert_hdrel (a x : A) (l : list A) :
  (may_precede after) a x -> HdRel (may_precede after) a l ->
  HdRel (may_precede after) a (insert after x l).
Proof.
  intros Hax Hal. destruct l as [|y l]; simpl.
  - constructor; exact Hax.
  - destruct (after x y); constructor.
    + inversion Hal; assumption.
    + exact Hax.
Qed.

Lemma insert_sorted (x : A) (l : list A) :
  Sorted (may_precede after) l -> Sorted (may_precede after) (insert after x l).
Proof.
  induction l as [|y l IH]; simpl; intros Hs.
  - repeat constructor.
  - destruct (after x y) eqn:E.
    + inversion Hs as [|? ? Hl Hy]; subst.
      constructor; [apply IH; exact Hl|].
      apply insert_hdrel; [apply after_asym; exact E | exact Hy].
    + constructor; [exact Hs | constructor; exact E].
Qed.

Lemma stable_sort_sorted (l : list A) : Sorted (may_precede after) (stable_sort after l).
Proof.
  induction l as [|x l IH]; simpl.
  - constructor.
  - apply insert_sorted, IH.
Qed.

(** Stability: a class of elements that [after] never separates comes
    out in its input order. *)
Section Stability.
Variable p : A -> bool.
Hypothesis p_tied : forall x y, p x = true -> p y = true -> after x y = false.

Lemma filter_insert (x : A) (l : list A) :
  filter p (insert after x l) = filter p (x :: l).
Proof.
  induction l as [|y l IH]; simpl; [reflexivity|].
  destruct (after x y) eqn:E; simpl; [|reflexivity].
  rewrite IH. simpl.
  destruct (p x) eqn:Px, (p y) eqn:Py; try reflexivity.
  rewrite (p_tied Px Py) in E. discriminate.
Qed.

Lemma filter_stable_sort (l : list A) :
  filter p (stable_sort after l) = filter p l.
Proof.
  induction l as [|x l IH]; simpl; [reflexivity|].
  rewrite filter_insert. simpl. rewrite IH. reflexivity.
Qed.
End Stability.
End StableSortFacts.

(** *** Slices *)

Lemma slice_first (A : Type) (l : list A) (n : nat) :
  Js.slice l 0 (Some (Z.of_nat n)) = firstn n l.
Proof.
  unfold Js.slice, Js.rel_index. simpl.
  destruct (Z.ltb_spec (Z.of_nat n) 0); [lia|].
  rewrite (Z.min_l 0) by lia. simpl.
  destruct (Nat.le_gt_cases n (length l)) as [Hn|Hn].
  - rewrite Z.min_l by lia. rewrite Z.sub_0_r, Nat2Z.id. reflexivity.
  - rewrite Z.min_r by lia. rewrite Z.sub_0_r, Nat2Z.id.
    rewrite !firstn_all2 by lia. reflexivity.
Qed.

Lemma slice_last (A : Type) (l : list A) (n : nat) :
  (0 < n)%nat ->
  Js.slice l (- Z.of_nat n) None = skipn (length l - n) l.
Proof.
  intros Hn. unfold Js.slice, Js.rel_index.
  destruct (Z.ltb_spec (- Z.of_nat n) 0); [|lia].
  replace (Z.to_nat (Z.max (Z.of_nat (length l) + - Z.of_nat n) 0))
    with (length l - n)%nat by lia.
  apply firstn_all2. rewrite length_skipn. lia.
Qed.

(** *** The order of the averages *)

Lemma Sorted_impl (A : Type) (R R' : A -> A -> Prop) (l : list A) :
  (forall x y, R x y -> R' x y) -> Sorted R l -> Sorted R' l.
Proof.
  intros HR. induction 1 as [|a l Hs IH Hh]; constructor; auto.
  destruct Hh; constructor; auto.
Qed.

Lemma after_avg_true (x y : SkillAverage.t) :
  after_avg x y = true <->
  (SkillAverage.average_rating x < SkillAverage.average_rating y)%Q.
Proof.
  unfold after_avg, by_average_desc. rewrite negb_true_iff.
  rewrite <- not_true_iff_false, Qle_bool_iff.
  unfold Qminus. split; intros H; lra.
Qed.

Lemma after_avg_false (x y : SkillAverage.t) :
  after_avg x y = false <->
  (SkillAverage.average_rating y <= SkillAverage.average_rating x)%Q.
Proof.
  rewrite <- not_true_iff_false, after_avg_true.
  split; [apply Qnot_lt_le | intros H H'; exact (Qlt_not_le _ _ H' H)].
Qed.

Lemma after_avg_asym (x y : SkillAverage.t) :
  after_avg x y = true -> after_avg y x = false.
Proof.
  rewrite after_avg_true, after_avg_false. apply Qlt_le_weak.
Qed.

Lemma sort_by_average_sorted (l : list SkillAverage.t) :
  StronglySorted avg_ge (Js.sort by_average_desc l).
Proof.
  apply Sorted_StronglySorted.
  - intros x y z Hxy Hyz. unfold avg_ge in *. eapply Qle_trans; eassumption.
  - unfold Js.sort. fold after_avg.
    eapply Sorted_impl; [|apply stable_sort_sorted, after_avg_asym].
    intros x y. apply after_avg_false.
Qed.

Lemma has_average_tied (q : Q) (x y : SkillAverage.t) :
  has_average q x = true -> has_average q y = true -> after_avg x y = false.
Proof.
  unfold has_average. intros Hx Hy.
  apply Qeq_bool_iff in Hx. apply Qeq_bool_iff in Hy.
  apply after_avg_false. rewrite Hx, Hy. apply Qle_refl.
Qed.

Lemma rank_sorted_stable (unsorted : list SkillAverage.t) :
  let sorted := Overall.all_skills (rank unsorted) in
  Permutation sorted unsorted /\
  StronglySorted avg_ge sorted /\
  forall q, filter (has_average q) sorted = filter (has_average q) unsorted.
Proof.
  simpl. split; [apply stable_sort_perm|].
  split; [apply sort_by_average_sorted|].
  intros q. unfold Js.sort. fold after_avg.
  apply filter_stable_sort. apply has_average_tied.
Qed.

Lemma has_average_self (a : SkillAverage.t) :
  has_average (SkillAverage.average_rating a) a = true.
Proof. unfold has_average. apply Qeq_bool_iff. reflexivity. Qed.

(** Two lists sorted by mean descending in which the skills of each mean
    stand in the same order are the same list. *)
Lemma sorted_stable_unique (l1 l2 : list SkillAverage.t) :
  StronglySorted avg_ge l1 -> StronglySorted avg_ge l2 ->
  (forall q, filter (has_average q) l1 = filter (has_average q) l2) ->
  l1 = l2.
Proof.
  revert l2. induction l1 as [|a t1 IH]; intros l2 H1 H2 Hf.
  - destruct l2 as [|b t2]; [reflexivity|].
    specialize (Hf (SkillAverage.average_rating b)). simpl in Hf.
    rewrite has_average_self in Hf. discriminate.
  - destruct l2 as [|b t2].
    { specialize (Hf (SkillAverage.average_rating a)). simpl in Hf.
      rewrite has_average_self in Hf. discriminate. }
    inversion H1 as [|? ? Hs1 Ha]; subst. inversion H2 as [|? ? Hs2 Hb]; subst.
    rewrite Forall_forall in Ha, Hb.
    assert (Hab : (SkillAverage.average_rating a <= SkillAverage.average_rating b)%Q).
    { assert (Hin : In a (filter (has_average (SkillAverage.average_rating a)) (b :: t2))).
      { rewrite <- Hf. simpl. rewrite has_average_self. left. reflexivity. }
      apply filter_In in Hin as [[<- | Hin] _]; [apply Qle_refl | apply (Hb a Hin)]. }
    assert (Hba : (SkillAverage.average_rating b <= SkillAverage.average_rating a)%Q).
    { assert (Hin : In b (filter (has_average (SkillAverage.average_rating b)) (a :: t1))).
      { rewrite Hf. simpl. rewrite has_average_self. left. reflexivity. }
      apply filter_In in Hin as [[<- | Hin] _]; [apply Qle_refl | apply (Ha b Hin)]. }
    assert (Hq : has_average (SkillAverage.average_rating a) b = true).
    { unfold has_average. apply Qeq_bool_iff. apply Qle_antisym; assumption. }
    assert (E := Hf (SkillAverage.average_rating a)). simpl in E.
    rewrite has_average_self, Hq in E. injection E as <- _.
    f_equal. apply IH; [assumption | assumption |].
    intros q. specialize (Hf q). simpl in Hf.
    destruct (has_average q a); [injection Hf as Hf|]; exact Hf.
Qed.

(** Whatever algorithm the engine uses: an array that is the input sorted
    by the comparator with ties in input order is the array of the
    model. *)
Lemma sort_by_average_unique (input sorted : list SkillAverage.t) :
  StronglySorted avg_ge sorted ->
  (forall q, filter (has_average q) sorted = filter (has_average q) input) ->
  sorted = Js.sort by_average_desc input.
Proof.
  intros Hs Hf. destruct (rank_sorted_stable input) as (_ & Hs' & Hf').
  apply sorted_stable_unique; [exact Hs | exact Hs' |].
  intros q. rewrite Hf. symmetry. apply Hf'.
Qed.

Lemma rank_two_ends (l : list SkillAverage.t) :
  two_ends (Overall.all_skills (rank l)) (Overall.strengths (rank l))
           (Overall.growth_opportunities (rank l)).
Proof.
  assert (Hsorted := sort_by_average_sorted l).
  unfold two_ends, rank.
  cbn [Overall.all_skills Overall.strengths Overall.growth_opportunities].
  set (all := Js.sort by_average_desc l) in *.
  change (Some 5) with (Some (Z.of_nat 5)). rewrite slice_first.
  change (-5) with (- Z.of_nat 5). rewrite slice_last by lia.
  unfold Js.reverse. rewrite rev_involutive.
  split; [reflexivity|]. split; [reflexivity|]. split; [reflexivity|].
  split; [symmetry; apply firstn_skipn|].
  split.
  - intros Hlen. rewrite firstn_all2 by lia.
    replace (length all - 5)%nat with 0%nat by lia. auto.
  - intros lowest rest x Hg Hin.
    assert (Hlast : exists front, all = front ++ [lowest]).
    { exists (firstn (length all - 5) all ++ rev rest).
      rewrite <- (firstn_skipn (length all - 5) all) at 1.
      rewrite <- app_assoc. f_equal.
      rewrite <- (rev_involutive (skipn _ all)), Hg. reflexivity. }
    destruct Hlast as [front Hall]. rewrite Hall in Hin, Hsorted.
    apply in_app_or in Hin as [Hin | [<- | []]]; [|apply Qle_refl].
    clear - Hsorted Hin. induction front as [|a front IH]; [destruct Hin|].
    simpl in Hsorted. inversion Hsorted as [|? ? Hs Hfa]; subst.
    destruct Hin as [<- | Hin]; [|apply IH; assumption].
    rewrite Forall_forall in Hfa. apply (Hfa lowest).
    apply in_or_app. right. left. reflexivity.
Qed.

(** *** Means *)

Lemma inject_Z_nonzero (z : Z) : z <> 0 -> ~ (inject_Z z == 0)%Q.
Proof. unfold Qeq. simpl. lia. Qed.

Lemma Qsum_perm (l l' : list Q) : Permutation l l' -> (Qsum l == Qsum l')%Q.
Proof.
  induction 1; simpl.
  - reflexivity.
  - rewrite IHPermutation. reflexivity.
  - ring.
  - etransitivity; eassumption.
Qed.

Lemma fold_left_Qplus (A : Type) (f : A -> Q) (l : list A) (a : Q) :
  (fold_left (fun sum x => Qplus sum (f x)) l a == a + Qsum (map f l))%Q.
Proof.
  revert a. induction l as [|x l IH]; intros a; simpl.
  - ring.
  - rewrite IH. ring.
Qed.

Lemma overall_average_of_mean (l : list SkillAverage.t) :
  l <> [] ->
  (overall_average_of l ==
   arithmetic_mean (map SkillAverage.average_rating l))%Q.
Proof.
  intros Hl. unfold overall_average_of, arithmetic_mean.
  destruct (Z.ltb_spec 0 (Z.of_nat (length l))) as [_|H].
  - rewrite fold_left_Qplus, length_map, Qplus_0_l. reflexivity.
  - destruct l; [congruence | simpl in H; lia].
Qed.

(** The overall average rests on the means alone, not on the counts. *)
Lemma overall_average_of_means (l l' : list SkillAverage.t) :
  map SkillAverage.average_rating l = map SkillAverage.average_rating l' ->
  (overall_average_of l == overall_average_of l')%Q.
Proof.
  intros E. unfold overall_average_of.
  assert (El : length l = length l').
  { rewrite <- (length_map SkillAverage.average_rating l), E. apply length_map. }
  rewrite El. destruct (0 <? Z.of_nat (length l')); [|reflexivity].
  rewrite !fold_left_Qplus, E. reflexivity.
Qed.

Lemma fold_left_add_acc (l : list Z) (a : Z) :
  fold_left Z.add l a = a + fold_left Z.add l 0.
Proof.
  revert a. induction l as [|x l IH]; intros a; simpl; [lia|].
  rewrite (IH (a + x)), (IH x). lia.
Qed.

Lemma sum_app (l1 l2 : list Z) : Js.sum (l1 ++ l2) = Js.sum l1 + Js.sum l2.
Proof.
  unfold Js.sum. rewrite fold_left_app. apply fold_left_add_acc.
Qed.

Lemma sum_cons (x : Z) (l : list Z) : Js.sum (x :: l) = x + Js.sum l.
Proof. change (x :: l) with ([x] ++ l). rewrite sum_app. reflexivity. Qed.

Lemma sum_perm (l l' : list Z) : Permutation l l' -> Js.sum l = Js.sum l'.
Proof.
  induction 1; rewrite ?sum_cons; lia.
Qed.

Lemma mean_perm (l l' : list Z) : Permutation l l' -> mean l = mean l'.
Proof.
  intros H. unfold mean.
  rewrite (sum_perm H), (Permutation_length H). reflexivity.
Qed.

Lemma equal_counts_sum (n : nat) (groups : Js.Map uuid Group.t) :
  (0 < n)%nat ->
  (forall e, In e groups -> length (Group.ratings (snd e)) = n) ->
  length (all_ratings groups) = (length groups * n)%nat /\
  (Qsum (map SkillAverage.average_rating (map to_average groups)) ==
   inject_Z (Js.sum (all_ratings groups)) / inject_Z (Z.of_nat n))%Q.
Proof.
  intros Hn. induction groups as [|[k g] groups IH]; intros Hall.
  - split; [reflexivity|]. simpl. unfold Js.sum; simpl. field.
    apply inject_Z_nonzero. lia.
  - destruct IH as [IHl IHs]; [intros e He; apply Hall; right; exact He|].
    assert (Hg : length (Group.ratings g) = n) by (apply (Hall (k, g)); left; reflexivity).
    split.
    + unfold all_ratings in *. simpl. rewrite length_app, IHl, Hg. lia.
    + unfold all_ratings in *. simpl. rewrite IHs, sum_app.
      unfold mean. rewrite Hg, inject_Z_plus. field.
      apply inject_Z_nonzero. lia.
Qed.

Lemma equal_counts_mean (n : nat) (groups : Js.Map uuid Group.t) :
  groups <> [] -> (0 < n)%nat ->
  (forall e, In e groups -> length (Group.ratings (snd e)) = n) ->
  (overall_average_of (Overall.all_skills (rank (map to_average groups)))
   == mean (all_ratings groups))%Q.
Proof.
  intros Hne Hn Hall.
  assert (Hp : Permutation (Overall.all_skills (rank (map to_average groups)))
                           (map to_average groups))
    by apply stable_sort_perm.
  rewrite overall_average_of_mean.
  2:{ intros E. rewrite E in Hp. apply Permutation_nil in Hp.
      destruct groups; [congruence | discriminate]. }
  unfold arithmetic_mean.
  rewrite (Qsum_perm (Permutation_map _ Hp)).
  rewrite length_map, (Permutation_length Hp), length_map.
  destruct (@equal_counts_sum n groups Hn Hall) as [Hl Hs].
  rewrite Hs. unfold mean. rewrite Hl.
  rewrite Nat2Z.inj_mul, inject_Z_mult. field.
  split; apply inject_Z_nonzero.
  - lia.
  - destruct groups; [congruence | simpl; lia].
Qed.







(** *** The calendar *)

(** Day 0 is Thursday 1970-01-01; 2000 is a leap year and 1900 is not. *)
Example calendar_landmarks :
  Date.days_from_civil 1970 1 1 = 0 /\
  Date.WeekDay 0 = 4 /\
  Date.civil_from_days 19723 = mkDate 2024 1 1 /\
  Date.WeekDay (Date.of_date_string (mkDate 2024 1 1)) = 1 /\
  Date.civil_from_days (Date.days_from_civil 2000 2 28 + 1) = mkDate 2000 2 29 /\
  Date.civil_from_days (Date.days_from_civil 1900 2 28 + 1) = mkDate 1900 3 1 /\
  Date.civil_from_days (-1) = mkDate 1969 12 31.
Proof. repeat split. Qed.

Lemma all_from_spec (p : Z -> bool) (count : nat) :
  forall start, all_from p start count = true ->
  forall z, start <= z < start + Z.of_nat count -> p z = true.
Proof.
  induction count as [|c IH]; intros start H z Hz; [lia|].
  simpl in H. apply andb_true_iff in H as [H0 H1].
  destruct (Z.eq_dec z start) as [->|Hne]; [exact H0|].
  apply (IH (start + 1) H1). lia.
Qed.

Lemma era_days_ok : all_from era_day_ok 0 (Z.to_nat 146097) = true.
Proof. vm_compute. reflexivity. Qed.

Lemma era_day_ok_all (doe : Z) : 0 <= doe < 146097 -> era_day_ok doe = true.
Proof.
  intros H. apply (all_from_spec _ _ era_days_ok). lia.
Qed.

Lemma civil_roundtrip (n : Z) :
  let d := Date.civil_from_days n in
  Date.days_from_civil (year d) (month d) (day d) = n
  /\ 1 <= month d <= 12 /\ 1 <= day d <= 31.
Proof.
  unfold Date.civil_from_days.
  set (z' := n + 719468).
  set (era := z' / 146097).
  set (doe := z' - era * 146097).
  assert (Hdoe : 0 <= doe < 146097).
  { unfold doe, era. pose proof (Z.div_mod z' 146097 ltac:(lia)).
    pose proof (Z.mod_pos_bound z' 146097 ltac:(lia)). lia. }
  assert (Hok := era_day_ok_all Hdoe). unfold era_day_ok in Hok.
  set (yoe := (doe - doe / 1460 + doe / 36524 - doe / 146096) / 365) in *.
  set (doy := doe - (365 * yoe + yoe / 4 - yoe / 100)) in *.
  set (mp := (5 * doy + 2) / 153) in *.
  set (d := doy - (153 * mp + 2) / 5 + 1) in *.
  set (m := if mp <? 10 then mp + 3 else mp - 9) in *.
  repeat (apply andb_true_iff in Hok as [Hok ?]).
  cbn [year month day]. unfold Date.days_from_civil.
  assert (Hy : (if m <=? 2 then (if m <=? 2 then yoe + era * 400 + 1 else yoe + era * 400) - 1
                else (if m <=? 2 then yoe + era * 400 + 1 else yoe + era * 400))
               = yoe + era * 400).
  { destruct (m <=? 2); lia. }
  rewrite Hy.
  assert (He : (yoe + era * 400) / 400 = era).
  { rewrite Z.div_add by lia. rewrite Z.div_small by lia. lia. }
  rewrite He.
  replace (yoe + era * 400 - era * 400) with yoe by lia.
  split; [|lia]. unfold z' in *. lia.
Qed.

Lemma days_from_civil_day (y m d k : Z) :
  Date.days_from_civil y m (d + k) = Date.days_from_civil y m d + k.
Proof. unfold Date.days_from_civil. lia. Qed.

Lemma civil_from_days_inj (a b : Z) :
  Date.civil_from_days a = Date.civil_from_days b -> a = b.
Proof.
  intros H. destruct (civil_roundtrip a) as [Ha _].
  destruct (civil_roundtrip b) as [Hb _]. rewrite H in Ha. congruence.
Qed.

(** [MakeDay] on the year and month of day [n]. *)
Lemma MakeDay_of_day (n dt : Z) :
  let d := Date.civil_from_days n in
  Date.MakeDay (year d) (month d - 1) dt = n - day d + dt.
Proof.
  destruct (civil_roundtrip n) as (Hn & Hm & _). cbv zeta in *.
  set (d := Date.civil_from_days n) in *.
  unfold Date.MakeDay.
  rewrite Z.div_small, Z.mod_small by lia.
  replace (month d - 1 + 1) with (month d) by lia.
  rewrite Z.add_0_r.
  pose proof (days_from_civil_day (year d) (month d) (day d) (1 - day d)) as E.
  replace (day d + (1 - day d)) with 1 in E by lia.
  rewrite E, Hn. lia.
Qed.

Lemma local_day_east (n tz : Z) :
  0 <= tz < Date.msPerDay ->
  Date.Day (Date.MakeDate n 0 + tz) = n /\
  Date.TimeWithinDay (Date.MakeDate n 0 + tz) = tz.
Proof.
  unfold Date.Day, Date.TimeWithinDay, Date.MakeDate, Date.msPerDay. intros H.
  replace (n * 86400000 + 0 + tz) with (tz + n * 86400000) by lia.
  rewrite Z.div_add, Z.mod_add by lia.
  rewrite Z.div_small, Z.mod_small by lia. lia.
Qed.

Lemma local_day_west (n tz : Z) :
  - Date.msPerDay <= tz < 0 ->
  Date.Day (Date.MakeDate n 0 + tz) = n - 1 /\
  Date.TimeWithinDay (Date.MakeDate n 0 + tz) = Date.msPerDay + tz.
Proof.
  unfold Date.Day, Date.TimeWithinDay, Date.MakeDate, Date.msPerDay. intros H.
  replace (n * 86400000 + 0 + tz)
    with (86400000 + tz + (n - 1) * 86400000) by lia.
  rewrite Z.div_add, Z.mod_add by lia.
  rewrite Z.div_small, Z.mod_small by lia. lia.
Qed.

Lemma day_of_days (k t : Z) :
  0 <= t < Date.msPerDay -> Date.Day (Date.MakeDate k t) = k.
Proof.
  unfold Date.Day, Date.MakeDate, Date.msPerDay. intros H.
  rewrite Z.add_comm, Z.div_add by lia. rewrite Z.div_small by lia. lia.
Qed.

(** The week key of the day with number [n] on a server at or east of
    UTC: the day with number [n + 1 - weekday], as in UTC. *)
Lemma weekKey_east (tz n : Z) :
  0 <= tz < Date.msPerDay ->
  weekKey tz (Date.civil_from_days n)
  = Date.civil_from_days (n + 1 - (n + 4) mod 7).
Proof.
  intros Htz. destruct (civil_roundtrip n) as (Hn & _). cbv zeta in Hn.
  destruct (local_day_east n Htz) as [Hd Ht].
  unfold weekKey, Date.of_date_string. rewrite Hn.
  unfold Date.setDate, Date.getDate, Date.getDay, Date.LocalTime, Date.UTC,
    Date.YearFromTime, Date.MonthFromTime, Date.DateFromTime, Date.WeekDay,
    Date.toISODate.
  rewrite Hd, Ht, MakeDay_of_day. f_equal.
  replace (Date.MakeDate (n - day (Date.civil_from_days n)
                          + (day (Date.civil_from_days n) - (n + 4) mod 7 + 1)) tz - tz)
    with (Date.MakeDate (n + 1 - (n + 4) mod 7) 0)
    by (unfold Date.MakeDate; lia).
  apply day_of_days. unfold Date.msPerDay. lia.
Qed.

(** West of UTC the date is read as the day before: the week key is the
    day after the Monday on or before the date, a Tuesday. *)
Lemma weekKey_west (tz n : Z) :
  - Date.msPerDay <= tz < 0 ->
  weekKey tz (Date.civil_from_days n)
  = Date.civil_from_days (n - (n + 3) mod 7 + 1).
Proof.
  intros Htz. destruct (civil_roundtrip n) as (Hn & _). cbv zeta in Hn.
  destruct (local_day_west n Htz) as [Hd Ht].
  unfold weekKey, Date.of_date_string. rewrite Hn.
  unfold Date.setDate, Date.getDate, Date.getDay, Date.LocalTime, Date.UTC,
    Date.YearFromTime, Date.MonthFromTime, Date.DateFromTime, Date.WeekDay,
    Date.toISODate.
  rewrite Hd, Ht, MakeDay_of_day. f_equal.
  replace (n - 1 + 4) with (n + 3) by lia.
  replace (Date.MakeDate (n - 1 - day (Date.civil_from_days (n - 1))
                          + (day (Date.civil_from_days (n - 1)) - (n + 3) mod 7 + 1))
                         (Date.msPerDay + tz) - tz)
    with (Date.MakeDate (n - (n + 3) mod 7 + 1) 0)
    by (unfold Date.MakeDate, Date.msPerDay; lia).
  apply day_of_days. unfold Date.msPerDay. lia.
Qed.

(** On a server in UTC the week key of the day with number [n] is the day
    with number [n + 1 - weekday]. *)
Lemma weekKey_utc (n : Z) :
  weekKey 0 (Date.civil_from_days n)
  = Date.civil_from_days (n + 1 - (n + 4) mod 7).
Proof. apply weekKey_east. unfold Date.msPerDay. lia. Qed.

Lemma spec_week_start_of_day (n : Z) :
  spec_week_start (Date.civil_from_days n)
  = Date.civil_from_days (n - (n + 3) mod 7).
Proof.
  destruct (civil_roundtrip n) as (Hn & _).
  unfold spec_week_start. cbv zeta in Hn. rewrite Hn. reflexivity.
Qed.

(** In UTC the week key is the Monday on or before the date, except on
    Sundays. *)
Lemma weekKey_utc_weekdays (n : Z) :
  (n + 4) mod 7 <> 0 ->
  weekKey 0 (Date.civil_from_days n) = spec_week_start (Date.civil_from_days n).
Proof.
  intros H. rewrite weekKey_utc, spec_week_start_of_day. f_equal.
  pose proof (Z.mod_pos_bound (n + 4) 7 ltac:(lia)).
  pose proof (Z.mod_pos_bound (n + 3) 7 ltac:(lia)).
  pose proof (Z.div_mod (n + 4) 7 ltac:(lia)).
  pose proof (Z.div_mod (n + 3) 7 ltac:(lia)).
  lia.
Qed.

(** In UTC every Sunday gets the next day as its week key, seven days
    after the Monday the specification asks for. *)
Lemma weekKey_utc_sundays (n : Z) :
  (n + 4) mod 7 = 0 ->
  weekKey 0 (Date.civil_from_days n) = Date.civil_from_days (n + 1) /\
  spec_week_start (Date.civil_from_days n) = Date.civil_from_days (n - 6) /\
  weekKey 0 (Date.civil_from_days n) <> spec_week_start (Date.civil_from_days n).
Proof.
  intros H.
  assert (H1 : weekKey 0 (Date.civil_from_days n) = Date.civil_from_days (n + 1)).
  { rewrite weekKey_utc, H. f_equal. lia. }
  assert (H2 : spec_week_start (Date.civil_from_days n) = Date.civil_from_days (n - 6)).
  { rewrite spec_week_start_of_day. f_equal.
    pose proof (Z.div_mod (n + 4) 7 ltac:(lia)).
    pose proof (Z.div_mod (n + 3) 7 ltac:(lia)).
    pose proof (Z.mod_pos_bound (n + 3) 7 ltac:(lia)). lia. }
  repeat split; [exact H1 | exact H2 |].
  rewrite H1, H2. intros E. apply civil_from_days_inj in E. lia.
Qed.

Lemma weekKey_west_is_off (tz n : Z) :
  - Date.msPerDay <= tz < 0 ->
  weekKey tz (Date.civil_from_days n) <> spec_week_start (Date.civil_from_days n).
Proof.
  intros Htz. rewrite (weekKey_west n Htz), spec_week_start_of_day.
  intros E. apply civil_from_days_inj in E. lia.
Qed.

Lemma era_months_ok : all_from months_ok 0 400 = true.
Proof. vm_compute. reflexivity. Qed.

Lemma first_of_month_ok_all (yoe m : Z) :
  0 <= yoe < 400 -> 1 <= m <= 12 -> first_of_month_ok yoe m = true.
Proof.
  intros Hy Hm.
  assert (H : months_ok yoe = true)
    by (apply (all_from_spec _ _ era_months_ok); lia).
  apply (all_from_spec _ _ H). lia.
Qed.

Lemma civil_of_first (y m : Z) :
  1 <= m <= 12 ->
  Date.civil_from_days (Date.days_from_civil y m 1) = mkDate y m 1.
Proof.
  intros Hm. unfold Date.days_from_civil.
  set (y' := if m <=? 2 then y - 1 else y).
  set (era := y' / 400).
  set (yoe := y' - era * 400).
  assert (Hyoe : 0 <= yoe < 400).
  { unfold yoe, era. pose proof (Z.div_mod y' 400 ltac:(lia)).
    pose proof (Z.mod_pos_bound y' 400 ltac:(lia)). lia. }
  assert (Hok := first_of_month_ok_all Hyoe Hm). unfold first_of_month_ok in Hok.
  set (doy := (153 * (if m >? 2 then m - 3 else m + 9) + 2) / 5) in *.
  replace (doy + 1 - 1) with doy by lia.
  set (doe := yoe * 365 + yoe / 4 - yoe / 100 + doy) in *.
  repeat (apply andb_true_iff in Hok as [Hok ?]).
  unfold Date.civil_from_days.
  replace (era * 146097 + doe - 719468 + 719468) with (doe + era * 146097) by lia.
  assert (He : (doe + era * 146097) / 146097 = era).
  { rewrite Z.div_add by lia. rewrite Z.div_small by lia. lia. }
  rewrite He.
  replace (doe + era * 146097 - era * 146097) with doe by lia.
  set (yoe' := (doe - doe / 1460 + doe / 36524 - doe / 146096) / 365) in *.
  set (doy' := doe - (365 * yoe' + yoe' / 4 - yoe' / 100)) in *.
  set (mp := (5 * doy' + 2) / 153) in *.
  assert (E1 : yoe' = yoe) by lia.
  assert (E2 : (if mp <? 10 then mp + 3 else mp - 9) = m) by lia.
  assert (E3 : doy' - (153 * mp + 2) / 5 + 1 = 1) by lia.
  rewrite E2, E3, E1. f_equal.
  unfold yoe, y'. destruct (m <=? 2); lia.
Qed.

(** The month key of the day with number [n], for a year outside 0..99:
    in UTC the first day of the month, east of UTC the day before it. *)
Lemma monthKey_east (tz n : Z) :
  0 <= tz < Date.msPerDay ->
  let d := Date.civil_from_days n in
  ~ 0 <= year d <= 99 ->
  monthKey tz d
  = Date.civil_from_days
      (Date.days_from_civil (year d) (month d) 1 - (if tz =? 0 then 0 else 1)).
Proof.
  intros Htz d Hy. destruct (civil_roundtrip n) as (Hn & Hm & _).
  fold d in Hn, Hm. cbv zeta in Hn.
  destruct (local_day_east n Htz) as [Hd _].
  unfold monthKey, Date.of_date_string. rewrite Hn.
  unfold Date.of_components, Date.getFullYear, Date.getMonth, Date.LocalTime,
    Date.UTC, Date.YearFromTime, Date.MonthFromTime, Date.toISODate.
  rewrite Hd. fold d.
  assert (Hyr : (0 <=? year d) && (year d <=? 99) = false).
  { apply andb_false_iff. destruct (Z.leb_spec 0 (year d)); [right|left; reflexivity].
    apply Z.leb_gt. lia. }
  rewrite Hyr. f_equal.
  unfold Date.MakeDay. rewrite Z.div_small, Z.mod_small by lia.
  replace (month d - 1 + 1) with (month d) by lia. rewrite Z.add_0_r.
  replace (Date.days_from_civil (year d) (month d) 1 + 1 - 1)
    with (Date.days_from_civil (year d) (month d) 1) by lia.
  destruct (Z.eqb_spec tz 0) as [->|Hne].
  - rewrite !Z.sub_0_r. apply day_of_days. unfold Date.msPerDay. lia.
  - replace (Date.MakeDate (Date.days_from_civil (year d) (month d) 1) 0 - tz)
      with (Date.MakeDate (Date.days_from_civil (year d) (month d) 1 - 1)
                          (Date.msPerDay - tz))
      by (unfold Date.MakeDate, Date.msPerDay; lia).
    apply day_of_days. unfold Date.msPerDay in *. lia.
Qed.

Lemma monthKey_utc (n : Z) :
  let d := Date.civil_from_days n in
  ~ 0 <= year d <= 99 -> monthKey 0 d = spec_month_start d.
Proof.
  intros d Hy. unfold d.
  rewrite monthKey_east; [ | unfold Date.msPerDay; lia | exact Hy ].
  simpl. rewrite Z.sub_0_r. apply civil_of_first.
  destruct (civil_roundtrip n) as (_ & Hm & _). exact Hm.
Qed.

Lemma monthKey_east_is_off (tz n : Z) :
  0 < tz < Date.msPerDay ->
  let d := Date.civil_from_days n in
  ~ 0 <= year d <= 99 -> monthKey tz d <> spec_month_start d.
Proof.
  intros Htz d Hy. unfold d. rewrite monthKey_east; [|lia|exact Hy].
  destruct (Z.eqb_spec tz 0) as [E|_]; [lia|].
  destruct (civil_roundtrip n) as (_ & Hm & _).
  unfold spec_month_start. rewrite <- (civil_of_first (year (Date.civil_from_days n)) Hm).
  intros E. apply civil_from_days_inj in E. lia.
Qed.

(** *** Running an action *)

(** Unfolding of the actions down to the requests. *)
Ltac unfold_actions :=
  unfold getPerformanceSummary, getOverallSkillAverages,
    getWeeklySkillTrends, getMonthlySkillTrends,
    getUserTasks, getTaskById, submitTask, updateTask, deleteTask,
    getCurrentUser, getAllSkills,
    Supabase.auth_getUser, Supabase.select_tasks, Supabase.rpc_overall,
    Supabase.select_rating_rows, Supabase.select_user_tasks,
    Supabase.select_task_by_id, Supabase.select_task_owner,
    Supabase.select_active_skills, Supabase.insert_task,
    Supabase.insert_skill_ratings, Supabase.update_task,
    Supabase.delete_task, Supabase.delete_skill_ratings,
    Supabase.read, Supabase.write, request, try_catch, bind, ret, throw.

(** Case analysis on the fate of the next request. *)
Ltac next_request :=
  match goal with
  | |- context [next_fault ?w] =>
      unfold next_fault at 1;
      let fs := fresh "fs" in
      let E := fresh "Ef" in
      destruct (faults w) as [|[|] fs] eqn:E; cbn beta iota zeta delta [faults with_faults with_db with_uuid_drawn db session rls now LocalTZA rpc_get_overall_skill_averages uuid_source uuid_drawn fst snd]
  end.

(** Case analysis on the session. *)
Ltac auth_step :=
  match goal with
  | |- context [session ?w] =>
      let u := fresh "user" in
      let E := fresh "Es" in
      destruct (session w) as [u|] eqn:E
  end.

(** Closes a run that has come to its end. *)
Ltac done_run := try (eexists; eexists; reflexivity); try reflexivity.

(** Running an action along known facts about the world. *)
Ltac reduce_run :=
  cbn beta iota zeta delta [faults with_faults with_db with_uuid_drawn db
    session rls now LocalTZA rpc_get_overall_skill_averages uuid_source
    uuid_drawn fst snd].

Ltac use_facts :=
  repeat match goal with
  | E : faults ?w = _ |- context [faults ?w] => rewrite E
  | E : session ?w = _ |- context [session ?w] => rewrite E
  | E : rpc_get_overall_skill_averages ?w = _
    |- context [rpc_get_overall_skill_averages ?w] => rewrite E
  end.

Ltac run := unfold next_fault; repeat (progress (use_facts; reduce_run)).

(** The first five entries of the fault schedule, case by case. *)
Ltac by_schedule w :=
  unfold fate in *;
  let a := fresh "a" in let b := fresh "b" in let c := fresh "c" in
  let d := fresh "d" in let e := fresh "e" in let fs := fresh "fs" in
  let Ef := fresh "Ef" in
  destruct (faults w) as [|a [|b [|c [|d [|e fs]]]]] eqn:Ef;
  cbn [nth] in *; subst.

Lemma next_fault_none (w : World) : faults w = [] -> next_fault w = (false, w).
Proof. intros H. unfold next_fault. rewrite H. reflexivity. Qed.

Lemma db_eta (d : Db) : mkDb (skills d) (tasks d) (skill_ratings d) = d.
Proof. destruct d. reflexivity. Qed.

(** *** What the aggregation entry points answer *)

Lemma getOverallSkillAverages_ranked (w : World) :
  exists l w', getOverallSkillAverages w = (Returned (rank l), w').
Proof.
  unfold_actions. change no_skills with (rank []).
  next_request; done_run; auth_step; done_run; next_request; done_run;
    try (destruct (rpc_get_overall_skill_averages w) as [f|]; done_run);
    next_request; done_run.
Qed.

(** An action of the form [try { ... } catch { return fallback }] always
    returns. *)
Lemma try_catch_total (A : Type) (body : M A) (fallback : A) (w : World) :
  exists a w', try_catch body (fun _ => ret fallback) w = (Returned a, w').
Proof.
  unfold try_catch, ret. destruct (body w) as [[a|e] w']; eauto.
Qed.

Lemma getOverallSkillAverages_total (w : World) :
  exists o w', getOverallSkillAverages w = (Returned o, w').
Proof. unfold getOverallSkillAverages. apply try_catch_total. Qed.

Lemma getWeeklySkillTrends_total (n : Z) (w : World) :
  exists l w', getWeeklySkillTrends n w = (Returned l, w').
Proof. unfold getWeeklySkillTrends. apply try_catch_total. Qed.

Lemma getMonthlySkillTrends_total (n : Z) (w : World) :
  exists l w', getMonthlySkillTrends n w = (Returned l, w').
Proof. unfold getMonthlySkillTrends. apply try_catch_total. Qed.

Lemma getPerformanceSummary_total (from to : option CivilDate) (w : World) :
  exists s w', getPerformanceSummary from to w = (Returned s, w').
Proof. unfold getPerformanceSummary. apply try_catch_total. Qed.

Lemma getOverallSkillAverages_cases (w : World) :
  exists o w',
    getOverallSkillAverages w = (Returned o, w') /\
    (o = no_skills \/
     exists user unsorted,
       session w = Some user /\ overall_source w user unsorted /\
       o = rank unsorted).
Proof.
  unfold_actions.
  next_request; try (eexists; eexists; split; [reflexivity | left; reflexivity]);
    (auth_step; try (eexists; eexists; split; [reflexivity | left; reflexivity]));
    (next_request; try (eexists; eexists; split; [reflexivity | left; reflexivity]));
    try (destruct (rpc_get_overall_skill_averages w) as [f|] eqn:Er);
    try (eexists; eexists; split;
         [reflexivity | right; eexists; eexists; split; [reflexivity|]; split;
                        [eapply from_rpc; exact Er | reflexivity]]);
    (next_request; try (eexists; eexists; split; [reflexivity | left; reflexivity]));
    (eexists; eexists; split;
      [reflexivity | right; eexists; eexists; split; [reflexivity|]; split;
                     [apply from_rows | reflexivity]]).
Qed.

Lemma getPerformanceSummary_cases (from to : option CivilDate)
  (w w' : World) (s : PerformanceSummary.t) :
  getPerformanceSummary from to w = (Returned s, w') ->
  s = no_summary \/
  exists user w1 o,
    session w = Some user /\
    Supabase.tasks_of w user from to <> [] /\
    same_backend w w1 /\
    getOverallSkillAverages w1 = (Returned o, w') /\
    s = summary_from (Supabase.tasks_of w user from to) o.
Proof.
  unfold getPerformanceSummary, getCurrentUser, Supabase.auth_getUser,
    Supabase.select_tasks, Supabase.read, request, try_catch, bind, ret, throw.
  next_request; try (intros [= <- <-]; left; reflexivity);
    (auth_step; try (intros [= <- <-]; left; reflexivity));
    (next_request; try (intros [= <- <-]; left; reflexivity));
    match goal with
    | Es : session w = Some ?u |- context [Supabase.tasks_of ?w0 ?u from to] =>
        change (Supabase.tasks_of w0 u from to)
          with (Supabase.tasks_of w u from to);
        destruct (Z.of_nat (length (Supabase.tasks_of w u from to)) =? 0) eqn:Ez;
        [ intros [= <- <-]; left; reflexivity | ];
        match goal with
        | |- context [getOverallSkillAverages ?w1] =>
            destruct (getOverallSkillAverages_total w1) as (o & w2 & Eo);
            rewrite Eo; intros [= <- <-]; right;
            exists u, w1, o; unfold same_backend; repeat split;
            [ intros E; rewrite E in Ez; discriminate | exact Eo ]
        end
    end.
Qed.

Lemma rating_rows_same_backend (w w1 : World) (user : uuid)
  (from to : option CivilDate) :
  same_backend w w1 ->
  Supabase.rating_rows w1 user from to = Supabase.rating_rows w user from to.
Proof.
  destruct w, w1. unfold same_backend. simpl.
  intros (-> & -> & -> & _). reflexivity.
Qed.

Lemma overall_source_same_backend (w w1 : World) (user : uuid)
  (l : list SkillAverage.t) :
  same_backend w w1 -> overall_source w1 user l -> overall_source w user l.
Proof.
  intros Hb H. destruct H as [f Hf|].
  - destruct Hb as (Hd & _ & _ & Hr). rewrite Hd. rewrite Hr in Hf.
    eapply from_rpc; exact Hf.
  - rewrite (rating_rows_same_backend _ _ _ Hb). apply from_rows.
Qed.

Lemma summary_skills_are_all_time (from to : option CivilDate) (w w' : World)
  (s : PerformanceSummary.t) :
  getPerformanceSummary from to w = (Returned s, w') ->
  (PerformanceSummary.skill_averages s = [] /\
   PerformanceSummary.strengths s = [] /\
   PerformanceSummary.growth_opportunities s = []) \/
  exists user unsorted,
    session w = Some user /\ overall_source w user unsorted /\
    PerformanceSummary.skill_averages s = Overall.all_skills (rank unsorted) /\
    PerformanceSummary.strengths s = Overall.strengths (rank unsorted) /\
    PerformanceSummary.growth_opportunities s
    = Overall.growth_opportunities (rank unsorted).
Proof.
  intros H. apply getPerformanceSummary_cases in H.
  destruct H as [-> | (user & w1 & o & Hs & _ & Hb & Ho & ->)];
    [left; repeat split|].
  destruct (getOverallSkillAverages_cases w1) as (o' & w2 & E & Hc).
  rewrite Ho in E. injection E as <- <-.
  destruct Hc as [-> | (user' & unsorted & Hs' & Hsrc & ->)];
    [left; repeat split|].
  right. exists user', unsorted.
  destruct Hb as (Hd & Hse & Hrl & Hr).
  repeat split; try reflexivity.
  - rewrite <- Hse. exact Hs'.
  - apply (@overall_source_same_backend w w1); [repeat split; assumption | exact Hsrc].
Qed.

Lemma summary_overall_average (from to : option CivilDate) (w w' : World)
  (s : PerformanceSummary.t) :
  getPerformanceSummary from to w = (Returned s, w') ->
  PerformanceSummary.overall_average s
  = overall_average_of (PerformanceSummary.skill_averages s).
Proof.
  intros H. apply getPerformanceSummary_cases in H.
  destruct H as [-> | (user & w1 & o & _ & _ & _ & _ & ->)]; reflexivity.
Qed.

(** Without faults the action sorts [skills_source]. *)
Lemma getOverallSkillAverages_run (w : World) (user : uuid) :
  faults w = [] -> session w = Some user ->
  getOverallSkillAverages w = (Returned (rank (skills_source w user)), w).
Proof.
  intros Hf Hs. unfold skills_source. unfold_actions. run.
  destruct (rpc_get_overall_skill_averages w) as [f|]; run; reflexivity.
Qed.

Lemma getPerformanceSummary_run (from to : option CivilDate) (w : World)
  (user : uuid) :
  faults w = [] -> session w = Some user ->
  Supabase.tasks_of w user from to <> [] ->
  getPerformanceSummary from to w
  = (Returned (summary_from (Supabase.tasks_of w user from to)
                            (rank (skills_source w user))), w).
Proof.
  intros Hf Hs Hne.
  pose proof (@getOverallSkillAverages_run w user Hf Hs) as Ho.
  unfold getPerformanceSummary, Supabase.select_tasks, Supabase.read, request,
    getCurrentUser, Supabase.auth_getUser, Supabase.read, request,
    try_catch, bind, ret, throw.
  run.
  destruct (Z.eqb_spec (Z.of_nat (length (Supabase.tasks_of w user from to))) 0)
    as [E|E].
  - destruct (Supabase.tasks_of w user from to); [congruence | discriminate].
  - rewrite Ho. reflexivity.
Qed.

Lemma length_sort (l : list SkillAverage.t) :
  length (Js.sort by_average_desc l) = length l.
Proof. apply Permutation_length. unfold Js.sort. apply stable_sort_perm. Qed.

(** The three lists of [rank] in terms of the sorted input. *)
Lemma rank_ends (l : list SkillAverage.t) :
  let sorted := Js.sort by_average_desc l in
  Overall.all_skills (rank l) = sorted /\
  Permutation sorted l /\
  Overall.strengths (rank l) = firstn 5 sorted /\
  Overall.growth_opportunities (rank l) = rev (skipn (length l - 5) sorted) /\
  length (Overall.strengths (rank l)) = Nat.min 5 (length l) /\
  length (Overall.growth_opportunities (rank l)) = Nat.min 5 (length l).
Proof.
  cbv zeta.
  destruct (rank_two_ends l) as (H1 & H2 & _).
  assert (Ea : Overall.all_skills (rank l) = Js.sort by_average_desc l)
    by reflexivity.
  rewrite Ea in H1, H2. rewrite (length_sort l) in H2.
  split; [exact Ea|]. split; [apply stable_sort_perm|].
  split; [exact H1|]. split; [exact H2|].
  rewrite H1, H2, length_rev, length_firstn, length_skipn, length_sort. lia.
Qed.

(** *** Failures and the user without data *)

Lemma auth_failure_overall (w : World) :
  auth_fails w -> fst (getOverallSkillAverages w) = Returned no_skills.
Proof.
  intros [Hs | [fs Hf]]; unfold_actions.
  - next_request; try rewrite Hs; reflexivity.
  - unfold next_fault. rewrite Hf. reflexivity.
Qed.

Lemma auth_failure_weekly (n : Z) (w : World) :
  auth_fails w -> fst (getWeeklySkillTrends n w) = Returned [].
Proof.
  intros [Hs | [fs Hf]]; unfold_actions.
  - next_request; try rewrite Hs; reflexivity.
  - unfold next_fault. rewrite Hf. reflexivity.
Qed.

Lemma auth_failure_monthly (n : Z) (w : World) :
  auth_fails w -> fst (getMonthlySkillTrends n w) = Returned [].
Proof.
  intros [Hs | [fs Hf]]; unfold_actions.
  - next_request; try rewrite Hs; reflexivity.
  - unfold next_fault. rewrite Hf. reflexivity.
Qed.

Lemma auth_failure_summary (from to : option CivilDate) (w : World) :
  auth_fails w -> fst (getPerformanceSummary from to w) = Returned no_summary.
Proof.
  intros [Hs | [fs Hf]]; unfold_actions.
  - next_request; try rewrite Hs; reflexivity.
  - unfold next_fault. rewrite Hf. reflexivity.
Qed.

Lemma query_failure_overall (w : World) (b : bool) (fs : list bool) :
  faults w = false :: b :: true :: fs ->
  b = true \/ rpc_get_overall_skill_averages w = None ->
  fst (getOverallSkillAverages w) = Returned no_skills.
Proof.
  intros Hf Hb. unfold_actions. unfold next_fault at 1. rewrite Hf.
  cbn [faults with_faults session fst snd].
  destruct (session w); [|reflexivity].
  unfold next_fault; cbn.
  destruct Hb as [-> | Hr]; [reflexivity|].
  rewrite Hr. destruct b; reflexivity.
Qed.

Lemma query_failure_weekly (n : Z) (w : World) (fs : list bool) :
  faults w = false :: true :: fs ->
  fst (getWeeklySkillTrends n w) = Returned [].
Proof.
  intros Hf. unfold_actions. unfold next_fault at 1. rewrite Hf.
  cbn [faults with_faults session fst snd].
  destruct (session w); reflexivity.
Qed.

Lemma query_failure_monthly (n : Z) (w : World) (fs : list bool) :
  faults w = false :: true :: fs ->
  fst (getMonthlySkillTrends n w) = Returned [].
Proof.
  intros Hf. unfold_actions. unfold next_fault at 1. rewrite Hf.
  cbn [faults with_faults session fst snd].
  destruct (session w); reflexivity.
Qed.

Lemma query_failure_summary (from to : option CivilDate) (w : World) (fs : list bool) :
  faults w = false :: true :: fs ->
  fst (getPerformanceSummary from to w) = Returned no_summary.
Proof.
  intros Hf. unfold_actions. unfold next_fault at 1. rewrite Hf.
  cbn [faults with_faults session fst snd].
  destruct (session w); reflexivity.
Qed.

Lemma flat_map_nil (A B : Type) (f : A -> list B) (l : list A) :
  (forall x, In x l -> f x = []) -> flat_map f l = [].
Proof.
  induction l as [|x l IH]; simpl; intros H; [reflexivity|].
  rewrite (H x) by (left; reflexivity). apply IH. intros y Hy. apply H. right; exact Hy.
Qed.

Lemma rating_rows_no_tasks (w : World) (user : uuid) (from to : option CivilDate) :
  no_tasks_of w user -> Supabase.rating_rows w user from to = [].
Proof.
  intros H. unfold Supabase.rating_rows. apply flat_map_nil. intros r _.
  destruct (Supabase.find_task (db w) (SkillRating.task_id r)) as [t|] eqn:E;
    [|reflexivity].
  apply find_some in E as [Hin _].
  assert (Hu : (Task.user_id t =? user)%string = false)
    by (apply String.eqb_neq, H, Hin).
  rewrite Hu, andb_false_r. reflexivity.
Qed.

Lemma filter_none (A : Type) (p : A -> bool) (l : list A) :
  (forall x, In x l -> p x = false) -> filter p l = [].
Proof.
  induction l as [|x l IH]; simpl; intros H; [reflexivity|].
  rewrite (H x) by (left; reflexivity). apply IH. intros y Hy. apply H. right; exact Hy.
Qed.

Lemma tasks_of_no_tasks (w : World) (user : uuid) (from to : option CivilDate) :
  no_tasks_of w user -> Supabase.tasks_of w user from to = [].
Proof.
  intros H. unfold Supabase.tasks_of. apply filter_none. intros t Hin.
  assert (Hu : (Task.user_id t =? user)%string = false)
    by (apply String.eqb_neq, H, Hin).
  rewrite Hu, andb_false_r. reflexivity.
Qed.

Lemma no_data_results (w : World) (user : uuid) (n : Z)
  (from to : option CivilDate) :
  faults w = [] -> session w = Some user ->
  rpc_get_overall_skill_averages w = None -> no_tasks_of w user ->
  fst (getOverallSkillAverages w) = Returned no_skills /\
  fst (getWeeklySkillTrends n w) = Returned [] /\
  fst (getMonthlySkillTrends n w) = Returned [] /\
  fst (getPerformanceSummary from to w) = Returned no_summary.
Proof.
  intros Hf Hs Hr Hno.
  repeat split; unfold_actions;
    repeat (unfold next_fault at 1; rewrite Hf; cbn beta iota zeta;
            rewrite ?Hs, ?Hr; cbn beta iota zeta);
    rewrite ?rating_rows_no_tasks, ?tasks_of_no_tasks by exact Hno;
    reflexivity.
Qed.

(** A failed call of the stored function is made up for by the manual
    query. *)
Lemma fallback_overall (w : World) (user : uuid) :
  session w = Some user -> fate w 0 = false ->
  fate w 1 = true \/ rpc_get_overall_skill_averages w = None ->
  fate w 2 = false ->
  fst (getOverallSkillAverages w)
  = Returned (rank (manual_averages (Supabase.rating_rows w user None None))).
Proof.
  intros Hs H0 H1 H2.
  by_schedule w; destruct H1 as [H1|H1]; try discriminate; subst;
    repeat match goal with b : bool |- _ => destruct b end;
    unfold_actions; run; reflexivity.
Qed.

(** A failure of the nested call leaves the counts of the summary. *)
Lemma nested_failure_summary (from to : option CivilDate) (w : World)
  (user : uuid) :
  session w = Some user -> fate w 0 = false -> fate w 1 = false ->
  Supabase.tasks_of w user from to <> [] ->
  nested_call_fails w ->
  fst (getPerformanceSummary from to w)
  = Returned (summary_from (Supabase.tasks_of w user from to) no_skills).
Proof.
  intros Hs H0 H1 Hne Hn.
  assert (Hz : (Z.of_nat (length (Supabase.tasks_of w user from to)) =? 0) = false).
  { apply Z.eqb_neq. destruct (Supabase.tasks_of w user from to); [congruence|].
    cbn [length]. lia. }
  unfold nested_call_fails in Hn.
  by_schedule w; destruct Hn as [Hn | (Hn2 & [Hn3|Hn3] & Hn4)];
    try discriminate; subst;
    repeat match goal with b : bool |- _ => destruct b end;
    unfold_actions; run;
    repeat match goal with
    | |- context [Supabase.tasks_of ?w0 user from to] =>
        progress change (Supabase.tasks_of w0 user from to)
          with (Supabase.tasks_of w user from to)
    end;
    rewrite Hz; run; reflexivity.
Qed.

(** *** Ownership checks of the task actions *)

Lemma tasks_by_id_In (w : World) (tid : uuid) (t : Task.t) :
  In t (Supabase.tasks_by_id w tid) ->
  In t (tasks (db w)) /\ Task.id t = tid.
Proof.
  unfold Supabase.tasks_by_id. rewrite filter_In.
  intros [Hin Hb]. apply andb_true_iff in Hb as [Hid _].
  apply String.eqb_eq in Hid. auto.
Qed.

Lemma single_owner_foreign (w : World) (tid user owner : uuid) :
  not_owner w tid -> session w = Some user ->
  Supabase.single (map Task.user_id (Supabase.tasks_by_id w tid)) = Data owner ->
  (owner =? user)%string = false.
Proof.
  intros Hno Hs Hsingle.
  destruct (Supabase.tasks_by_id w tid) as [|t [|t' l]] eqn:E; try discriminate.
  simpl in Hsingle. injection Hsingle as <-.
  assert (Hin : In t (Supabase.tasks_by_id w tid)) by (rewrite E; left; reflexivity).
  apply tasks_by_id_In in Hin as [Hin Hid].
  specialize (Hno t Hin Hid). unfold Supabase.owns in Hno. rewrite Hs in Hno.
  rewrite String.eqb_sym. exact Hno.
Qed.

Lemma single_task_foreign (w : World) (tid user : uuid) (d : TaskWithDetails.t) :
  not_owner w tid -> session w = Some user ->
  Supabase.single (map (Supabase.with_details w) (Supabase.tasks_by_id w tid)) = Data d ->
  (Task.user_id (TaskWithDetails.task d) =? user)%string = false.
Proof.
  intros Hno Hs Hsingle.
  destruct (Supabase.tasks_by_id w tid) as [|t [|t' l]] eqn:E; try discriminate.
  simpl in Hsingle. injection Hsingle as <-.
  assert (Hin : In t (Supabase.tasks_by_id w tid)) by (rewrite E; left; reflexivity).
  apply tasks_by_id_In in Hin as [Hin Hid].
  specialize (Hno t Hin Hid). unfold Supabase.owns in Hno. rewrite Hs in Hno.
  simpl. rewrite String.eqb_sym. exact Hno.
Qed.

Lemma updateTask_foreign (w : World) (tid : uuid) (f : TaskSubmissionFormData.t) :
  not_owner w tid ->
  exists msg w', updateTask tid f w = (Returned (error msg), w')
                 /\ db w' = db w /\ denial "update" msg.
Proof.
  intros Hno. unfold denial. unfold_actions.
  next_request; [ | eexists; eexists; repeat split; eauto | ];
    (auth_step; [ | eexists; eexists; repeat split; eauto ]);
    (next_request; [ | eexists; eexists; repeat split; eauto | ]);
    match goal with
    | |- context [Supabase.single ?l] =>
        destruct (Supabase.single l) as [owner|] eqn:Eo;
        [ change l with (map Task.user_id (Supabase.tasks_by_id w tid)) in Eo;
          rewrite (single_owner_foreign Hno Es Eo); cbn
        | ]
    end; eexists; eexists; repeat split; eauto.
Qed.

Lemma deleteTask_foreign (w : World) (tid : uuid) :
  not_owner w tid ->
  exists msg w', deleteTask tid w = (Returned (error msg), w')
                 /\ db w' = db w /\ denial "delete" msg.
Proof.
  intros Hno. unfold denial. unfold_actions.
  next_request; [ | eexists; eexists; repeat split; eauto | ];
    (auth_step; [ | eexists; eexists; repeat split; eauto ]);
    (next_request; [ | eexists; eexists; repeat split; eauto | ]);
    match goal with
    | |- context [Supabase.single ?l] =>
        destruct (Supabase.single l) as [owner|] eqn:Eo;
        [ change l with (map Task.user_id (Supabase.tasks_by_id w tid)) in Eo;
          rewrite (single_owner_foreign Hno Es Eo); cbn
        | ]
    end; eexists; eexists; repeat split; eauto.
Qed.

Lemma getTaskById_foreign (w : World) (tid : uuid) :
  not_owner w tid ->
  exists w', getTaskById tid w = (Returned None, w') /\ db w' = db w.
Proof.
  intros Hno. unfold_actions.
  next_request; [ | eexists; split; reflexivity | ];
    (auth_step; [ | eexists; split; reflexivity ]);
    (next_request; [ | eexists; split; reflexivity | ]);
    match goal with
    | |- context [Supabase.single ?l] =>
        destruct (Supabase.single l) as [d|] eqn:Eo;
        [ change l with (map (Supabase.with_details w) (Supabase.tasks_by_id w tid)) in Eo;
          rewrite (single_task_foreign Hno Es Eo); cbn
        | ]
    end; eexists; split; reflexivity.
Qed.

Lemma getUserTasks_foreign (w : World) (other : uuid) (limit offset : Z) :
  other <> "" -> session w <> Some other ->
  exists w', getUserTasks (Some other) limit offset w = (Returned [], w')
             /\ db w' = db w.
Proof.
  intros Hne Hs. unfold_actions.
  assert (Ht : Js.truthy other = true).
  { unfold Js.truthy. apply negb_true_iff, String.eqb_neq. exact Hne. }
  rewrite Ht.
  next_request; [ | eexists; split; reflexivity | ];
    (auth_step; [ | eexists; split; reflexivity ]);
    (assert (En : (other =? user)%string = false)
       by (apply String.eqb_neq; intros ->; apply Hs; reflexivity));
    rewrite En; cbn; eexists; split; reflexivity.
Qed.

(** *** Validation of the rating map *)

Lemma size_check (a b : nat) :
  a <> b -> negb (Z.of_nat a =? Z.of_nat b) = true.
Proof. intros H. apply negb_true_iff, Z.eqb_neq. lia. Qed.

Lemma submitTask_incomplete (w : World) (formData : TaskSubmissionFormData.t) :
  length (TaskSubmissionFormData.skill_ratings formData)
  <> length (Supabase.active_skills w) ->
  exists msg w', submitTask formData w = (Returned (error msg), w')
                 /\ db w' = db w.
Proof.
  intros H. unfold_actions.
  next_request; try (eexists; eexists; split; reflexivity);
    (auth_step; try (eexists; eexists; split; reflexivity));
    (next_request; try (eexists; eexists; split; reflexivity));
    match goal with
    | |- context [Supabase.active_skills ?w0] =>
        change (Supabase.active_skills w0) with (Supabase.active_skills w)
    end;
    rewrite (size_check H); eexists; eexists; split; reflexivity.
Qed.

Lemma updateTask_incomplete (w : World) (taskId : uuid)
  (formData : TaskSubmissionFormData.t) :
  length (TaskSubmissionFormData.skill_ratings formData)
  <> length (Supabase.active_skills w) ->
  exists msg w', updateTask taskId formData w = (Returned (error msg), w')
                 /\ db w' = db w.
Proof.
  intros H. unfold_actions.
  next_request; try (eexists; eexists; split; reflexivity);
    (auth_step; try (eexists; eexists; split; reflexivity));
    (next_request; try (eexists; eexists; split; reflexivity));
    match goal with
    | |- context [Supabase.single ?l] => destruct (Supabase.single l) as [owner|]
    end; try (eexists; eexists; split; reflexivity);
    match goal with
    | |- context [negb (?o =? ?u)%string] => destruct (o =? u)%string
    end; cbn [negb]; try (eexists; eexists; split; reflexivity);
    (next_request; try (eexists; eexists; split; reflexivity));
    match goal with
    | |- context [Supabase.active_skills ?w0] =>
        change (Supabase.active_skills w0) with (Supabase.active_skills w)
    end;
    rewrite (size_check H); eexists; eexists; split; reflexivity.
Qed.

(** *** Creation is all or nothing *)

Lemma filter_all (A : Type) (p : A -> bool) (l : list A) :
  (forall x, In x l -> p x = true) -> filter p l = l.
Proof.
  induction l as [|x l IH]; simpl; intros H; [reflexivity|].
  rewrite (H x) by (left; reflexivity).
  rewrite IH; [reflexivity|]. intros y Hy. apply H. right. exact Hy.
Qed.

Lemma existsb_false (A : Type) (p : A -> bool) (l : list A) (x : A) :
  existsb p l = false -> In x l -> p x = false.
Proof.
  intros H Hin. destruct (p x) eqn:E; [|reflexivity].
  assert (existsb p l = true) by (apply existsb_exists; eauto). congruence.
Qed.

(** Deleting the task just inserted restores the two tables. *)
Lemma rollback_restores (d : Db) (t : Task.t) (visible : Task.t -> bool) :
  referential d ->
  existsb (fun t' => (Task.id t' =? Task.id t)%string) (tasks d) = false ->
  visible t = true ->
  let gone t' := (Task.id t' =? Task.id t)%string && visible t' in
  filter (fun t' => negb (gone t')) (tasks d ++ [t]) = tasks d /\
  filter (fun r => negb (existsb (fun t' => gone t'
                                    && (Task.id t' =? SkillRating.task_id r)%string)
                                 (tasks d ++ [t])))
         (skill_ratings d) = skill_ratings d.
Proof.
  intros Href Hfresh Hvis gone. split.
  - rewrite filter_app. simpl. unfold gone at 2.
    rewrite String.eqb_refl, Hvis. simpl. rewrite app_nil_r.
    apply filter_all. intros t' Hin. unfold gone.
    rewrite (existsb_false _ _ _ Hfresh Hin). reflexivity.
  - apply filter_all. intros r Hr. apply negb_true_iff.
    destruct (Href r Hr) as (t0 & Hin0 & Hid0).
    assert (Hne : (Task.id t =? SkillRating.task_id r)%string = false).
    { rewrite <- Hid0. rewrite String.eqb_sym.
      apply (existsb_false _ _ _ Hfresh Hin0). }
    rewrite existsb_app. simpl. rewrite Hne, andb_false_r, orb_false_r.
    apply not_true_iff_false. intros Hex. apply existsb_exists in Hex.
    destruct Hex as (t' & Hin' & Hb). apply andb_true_iff in Hb as [Hg _].
    unfold gone in Hg. apply andb_true_iff in Hg as [Hid _].
    rewrite (existsb_false _ _ _ Hfresh Hin') in Hid. discriminate.
Qed.

(** Without transient faults [submitTask] either stores the task with all
    its ratings or leaves the database as it was. *)
Lemma submitTask_all_or_nothing (w : World) (formData : TaskSubmissionFormData.t) :
  referential (db w) -> faults w = [] ->
  exists r w',
    submitTask formData w = (Returned r, w') /\
    match r with
    | error _ => db w' = db w
    | success t =>
        db w' = mkDb (skills (db w)) (tasks (db w) ++ [t])
                     (skill_ratings (db w)
                      ++ ratingsToInsert (Task.id t)
                           (TaskSubmissionFormData.skill_ratings formData))
    end.
Proof.
  intros Href Hf. unfold_actions.
  rewrite (next_fault_none _ Hf).
  destruct (session w) as [user|] eqn:Es;
    [|eexists; eexists; split; reflexivity].
  rewrite (next_fault_none _ Hf).
  match goal with
  | |- context [if ?c then _ else _] => destruct c
  end; [eexists; eexists; split; reflexivity|].
  rewrite (next_fault_none _ Hf).
  match goal with
  | |- context [Supabase.policy_task w ?t && negb (existsb _ _)] =>
      set (task := t)
  end.
  destruct (Supabase.policy_task w task) eqn:Ep;
    [|eexists; eexists; split; reflexivity].
  destruct (existsb (fun t' => (Task.id t' =? Task.id task)%string)
                    (tasks (db w))) eqn:Ex;
    cbn [andb negb]; [eexists; eexists; split; reflexivity|].
  unfold next_fault at 1. cbn [faults with_db with_uuid_drawn]. rewrite Hf.
  match goal with
  | |- context [if ?c then _ else _] => destruct c eqn:Ec
  end.
  - eexists; eexists; split; reflexivity.
  - unfold next_fault at 1. cbn [faults with_db with_uuid_drawn]. rewrite Hf.
    eexists; eexists; split; [reflexivity|].
    cbn [db with_db with_uuid_drawn skills tasks skill_ratings].
    destruct (@rollback_restores (db w) task (Supabase.policy_task w) Href Ex Ep)
      as [Ht Hr].
    cbv zeta in Ht, Hr.
    change (Task.id task) with (Task.id task) in *.
    etransitivity; [|apply db_eta]. f_equal; [exact Ht | exact Hr].
Qed.

(* ===================================================================== *)
(** ** The claims *)
(* ===================================================================== *)

(** C1: the claim says that the bucket key depends on the calendar date
    alone, being the Monday on or before the task date (week) or the first
    day of its month (month), with no time-zone drift.  The code reads the
    date with the local-time methods of [Date] and prints the key in UTC,
    and it computes the Monday as [getDate() - getDay() + 1].  On a server
    in UTC the Sunday 2024-01-07 gets the week key 2024-01-08; five hours
    west of UTC the Monday 2024-01-08 gets 2024-01-09 and the task of
    2024-01-01 gets the month key 2023-12-01; one hour east of UTC the task
    of 2024-01-15 gets the month key 2023-12-31.  The lemmas above give the
    general picture: at or east of UTC every Sunday gets the Monday after
    it and the other days the Monday the claim describes ([weekKey_east],
    [weekKey_utc_sundays], [weekKey_utc_weekdays]); west of UTC every week
    key is a Tuesday ([weekKey_west]); the month key is the first of the
    month in UTC and the day before it east of UTC ([monthKey_utc],
    [monthKey_east_is_off]). *)
Theorem bucket_keys_drift :
  weekKey 0 (mkDate 2024 1 7) = mkDate 2024 1 8 /\
  spec_week_start (mkDate 2024 1 7) = mkDate 2024 1 1 /\
  weekKey (-5 * hour) (mkDate 2024 1 8) = mkDate 2024 1 9 /\
  spec_week_start (mkDate 2024 1 8) = mkDate 2024 1 8 /\
  monthKey (1 * hour) (mkDate 2024 1 15) = mkDate 2023 12 31 /\
  monthKey (-5 * hour) (mkDate 2024 1 1) = mkDate 2023 12 1 /\
  spec_month_start (mkDate 2024 1 15) = mkDate 2024 1 1 /\
  spec_month_start (mkDate 2024 1 1) = mkDate 2024 1 1 /\
  weekKey 0 (mkDate 2024 1 10) = spec_week_start (mkDate 2024 1 10) /\
  monthKey 0 (mkDate 2024 1 15) = spec_month_start (mkDate 2024 1 15).
Proof. repeat split. Qed.

(** C2: the claim says that create and update fail with a validation
    error when the keys of the rating map are not exactly the active
    skills, also when the map has the right size.  The code compares the
    sizes only.  With the active skills s1 and s2 and the inactive skill
    s3, the map {s1: 5, s3: 4} passes: [submitTask] stores the task with
    these two ratings and reports success, and [updateTask] replaces the
    ratings of an existing task by them.  A map of another size is refused
    and nothing is written ([submitTask_incomplete],
    [updateTask_incomplete]). *)
Theorem rating_map_of_right_size_is_accepted :
  let formData := Scenario.form (mkDate 2024 1 10) [("s1", 5); ("s3", 4)] in
  map Skill.id (Supabase.active_skills Scenario.fresh) = ["s1"; "s2"] /\
  (exists task w',
     submitTask formData Scenario.fresh = (Returned (success task), w') /\
     tasks (db w') = [task] /\
     skill_ratings (db w')
     = [SkillRating.mk (Task.id task) "s1" 5;
        SkillRating.mk (Task.id task) "s3" 4]) /\
  (exists w',
     updateTask "t0" formData (Scenario.world Scenario.one_task (Some "alice") [])
     = (Returned (success tt), w') /\
     skill_ratings (db w')
     = [SkillRating.mk "t0" "s1" 5; SkillRating.mk "t0" "s3" 4]).
Proof.
  split; [reflexivity|]. split.
  - eexists. eexists. repeat split.
  - eexists. repeat split.
Qed.

(** C3: the claim says that creation and update are atomic with respect to
    the ratings, so that no task is left without its full rating set.
    [submitTask] deletes the task row when the ratings are refused
    ([submitTask_all_or_nothing]); [updateTask] has no such step.  Alice's
    task t0 is rated {s1: 5, s2: 3}; the update with {s1: 5, s2: 9} passes
    the size check, rewrites the task, deletes its ratings and has the new
    ones refused by the CHECK on the rating: the action reports 'Failed to
    update skill ratings' and t0 is left with no rating.  [submitTask]
    also leaves a task without ratings when the compensating delete itself
    fails, since it ignores the answer of that request. *)
Theorem updateTask_leaves_task_without_ratings :
  let w := Scenario.world Scenario.one_task (Some "alice") [] in
  let formData := Scenario.form (mkDate 2024 1 10) [("s1", 5); ("s2", 9)] in
  skill_ratings (db w)
  = [SkillRating.mk "t0" "s1" 5; SkillRating.mk "t0" "s2" 3] /\
  (exists w',
     updateTask "t0" formData w
     = (Returned (error "Failed to update skill ratings"), w') /\
     tasks (db w') = tasks (db w) /\
     skill_ratings (db w') = []) /\
  (exists w',
     submitTask formData
       (Scenario.world (mkDb Scenario.skills [] []) (Some "alice")
          [false; false; false; false; true])
     = (Returned (error "Failed to save skill ratings"), w') /\
     map Task.id (tasks (db w')) = ["t1"] /\
     skill_ratings (db w') = []).
Proof.
  split; [reflexivity|]. split; eexists; repeat split.
Qed.

(** C4: the claim says that the skill lists of the summary are computed
    from the ratings of the tasks within the date range.  The code calls
    [getOverallSkillAverages], which takes no dates, under the comment
    'Get skill averages for the period'.  Alice has a task of January
    rated 5 and 3 and a task of June rated 1 and 1; the summary from
    2024-06-01 counts one task, and its skill averages rest on two ratings
    per skill: they are those of all her tasks and not those of the June
    task.  For every filter the lists are the all-time ones
    ([summary_skills_are_all_time]). *)
Theorem summary_skills_ignore_date_filter :
  let w := Scenario.world Scenario.two_periods (Some "alice") [] in
  let june := Some (mkDate 2024 6 1) in
  exists s w',
    getPerformanceSummary june None w = (Returned s, w') /\
    PerformanceSummary.total_tasks s = 1 /\
    map SkillAverage.rating_count (PerformanceSummary.skill_averages s) = [2; 2] /\
    map SkillAverage.rating_count
        (Overall.all_skills (spec_filtered_skills w "alice" june None)) = [1; 1] /\
    PerformanceSummary.skill_averages s
    = Overall.all_skills (spec_filtered_skills w "alice" None None) /\
    PerformanceSummary.skill_averages s
    <> Overall.all_skills (spec_filtered_skills w "alice" june None).
Proof.
  eexists. eexists. repeat split. discriminate.
Qed.

(** C5, as amended: [getOverallSkillAverages] always returns, and the list
    [all_skills] of its answer is sorted by mean rating descending; unless
    the answer is the empty one, the list is a permutation of the list the
    action sorted (the answer of the stored function, or the averages
    computed from the rating rows in the order of first appearance of each
    skill), and the entries with one and the same mean stand in the order
    they had in that list.  Neither the rating count nor the skill name
    takes part in the order. *)
Theorem all_skills_sorted_by_mean_keeping_ties (w : World) :
  exists o w',
    getOverallSkillAverages w = (Returned o, w') /\
    StronglySorted avg_ge (Overall.all_skills o) /\
    (o = no_skills \/
     exists user unsorted,
       session w = Some user /\ overall_source w user unsorted /\
       Permutation (Overall.all_skills o) unsorted /\
       forall q, filter (has_average q) (Overall.all_skills o)
                 = filter (has_average q) unsorted).
Proof.
  destruct (getOverallSkillAverages_cases w) as (o & w' & E & H).
  exists o, w'. split; [exact E|].
  destruct H as [-> | (user & unsorted & Hs & Hsrc & ->)].
  - split; [constructor | left; reflexivity].
  - destruct (rank_sorted_stable unsorted) as (Hp & Hsorted & Hst).
    split; [exact Hsorted|]. right. exists user, unsorted. auto.
Qed.

(** C5, counterexample: Alice rated the skills Zeta and Alpha 3 each, once.
    The two means and the two counts are equal, so the order of the claim
    puts Alpha first; the action answers Zeta, Alpha, the order of the
    rows. *)
Lemma ties_keep_input_order_not_name_order :
  exists o w',
    getOverallSkillAverages (Scenario.world Scenario.tied (Some "alice") [])
      = (Returned o, w') /\
    map SkillAverage.skill_name (Overall.all_skills o) = ["Zeta"; "Alpha"] /\
    ~ StronglySorted spec_before (Overall.all_skills o).
Proof.
  eexists. eexists. split; [reflexivity|]. split; [reflexivity|].
  intros H. inversion H as [|a l Hl Hall]; subst.
  inversion Hall as [|b l' Hb _]; subst.
  destruct Hb as [Hlt | [_ [Hc | [_ Hn]]]].
  - vm_compute in Hlt. discriminate.
  - vm_compute in Hc. discriminate.
  - vm_compute in Hn. discriminate.
Qed.

(** C6: in every answer of [getOverallSkillAverages], and in every
    performance summary, the list of all skills is sorted by mean rating
    descending, [strengths] is its first five entries (all of them when
    there are fewer), and [growth_opportunities] is its last five entries
    in reverse order: reversing it gives the tail of the sorted list, its
    first entry has the lowest mean of all, and with at most five entries
    both lists hold every skill, with no deduplication.  When no request
    fails, the sorted list is the sort of the averages of the signed-in
    user ([skills_source]), a permutation of them, so that [strengths]
    and [growth_opportunities] have five entries each as soon as five
    skills have data; for the summary this holds when a task of the user
    lies within the date filter. *)
Theorem strengths_and_growth_are_the_ends_of_all_skills :
  (forall w, exists o w',
      getOverallSkillAverages w = (Returned o, w') /\
      StronglySorted avg_ge (Overall.all_skills o) /\
      two_ends (Overall.all_skills o) (Overall.strengths o)
               (Overall.growth_opportunities o) /\
      forall user, faults w = [] -> session w = Some user ->
        let sorted := Js.sort by_average_desc (skills_source w user) in
        Overall.all_skills o = sorted /\
        Permutation sorted (skills_source w user) /\
        Overall.strengths o = firstn 5 sorted /\
        Overall.growth_opportunities o
        = rev (skipn (length (skills_source w user) - 5) sorted) /\
        length (Overall.strengths o) = Nat.min 5 (length (skills_source w user)) /\
        length (Overall.growth_opportunities o)
        = Nat.min 5 (length (skills_source w user))) /\
  (forall from to w, exists s w',
      getPerformanceSummary from to w = (Returned s, w') /\
      StronglySorted avg_ge (PerformanceSummary.skill_averages s) /\
      two_ends (PerformanceSummary.skill_averages s)
               (PerformanceSummary.strengths s)
               (PerformanceSummary.growth_opportunities s) /\
      forall user, faults w = [] -> session w = Some user ->
        Supabase.tasks_of w user from to <> [] ->
        let sorted := Js.sort by_average_desc (skills_source w user) in
        PerformanceSummary.skill_averages s = sorted /\
        Permutation sorted (skills_source w user) /\
        PerformanceSummary.strengths s = firstn 5 sorted /\
        PerformanceSummary.growth_opportunities s
        = rev (skipn (length (skills_source w user) - 5) sorted) /\
        length (PerformanceSummary.strengths s)
        = Nat.min 5 (length (skills_source w user)) /\
        length (PerformanceSummary.growth_opportunities s)
        = Nat.min 5 (length (skills_source w user))).
Proof.
  split.
  - intros w. destruct (getOverallSkillAverages_ranked w) as (l & w' & E).
    exists (rank l), w'. split; [exact E|].
    split; [apply sort_by_average_sorted|].
    split; [apply rank_two_ends|].
    intros user Hf Hs. rewrite (@getOverallSkillAverages_run w user Hf Hs) in E.
    assert (Er : rank l = rank (skills_source w user)) by congruence.
    rewrite Er. apply rank_ends.
  - intros from to w.
    destruct (getPerformanceSummary_total from to w) as (s & w' & E).
    exists s, w'. split; [exact E|].
    assert (Hl : exists l,
               PerformanceSummary.skill_averages s = Overall.all_skills (rank l) /\
               PerformanceSummary.strengths s = Overall.strengths (rank l) /\
               PerformanceSummary.growth_opportunities s
               = Overall.growth_opportunities (rank l)).
    { pose proof E as E'. apply getPerformanceSummary_cases in E'.
      destruct E' as [-> | (user & w1 & o & _ & _ & _ & Ho & ->)].
      - exists []. repeat split.
      - destruct (getOverallSkillAverages_ranked w1) as (l & w2 & E2).
        rewrite Ho in E2. injection E2 as -> _. exists l. repeat split. }
    destruct Hl as (l & E1 & E2 & E3).
    split; [rewrite E1; apply sort_by_average_sorted|].
    split; [rewrite E1, E2, E3; apply rank_two_ends|].
    intros user Hf Hs Hne.
    rewrite (@getPerformanceSummary_run from to w user Hf Hs Hne) in E.
    assert (Es : s = summary_from (Supabase.tasks_of w user from to)
                                  (rank (skills_source w user))) by congruence.
    rewrite Es. apply rank_ends.
Qed.

(** C6 at work: Alice rated seven skills 3, 5, 1, 4, 2, 5 and 2.  All seven
    are listed by mean descending; the strengths are the first five of
    them, and the growth opportunities the last five, lowest mean first.
    Design, Analysis and Review stand in both lists. *)
Lemma strengths_and_growth_are_the_ends_of_all_skills_witness :
  exists o w',
    getOverallSkillAverages (Scenario.world Scenario.seven_skills (Some "alice") [])
    = (Returned o, w') /\
    map SkillAverage.skill_name (Overall.all_skills o)
    = ["Planning"; "Delivery"; "Design"; "Analysis"; "Review"; "Estimation";
       "Testing"] /\
    map SkillAverage.skill_name (Overall.strengths o)
    = ["Planning"; "Delivery"; "Design"; "Analysis"; "Review"] /\
    map SkillAverage.skill_name (Overall.growth_opportunities o)
    = ["Testing"; "Estimation"; "Review"; "Analysis"; "Design"].
Proof.
  destruct (proj1 strengths_and_growth_are_the_ends_of_all_skills
              (Scenario.world Scenario.seven_skills (Some "alice") []))
    as (o & w' & E & _ & _ & H).
  exists o, w'. split; [exact E|].
  destruct (H "alice" eq_refl eq_refl) as (Ha & _ & Hs & Hg & _).
  rewrite Ha, Hs, Hg. repeat split.
Defined.

(** C7, as amended: when the caller owns no task with the given id,
    [updateTask] and [deleteTask] return an explicit error ('Not
    authorized to ... this task' when the row is visible to the caller,
    'Task not found' when the row-level policy hides it or the lookup
    fails, 'Not authenticated' without a session) and leave the database
    as it was; [getTaskById] returns null and [getUserTasks] for another
    user returns the empty list, the error they throw being caught and
    logged.  No operation returns data of the other user. *)
Theorem foreign_task_is_refused_or_hidden
  (w : World) (taskId other : uuid) (formData : TaskSubmissionFormData.t)
  (limit offset : Z) :
  not_owner w taskId -> other <> "" -> session w <> Some other ->
  (exists msg w', updateTask taskId formData w = (Returned (error msg), w')
                  /\ db w' = db w /\ denial "update" msg) /\
  (exists msg w', deleteTask taskId w = (Returned (error msg), w')
                  /\ db w' = db w /\ denial "delete" msg) /\
  (exists w', getTaskById taskId w = (Returned None, w') /\ db w' = db w) /\
  (exists w', getUserTasks (Some other) limit offset w = (Returned [], w')
              /\ db w' = db w).
Proof.
  intros Hno Hne Hs. repeat split.
  - apply updateTask_foreign, Hno.
  - apply deleteTask_foreign, Hno.
  - apply getTaskById_foreign, Hno.
  - apply getUserTasks_foreign; assumption.
Qed.

(** C7 at work: Bob owns the task t0, Alice is signed in, and the
    row-level policies are off. *)
Lemma foreign_task_is_refused_or_hidden_witness :
  let w := mkWorld Scenario.bobs_task (Some "alice") false []
                   Scenario.uuids 0 Scenario.midnight 0 None in
  let formData := Scenario.form (mkDate 2024 1 10) [("s1", 1); ("s2", 1)] in
  (exists msg w', updateTask "t0" formData w = (Returned (error msg), w')
                  /\ db w' = db w /\ denial "update" msg) /\
  (exists msg w', deleteTask "t0" w = (Returned (error msg), w')
                  /\ db w' = db w /\ denial "delete" msg) /\
  (exists w', getTaskById "t0" w = (Returned None, w') /\ db w' = db w) /\
  (exists w', getUserTasks (Some "bob") 50 0 w = (Returned [], w')
              /\ db w' = db w).
Proof.
  apply foreign_task_is_refused_or_hidden.
  - intros t [<- | []] _. reflexivity.
  - discriminate.
  - discriminate.
Defined.

(** C7, counterexample: Bob owns the task t0 and Alice, signed in, asks
    for it, with the row-level policies off so that the checks of the
    actions decide.  [getUserTasks] for Bob answers the empty list, as it
    does for Alice's own (empty) list; [getTaskById] answers null, as it
    does for an id that does not exist.  Only [updateTask] and
    [deleteTask] answer with an authorization error. *)
Lemma foreign_reads_look_like_empty_reads :
  let w := mkWorld Scenario.bobs_task (Some "alice") false []
                   Scenario.uuids 0 Scenario.midnight 0 None in
  fst (getUserTasks (Some "bob") 50 0 w) = Returned [] /\
  fst (getUserTasks None 50 0 w) = Returned [] /\
  fst (getTaskById "t0" w) = Returned None /\
  fst (getTaskById "no-such-task" w) = Returned None /\
  fst (updateTask "t0" (Scenario.form (mkDate 2024 1 10) [("s1", 1); ("s2", 1)]) w)
  = Returned (error "Not authorized to update this task") /\
  fst (deleteTask "t0" w) = Returned (error "Not authorized to delete this task").
Proof. repeat split. Qed.

(** C8: when no task of the caller lies within the date filter,
    [getPerformanceSummary] returns (it does not throw) the summary with
    [total_tasks = 0], an overall average and three rates of 0 and three
    empty skill lists. *)
Theorem summary_of_no_tasks_is_zero (w : World) (from to : option CivilDate) :
  (forall user, session w = Some user -> Supabase.tasks_of w user from to = []) ->
  exists w',
    getPerformanceSummary from to w
    = (Returned (PerformanceSummary.mk 0 0 [] [] [] 0 0 0), w').
Proof.
  intros H. change (PerformanceSummary.mk 0 0 [] [] [] 0 0 0) with no_summary.
  unfold_actions.
  next_request; try (eexists; reflexivity);
    auth_step; try (eexists; reflexivity);
    next_request; try (eexists; reflexivity);
    change (Supabase.tasks_of _ user from to) with (Supabase.tasks_of w user from to);
    rewrite (H user eq_refl); eexists; reflexivity.
Qed.

(** C8 at work: Alice's tasks are of 2024 and the filter starts in 2025. *)
Lemma summary_of_no_tasks_is_zero_witness :
  exists w', getPerformanceSummary (Some (mkDate 2025 1 1)) None
               (Scenario.world Scenario.two_periods (Some "alice") [])
             = (Returned (PerformanceSummary.mk 0 0 [] [] [] 0 0 0), w').
Proof.
  apply summary_of_no_tasks_is_zero.
  intros user [= <-]. reflexivity.
Defined.

(** C9, as amended: whenever the summary lists a skill, its
    [overall_average] is the arithmetic mean of the mean ratings of the
    listed skills: their sum divided by their number, a mean of means in
    which every skill weighs the same.  The rating counts do not enter:
    any list of skills with the same means has the same overall average.
    Whether the mean of means differs from the mean of all raw ratings is
    not decided by the counts.  With unequal counts the two can be equal
    ([unequal_counts_need_not_differ]).  With equal counts they are equal
    as exact numbers, and the doubles of the code can still differ in the
    last digit ([equal_counts_differ_in_doubles]).  The statement is about
    the exact values; the code rounds the sum and the quotient. *)
Theorem overall_average_is_mean_of_skill_means
  (from to : option CivilDate) (w w' : World) (s : PerformanceSummary.t) :
  getPerformanceSummary from to w = (Returned s, w') ->
  PerformanceSummary.skill_averages s <> [] ->
  (PerformanceSummary.overall_average s ==
   arithmetic_mean (map SkillAverage.average_rating
                        (PerformanceSummary.skill_averages s)))%Q
  /\
  forall l : list SkillAverage.t,
    map SkillAverage.average_rating l
    = map SkillAverage.average_rating (PerformanceSummary.skill_averages s) ->
    (overall_average_of l == PerformanceSummary.overall_average s)%Q.
Proof.
  intros H Hne. split.
  - rewrite (summary_overall_average _ _ _ H).
    apply overall_average_of_mean, Hne.
  - intros l E. rewrite (summary_overall_average _ _ _ H).
    apply overall_average_of_means, E.
Qed.

(** C9 at work: the summary of Alice's two tasks, and the same skills with
    99 ratings each. *)
Lemma overall_average_is_mean_of_skill_means_witness :
  exists s w',
    getPerformanceSummary None None
      (Scenario.world Scenario.two_periods (Some "alice") [])
      = (Returned s, w') /\
    (PerformanceSummary.overall_average s ==
     arithmetic_mean (map SkillAverage.average_rating
                          (PerformanceSummary.skill_averages s)))%Q /\
    (overall_average_of
       (map (fun a => SkillAverage.mk (SkillAverage.skill_id a)
                        (SkillAverage.skill_name a)
                        (SkillAverage.average_rating a) 99 1 5)
            (PerformanceSummary.skill_averages s))
     == PerformanceSummary.overall_average s)%Q.
Proof.
  eexists. eexists. split; [reflexivity|].
  destruct (@overall_average_is_mean_of_skill_means None None
              (Scenario.world Scenario.two_periods (Some "alice") []) _ _ eq_refl)
    as [H1 H2]; [discriminate|].
  split; [exact H1|].
  apply H2. reflexivity.
Defined.

(** C9, counterexample: Analysis is rated once and Planning twice, always
    3.  The counts are unequal, and the mean of means equals the mean of
    the raw ratings. *)
Lemma unequal_counts_need_not_differ :
  map SkillAverage.rating_count (manual_averages uneven_rows) = [1; 2] /\
  (overall_average_of (Overall.all_skills (rank (manual_averages uneven_rows)))
   == mean (raw_ratings uneven_rows))%Q.
Proof. split; reflexivity. Qed.

(** C9, the other direction in the arithmetic of the code: Analysis is
    rated 1, 1, 1 and Planning 1, 1, 2.  The counts are equal and the
    exact mean of means is the exact mean of the six ratings, 7/6.  In
    doubles the means are 1 and 1.3333333333333333, their sum is rounded
    to 2.333333333333333 and the overall average is 1.1666666666666665,
    below the double 1.1666666666666667 of the mean of the six ratings. *)
Example equal_counts_differ_in_doubles :
  let all_skills := Overall.all_skills (rank (manual_averages near_rows)) in
  let groups := map (fun a => ratings_of_skill near_rows (SkillAverage.skill_id a))
                    all_skills in
  groups = [[1; 1; 2]; [1; 1; 1]] /\
  map SkillAverage.rating_count all_skills = [3; 3] /\
  (overall_average_of all_skills == mean (raw_ratings near_rows))%Q /\
  Double.overall_average_of (map Double.mean groups) = SevenSixths.below /\
  Double.mean (raw_ratings near_rows) = SevenSixths.above /\
  PrimFloat.ltb (Double.overall_average_of (map Double.mean groups))
                (Double.mean (raw_ratings near_rows)) = true.
Proof. repeat split; vm_compute; reflexivity. Qed.

(** C10, as amended: the four aggregation entry points always return and
    never throw.  When authentication fails, or when the query that feeds
    the aggregation fails (for the skill averages: the manual query after
    a failed call of the stored function), the answer is the empty or
    all-zero one, which is also the answer for a signed-in user without
    tasks.  A failed call of the stored function alone is made up for by
    the manual query: the answer is then computed from the rating rows.
    A failure inside the call of [getOverallSkillAverages] nested in the
    summary empties the three skill lists and the overall average only:
    the summary keeps the number of tasks and the three rates, and is not
    the all-zero one. *)
Theorem aggregations_total_and_empty_on_failure :
  (forall w, exists o w', getOverallSkillAverages w = (Returned o, w')) /\
  (forall n w, exists l w', getWeeklySkillTrends n w = (Returned l, w')) /\
  (forall n w, exists l w', getMonthlySkillTrends n w = (Returned l, w')) /\
  (forall from to w, exists s w',
      getPerformanceSummary from to w = (Returned s, w')) /\
  (forall w n from to, auth_fails w ->
      fst (getOverallSkillAverages w) = Returned no_skills /\
      fst (getWeeklySkillTrends n w) = Returned [] /\
      fst (getMonthlySkillTrends n w) = Returned [] /\
      fst (getPerformanceSummary from to w) = Returned no_summary) /\
  (forall w b fs, faults w = false :: b :: true :: fs ->
      b = true \/ rpc_get_overall_skill_averages w = None ->
      fst (getOverallSkillAverages w) = Returned no_skills) /\
  (forall w n from to fs, faults w = false :: true :: fs ->
      fst (getWeeklySkillTrends n w) = Returned [] /\
      fst (getMonthlySkillTrends n w) = Returned [] /\
      fst (getPerformanceSummary from to w) = Returned no_summary) /\
  (forall w user n from to,
      faults w = [] -> session w = Some user ->
      rpc_get_overall_skill_averages w = None -> no_tasks_of w user ->
      fst (getOverallSkillAverages w) = Returned no_skills /\
      fst (getWeeklySkillTrends n w) = Returned [] /\
      fst (getMonthlySkillTrends n w) = Returned [] /\
      fst (getPerformanceSummary from to w) = Returned no_summary) /\
  (forall w user,
      session w = Some user -> fate w 0 = false ->
      fate w 1 = true \/ rpc_get_overall_skill_averages w = None ->
      fate w 2 = false ->
      fst (getOverallSkillAverages w)
      = Returned (rank (manual_averages
                          (Supabase.rating_rows w user None None)))) /\
  (forall w user from to,
      session w = Some user -> fate w 0 = false -> fate w 1 = false ->
      Supabase.tasks_of w user from to <> [] ->
      nested_call_fails w ->
      let filtered := Supabase.tasks_of w user from to in
      let total_tasks := Z.of_nat (length filtered) in
      exists s,
        fst (getPerformanceSummary from to w) = Returned s /\
        PerformanceSummary.total_tasks s = total_tasks /\
        0 < total_tasks /\
        PerformanceSummary.on_time_delivery_rate s
        = rate (count_if Task.delivered_on_time filtered) total_tasks /\
        PerformanceSummary.manager_issues_rate s
        = rate (count_if Task.manager_found_issues filtered) total_tasks /\
        PerformanceSummary.manager_helped_rate s
        = rate (count_if Task.manager_helped_analysis filtered) total_tasks /\
        PerformanceSummary.skill_averages s = [] /\
        PerformanceSummary.strengths s = [] /\
        PerformanceSummary.growth_opportunities s = [] /\
        PerformanceSummary.overall_average s = 0%Q /\
        s <> no_summary).
Proof.
  split; [apply getOverallSkillAverages_total|].
  split; [intros; apply getWeeklySkillTrends_total|].
  split; [intros; apply getMonthlySkillTrends_total|].
  split; [intros; apply getPerformanceSummary_total|].
  split.
  { intros w n from to H. repeat split.
    - apply auth_failure_overall, H.
    - apply auth_failure_weekly, H.
    - apply auth_failure_monthly, H.
    - apply auth_failure_summary, H. }
  split.
  { intros w b fs Hf Hb. eapply query_failure_overall; eassumption. }
  split.
  { intros w n from to fs Hf. repeat split.
    - eapply query_failure_weekly; eassumption.
    - eapply query_failure_monthly; eassumption.
    - eapply query_failure_summary; eassumption. }
  split.
  { intros w user n from to Hf Hs Hr Hno.
    apply (@no_data_results w user n from to); assumption. }
  split.
  { intros w user Hs H0 H1 H2. apply fallback_overall; assumption. }
  intros w user from to Hs H0 H1 Hne Hn filtered total_tasks.
  exists (summary_from filtered no_skills).
  split; [apply nested_failure_summary; assumption|].
  assert (Hpos : 0 < total_tasks).
  { unfold total_tasks, filtered.
    destruct (Supabase.tasks_of w user from to); [congruence|].
    cbn [length]. lia. }
  repeat (split; [first [reflexivity | exact Hpos]|]).
  intros E. apply (f_equal PerformanceSummary.total_tasks) in E.
  cbn in E. fold filtered total_tasks in E. lia.
Qed.

(** C10 at work: Alice's data with nobody signed in, with the data query
    failing, a signed-in user without tasks, the stored function failing
    before a manual query that succeeds, and the nested call failing at
    its authentication. *)
Lemma aggregations_total_and_empty_on_failure_witness :
  let signed_out := Scenario.world Scenario.one_task None [] in
  let query_down := Scenario.world Scenario.one_task (Some "alice") [false; true] in
  let newcomer := Scenario.world Scenario.bobs_task (Some "alice") [] in
  let nested_down :=
    Scenario.world Scenario.one_task (Some "alice") [false; false; true] in
  (fst (getOverallSkillAverages signed_out) = Returned no_skills /\
   fst (getWeeklySkillTrends 12 signed_out) = Returned [] /\
   fst (getMonthlySkillTrends 12 signed_out) = Returned [] /\
   fst (getPerformanceSummary None None signed_out) = Returned no_summary) /\
  (fst (getWeeklySkillTrends 12 query_down) = Returned [] /\
   fst (getMonthlySkillTrends 12 query_down) = Returned [] /\
   fst (getPerformanceSummary None None query_down) = Returned no_summary) /\
  (fst (getOverallSkillAverages newcomer) = Returned no_skills /\
   fst (getWeeklySkillTrends 12 newcomer) = Returned [] /\
   fst (getMonthlySkillTrends 12 newcomer) = Returned [] /\
   fst (getPerformanceSummary None None newcomer) = Returned no_summary) /\
  (exists o,
     fst (getOverallSkillAverages query_down) = Returned o /\
     map SkillAverage.skill_name (Overall.all_skills o)
     = ["Analysis"; "Planning"]) /\
  (exists s,
     fst (getPerformanceSummary None None nested_down) = Returned s /\
     PerformanceSummary.total_tasks s = 1 /\
     PerformanceSummary.skill_averages s = [] /\
     s <> no_summary).
Proof.
  destruct aggregations_total_and_empty_on_failure
    as (_ & _ & _ & _ & Hauth & _ & Hquery & Hnone & Hfallback & Hnested).
  split; [|split; [|split; [|split]]].
  - apply Hauth. left. reflexivity.
  - apply (Hquery _ _ _ _ []). reflexivity.
  - apply (Hnone _ "alice"); [reflexivity | reflexivity | reflexivity |].
    intros t [<- | []]. discriminate.
  - eexists. split.
    + apply (Hfallback _ "alice");
        [reflexivity | reflexivity | left; reflexivity | reflexivity].
    + reflexivity.
  - destruct (Hnested (Scenario.world Scenario.one_task (Some "alice")
                         [false; false; true]) "alice" None None)
      as (s & E & Ht & _ & _ & _ & _ & Hl & _ & _ & _ & Hne);
      [reflexivity | reflexivity | reflexivity | discriminate
      | left; reflexivity |].
    exists s. split; [exact E|]. split; [exact Ht|]. split; [exact Hl | exact Hne].
Defined.

(** C10, counterexample: Alice has one task, delivered on time.  The
    first two requests of [getPerformanceSummary] succeed and the third,
    the authentication inside the nested [getOverallSkillAverages], fails.
    The summary counts one task and an on-time rate of 100 with empty
    skill lists: neither the all-zero summary nor the summary of a user
    without data. *)
Lemma nested_failure_leaves_partial_summary :
  exists s w',
    getPerformanceSummary None None
      (Scenario.world Scenario.one_task (Some "alice") [false; false; true])
      = (Returned s, w') /\
    faults w' = [] /\
    PerformanceSummary.total_tasks s = 1 /\
    (PerformanceSummary.on_time_delivery_rate s == 100)%Q /\
    PerformanceSummary.skill_averages s = [] /\
    s <> no_summary.
Proof.
  eexists. eexists. split; [reflexivity|].
  repeat split. discriminate.
Qed.

(* ===================================================================== *)
(** ** Further properties of the actions and of their callers *)
(* ===================================================================== *)

(** *** The insertion-ordered map *)

Section MapFacts.
Variables K V : Type.
Variable eqb : K -> K -> bool.
Hypothesis eqb_eq : forall a b, eqb a b = true <-> a = b.

Lemma eqb_same (a : K) : eqb a a = true.
Proof. apply eqb_eq. reflexivity. Qed.

Lemma eqb_other (a b : K) : a <> b -> eqb a b = false.
Proof.
  intros H. destruct (eqb a b) eqn:E; [|reflexivity].
  apply eqb_eq in E. contradiction.
Qed.

Lemma has_get (m : Js.Map K V) (k : K) :
  Js.has eqb m k = match Js.get eqb m k with Some _ => true | None => false end.
Proof.
  induction m as [|[k' v'] m IH]; simpl; [reflexivity|].
  destruct (eqb k' k); [reflexivity | exact IH].
Qed.

Lemma has_keys (m : Js.Map K V) (k : K) :
  Js.has eqb m k = true <-> In k (keys m).
Proof.
  induction m as [|[k' v'] m IH]; simpl.
  - split; [discriminate | contradiction].
  - destruct (eqb k' k) eqn:E.
    + apply eqb_eq in E. split; auto.
    + rewrite IH. split; [auto|]. intros [H|H]; [|exact H].
      apply eqb_eq in H. congruence.
Qed.

Lemma get_set_same (m : Js.Map K V) (k : K) (v : V) :
  Js.get eqb (Js.set eqb m k v) k = Some v.
Proof.
  induction m as [|[k' v'] m IH]; simpl.
  - rewrite eqb_same. reflexivity.
  - destruct (eqb k' k) eqn:E; simpl.
    + rewrite eqb_same. reflexivity.
    + rewrite E. exact IH.
Qed.

Lemma get_set_other (m : Js.Map K V) (k k' : K) (v : V) :
  k <> k' -> Js.get eqb (Js.set eqb m k v) k' = Js.get eqb m k'.
Proof.
  intros Hne. induction m as [|[k0 v0] m IH]; simpl.
  - rewrite (eqb_other Hne). reflexivity.
  - destruct (eqb k0 k) eqn:E; simpl.
    + apply eqb_eq in E. subst k0. rewrite (eqb_other Hne). reflexivity.
    + destruct (eqb k0 k'); [reflexivity | exact IH].
Qed.

Lemma keys_set (m : Js.Map K V) (k : K) (v : V) :
  keys (Js.set eqb m k v) = if Js.has eqb m k then keys m else keys m ++ [k].
Proof.
  unfold keys. induction m as [|[k0 v0] m IH]; simpl; [reflexivity|].
  destruct (eqb k0 k) eqn:E; simpl.
  - apply eqb_eq in E. subst. reflexivity.
  - rewrite IH. destruct (Js.has eqb m k); reflexivity.
Qed.

Lemma get_update_same (m : Js.Map K V) (k : K) (f : V -> V) :
  Js.get eqb (Js.update eqb m k f) k = option_map f (Js.get eqb m k).
Proof.
  induction m as [|[k0 v0] m IH]; simpl; [reflexivity|].
  destruct (eqb k0 k) eqn:E; simpl; rewrite E; [reflexivity | exact IH].
Qed.

Lemma get_update_other (m : Js.Map K V) (k k' : K) (f : V -> V) :
  k <> k' -> Js.get eqb (Js.update eqb m k f) k' = Js.get eqb m k'.
Proof.
  intros Hne. induction m as [|[k0 v0] m IH]; simpl; [reflexivity|].
  destruct (eqb k0 k) eqn:E; simpl.
  - apply eqb_eq in E. subst k0. rewrite (eqb_other Hne). reflexivity.
  - destruct (eqb k0 k'); [reflexivity | exact IH].
Qed.

Lemma keys_update (m : Js.Map K V) (k : K) (f : V -> V) :
  keys (Js.update eqb m k f) = keys m.
Proof.
  unfold keys. induction m as [|[k0 v0] m IH]; simpl; [reflexivity|].
  destruct (eqb k0 k); simpl; [reflexivity|]. rewrite IH. reflexivity.
Qed.

Lemma get_In (m : Js.Map K V) (k : K) (v : V) :
  Js.get eqb m k = Some v -> In (k, v) m.
Proof.
  induction m as [|[k0 v0] m IH]; simpl; [discriminate|].
  destruct (eqb k0 k) eqn:E.
  - apply eqb_eq in E. intros [= ->]. left. congruence.
  - auto.
Qed.

Lemma In_get (m : Js.Map K V) (k : K) (v : V) :
  NoDup (keys m) -> In (k, v) m -> Js.get eqb m k = Some v.
Proof.
  induction m as [|[k0 v0] m IH]; simpl; [contradiction|].
  intros Hnd [H|H].
  - injection H as -> ->. rewrite eqb_same. reflexivity.
  - inversion Hnd as [|? ? Hnotin Hnd']; subst.
    destruct (eqb k0 k) eqn:E.
    + apply eqb_eq in E. subst k0. exfalso. apply Hnotin.
      change k with (fst (k, v)). apply in_map. exact H.
    + apply IH; assumption.
Qed.

Lemma get_upsert_same (m : Js.Map K V) (k : K) (init : V) (f : V -> V) :
  Js.get eqb (upsert eqb m k init f) k
  = Some (f (match Js.get eqb m k with Some v => v | None => init end)).
Proof.
  unfold upsert. rewrite get_update_same, has_get.
  destruct (Js.get eqb m k) as [v|] eqn:E; simpl.
  - rewrite E. reflexivity.
  - rewrite get_set_same. reflexivity.
Qed.

Lemma get_upsert_other (m : Js.Map K V) (k k' : K) (init : V) (f : V -> V) :
  k <> k' -> Js.get eqb (upsert eqb m k init f) k' = Js.get eqb m k'.
Proof.
  intros Hne. unfold upsert. rewrite (get_update_other _ _ Hne).
  destruct (negb (Js.has eqb m k)); [apply get_set_other; exact Hne | reflexivity].
Qed.

Lemma keys_upsert (m : Js.Map K V) (k : K) (init : V) (f : V -> V) :
  keys (upsert eqb m k init f) = if Js.has eqb m k then keys m else keys m ++ [k].
Proof.
  unfold upsert. rewrite keys_update.
  destruct (Js.has eqb m k) eqn:E; simpl; [reflexivity|].
  rewrite keys_set, E. reflexivity.
Qed.

Lemma NoDup_keys_upsert (m : Js.Map K V) (k : K) (init : V) (f : V -> V) :
  NoDup (keys m) -> NoDup (keys (upsert eqb m k init f)).
Proof.
  intros H. rewrite keys_upsert. destruct (Js.has eqb m k) eqn:E; [exact H|].
  apply NoDup_app; [exact H | constructor; [intros []|constructor] |].
  intros x Hx [<-|[]]. apply has_keys in Hx. congruence.
Qed.
End MapFacts.

Lemma group_step_upsert (m : Js.Map uuid Group.t) (item : RatingRow.t) :
  group_step m item
  = if counted item
    then upsert String.eqb m (skill_id_of item)
           (Group.mk [] (skill_name_in item)) (Group.push (RatingRow.rating item))
    else m.
Proof.
  unfold group_step, counted, skill_id_of, skill_name_in, upsert.
  destruct (unwrap (RatingRow.skill item)) as [skill|]; [|reflexivity].
  destruct (Js.truthy (SkillRef.id skill) && Js.truthy (SkillRef.name skill));
    reflexivity.
Qed.

Lemma group_by_skill_snoc (done : list RatingRow.t) (item : RatingRow.t) :
  group_by_skill (done ++ [item]) = group_step (group_by_skill done) item.
Proof. unfold group_by_skill. rewrite fold_left_app. reflexivity. Qed.

Lemma find_app (A : Type) (p : A -> bool) (l1 l2 : list A) :
  find p (l1 ++ l2) = match find p l1 with Some x => Some x | None => find p l2 end.
Proof.
  induction l1 as [|x l1 IH]; simpl; [reflexivity|].
  destruct (p x); [reflexivity | exact IH].
Qed.

Lemma find_none_filter (A : Type) (p : A -> bool) (l : list A) :
  find p l = None -> filter p l = [].
Proof.
  induction l as [|x l IH]; simpl; [reflexivity|].
  destruct (p x); [discriminate | exact IH].
Qed.

Lemma group_by_skill_get (manualData : list RatingRow.t) (k : uuid) :
  Js.get String.eqb (group_by_skill manualData) k = group_of_skill manualData k.
Proof.
  induction manualData as [|item done IH] using rev_ind; [reflexivity|].
  rewrite group_by_skill_snoc, group_step_upsert.
  unfold group_of_skill, ratings_of_skill in *.
  rewrite find_app, filter_app, map_app. simpl.
  unfold rated_as at 2 4. 
  destruct (counted item) eqn:Ec; simpl.
  - destruct (String.eqb_spec (skill_id_of item) k) as [->|Hne].
    + rewrite (get_upsert_same String.eqb String.eqb_eq), IH.
      destruct (find (rated_as k) done) as [first|] eqn:Ef; simpl.
      * reflexivity.
      * rewrite (find_none_filter _ _ Ef). reflexivity.
    + rewrite (get_upsert_other String.eqb String.eqb_eq _ _ _ Hne), IH.
      destruct (find (rated_as k) done); [rewrite app_nil_r|]; reflexivity.
  - rewrite IH. destruct (find (rated_as k) done); [rewrite app_nil_r|]; reflexivity.
Qed.

Lemma group_by_skill_keys (manualData : list RatingRow.t) :
  NoDup (keys (group_by_skill manualData)).
Proof.
  induction manualData as [|item done IH] using rev_ind; [constructor|].
  rewrite group_by_skill_snoc, group_step_upsert.
  destruct (counted item); [|exact IH].
  apply (NoDup_keys_upsert String.eqb String.eqb_eq). exact IH.
Qed.

Lemma find_some_filter (A : Type) (p : A -> bool) (l : list A) (x : A) :
  find p l = Some x -> filter p l <> [].
Proof.
  intros H E. apply find_some in H as [Hin Hp].
  assert (In x (filter p l)) by (apply filter_In; auto).
  rewrite E in H. contradiction.
Qed.

Lemma group_entry (manualData : list RatingRow.t) (k : uuid) (g : Group.t) :
  In (k, g) (group_by_skill manualData) ->
  Group.ratings g = ratings_of_skill manualData k /\
  ratings_of_skill manualData k <> [].
Proof.
  intros Hin.
  apply (In_get String.eqb String.eqb_eq _ _ _ (group_by_skill_keys manualData)) in Hin.
  rewrite group_by_skill_get in Hin. unfold group_of_skill in Hin.
  destruct (find (rated_as k) manualData) as [first|] eqn:Ef; [|discriminate].
  injection Hin as <-. split; [reflexivity|].
  unfold ratings_of_skill. intros E. apply map_eq_nil in E.
  exact (find_some_filter _ _ Ef E).
Qed.

(** *** Bounds of a mean *)

Lemma fold_min_le (l : list Z) (a : Z) :
  fold_left Z.min l a <= a /\ (forall x, In x l -> fold_left Z.min l a <= x) /\
  (fold_left Z.min l a = a \/ In (fold_left Z.min l a) l).
Proof.
  revert a. induction l as [|y l IH]; intros a; simpl.
  - repeat split; [lia | contradiction | left; reflexivity].
  - destruct (IH (Z.min a y)) as (H1 & H2 & H3). repeat split.
    + lia.
    + intros x [<-|Hx]; [lia | auto].
    + destruct H3 as [H3|H3]; [|right; right; exact H3].
      rewrite H3. destruct (Z.min_spec a y) as [[_ ->]|[_ ->]]; auto.
Qed.

Lemma fold_max_ge (l : list Z) (a : Z) :
  a <= fold_left Z.max l a /\ (forall x, In x l -> x <= fold_left Z.max l a) /\
  (fold_left Z.max l a = a \/ In (fold_left Z.max l a) l).
Proof.
  revert a. induction l as [|y l IH]; intros a; simpl.
  - repeat split; [lia | contradiction | left; reflexivity].
  - destruct (IH (Z.max a y)) as (H1 & H2 & H3). repeat split.
    + lia.
    + intros x [<-|Hx]; [lia | auto].
    + destruct H3 as [H3|H3]; [|right; right; exact H3].
      rewrite H3. destruct (Z.max_spec a y) as [[_ ->]|[_ ->]]; auto.
Qed.

Lemma Math_min_spec (l : list Z) :
  l <> [] -> In (Js.Math_min l) l /\ forall x, In x l -> Js.Math_min l <= x.
Proof.
  destruct l as [|a l]; [congruence|]. intros _. simpl.
  destruct (fold_min_le l a) as (H1 & H2 & H3). split.
  - destruct H3 as [->|H3]; auto.
  - intros x [<-|Hx]; auto.
Qed.

Lemma Math_max_spec (l : list Z) :
  l <> [] -> In (Js.Math_max l) l /\ forall x, In x l -> x <= Js.Math_max l.
Proof.
  destruct l as [|a l]; [congruence|]. intros _. simpl.
  destruct (fold_max_ge l a) as (H1 & H2 & H3). split.
  - destruct H3 as [->|H3]; auto.
  - intros x [<-|Hx]; auto.
Qed.

Lemma sum_bounds (lo hi : Z) (l : list Z) :
  (forall x, In x l -> lo <= x <= hi) ->
  lo * Z.of_nat (length l) <= Js.sum l <= hi * Z.of_nat (length l).
Proof.
  induction l as [|x l IH]; intros H.
  - cbn. lia.
  - rewrite sum_cons. cbn [length]. rewrite Nat2Z.inj_succ.
    assert (lo <= x <= hi) by (apply H; left; reflexivity).
    assert (lo * Z.of_nat (length l) <= Js.sum l <= hi * Z.of_nat (length l)).
    { apply IH. intros y Hy. apply H. right. exact Hy. }
    lia.
Qed.

Lemma quotient_bounds (lo hi s n : Z) :
  0 < n -> lo * n <= s <= hi * n ->
  (inject_Z lo <= inject_Z s / inject_Z n <= inject_Z hi)%Q.
Proof.
  intros Hn [H1 H2].
  assert (Hq : (0 < inject_Z n)%Q) by (unfold Qlt; simpl; lia).
  split.
  - apply Qle_shift_div_l; [exact Hq|].
    rewrite <- inject_Z_mult, <- Zle_Qle. exact H1.
  - apply Qle_shift_div_r; [exact Hq|].
    rewrite <- inject_Z_mult, <- Zle_Qle. exact H2.
Qed.

Lemma mean_bounds (lo hi : Z) (l : list Z) :
  l <> [] -> (forall x, In x l -> lo <= x <= hi) ->
  (inject_Z lo <= mean l <= inject_Z hi)%Q.
Proof.
  intros Hne H. unfold mean. apply quotient_bounds.
  - destruct l; [congruence|]. cbn [length]. lia.
  - apply sum_bounds. exact H.
Qed.

Lemma manual_average_entry (manualData : list RatingRow.t) (a : SkillAverage.t) :
  In a (manual_averages manualData) ->
  exists g, In (SkillAverage.skill_id a, g) (group_by_skill manualData)
            /\ a = to_average (SkillAverage.skill_id a, g).
Proof.
  unfold manual_averages. rewrite in_map_iff. intros ([k g] & <- & Hin).
  exists g. split; [exact Hin | reflexivity].
Qed.

(** X1: every skill that the manual computation of
    [getOverallSkillAverages] lists has at least one rating, and its
    entry summarises exactly the ratings of the rows of that skill, in
    their order: their mean, their number, their minimum and their
    maximum. *)
Theorem listed_skill_summarises_its_ratings
  (manualData : list RatingRow.t) (a : SkillAverage.t) :
  In a (manual_averages manualData) ->
  let rs := ratings_of_skill manualData (SkillAverage.skill_id a) in
  rs <> [] /\
  SkillAverage.average_rating a = mean rs /\
  SkillAverage.rating_count a = Z.of_nat (length rs) /\
  SkillAverage.min_rating a = Js.Math_min rs /\
  SkillAverage.max_rating a = Js.Math_max rs.
Proof.
  intros Hin rs. destruct (manual_average_entry _ _ Hin) as (g & Hg & Ea).
  destruct (group_entry _ _ _ Hg) as [Er Hne]. fold rs in Er, Hne.
  rewrite Ea. simpl. rewrite Er. auto.
Qed.

(** X1 at work: Analysis in rows that rate it 5 and 1. *)
Lemma listed_skill_summarises_its_ratings_witness :
  let a := SkillAverage.mk "s1" "Analysis" (mean [5; 1]) 2 1 5 in
  let rs := ratings_of_skill even_rows "s1" in
  In a (manual_averages even_rows) /\
  rs = [5; 1] /\
  SkillAverage.average_rating a = mean rs /\
  SkillAverage.rating_count a = Z.of_nat (length rs).
Proof.
  assert (Hin : In (SkillAverage.mk "s1" "Analysis" (mean [5; 1]) 2 1 5)
                   (manual_averages even_rows))
    by (vm_compute; left; reflexivity).
  destruct (listed_skill_summarises_its_ratings even_rows _ Hin)
    as (_ & Ha & Hc & _).
  split; [exact Hin|]. split; [reflexivity|]. split; [exact Ha | exact Hc].
Defined.

(** X2: for every listed skill the rating count is at least 1, the
    minimum and the maximum are ratings of the input, and the mean lies
    between them; with ratings from 1 to 5 every mean lies between 1 and
    5. *)
Theorem listed_skill_mean_lies_between_its_extremes
  (manualData : list RatingRow.t) (a : SkillAverage.t) :
  In a (manual_averages manualData) ->
  1 <= SkillAverage.rating_count a /\
  In (SkillAverage.min_rating a) (map RatingRow.rating manualData) /\
  In (SkillAverage.max_rating a) (map RatingRow.rating manualData) /\
  (inject_Z (SkillAverage.min_rating a) <= SkillAverage.average_rating a
   <= inject_Z (SkillAverage.max_rating a))%Q.
Proof.
  intros Hin. destruct (manual_average_entry _ _ Hin) as (g & Hg & Ea).
  destruct (group_entry _ _ _ Hg) as [Er Hne].
  set (rs := ratings_of_skill manualData (SkillAverage.skill_id a)) in *.
  assert (Hsub : forall x, In x rs -> In x (map RatingRow.rating manualData)).
  { unfold rs, ratings_of_skill. intros x Hx. apply in_map_iff in Hx.
    destruct Hx as (item & <- & Hi). apply in_map.
    apply filter_In in Hi. tauto. }
  destruct (Math_min_spec Hne) as [Hmin_in Hmin].
  destruct (Math_max_spec Hne) as [Hmax_in Hmax].
  rewrite Ea. simpl. rewrite Er.
  refine (conj _ (conj (Hsub _ Hmin_in) (conj (Hsub _ Hmax_in) _))).
  - destruct rs; [congruence|]. cbn [length]. lia.
  - apply mean_bounds; [exact Hne|]. intros x Hx. split; auto.
Qed.

(** X2 at work: Analysis in rows that rate it 5 and 1. *)
Lemma listed_skill_mean_lies_between_its_extremes_witness :
  let a := SkillAverage.mk "s1" "Analysis" (mean [5; 1]) 2 1 5 in
  In a (manual_averages even_rows) /\
  1 <= SkillAverage.rating_count a /\
  (inject_Z (SkillAverage.min_rating a) <= SkillAverage.average_rating a
   <= inject_Z (SkillAverage.max_rating a))%Q.
Proof.
  assert (Hin : In (SkillAverage.mk "s1" "Analysis" (mean [5; 1]) 2 1 5)
                   (manual_averages even_rows))
    by (vm_compute; left; reflexivity).
  destruct (listed_skill_mean_lies_between_its_extremes even_rows _ Hin)
    as (Hc & _ & _ & Hm).
  split; [exact Hin|]. split; [exact Hc | exact Hm].
Defined.

(** *** Grouping loops in general *)

Section GroupBy.
Variables A K V : Type.
Variable eqb : K -> K -> bool.
Hypothesis eqb_eq : forall a b, eqb a b = true <-> a = b.
Variable taken : A -> bool.
Variable key : A -> K.
Variable init : V.
Variable add : A -> V -> V.




(** The content of a map, measured value by value. *)
Variable size : V -> nat.

Lemma total_app (m1 m2 : Js.Map K V) :
  total size (m1 ++ m2) = (total size m1 + total size m2)%nat.
Proof. induction m1 as [|e m1 IH]; simpl; [reflexivity | rewrite IH; lia]. Qed.


End GroupBy.









(** *** The order of dates *)

Lemma date_leb_spec (a b : CivilDate) :
  date_leb a b = true <->
  year a < year b \/
  (year a = year b /\ (month a < month b \/ (month a = month b /\ day a <= day b))).
Proof.
  unfold date_leb, date_compare.
  destruct (Z.compare_spec (year a) (year b));
    destruct (Z.compare_spec (month a) (month b));
    destruct (Z.compare_spec (day a) (day b));
    split; intros; try discriminate; try reflexivity; try lia.
Qed.

Lemma date_leb_trans (a b c : CivilDate) :
  date_leb a b = true -> date_leb b c = true -> date_leb a c = true.
Proof. rewrite !date_leb_spec. lia. Qed.

Lemma date_leb_total (a b : CivilDate) :
  date_leb a b = false -> date_leb b a = true.
Proof.
  intros H. apply date_leb_spec.
  destruct (date_leb a b) eqn:E; [discriminate|].
  assert (~ (year a < year b \/
             (year a = year b /\
              (month a < month b \/ (month a = month b /\ day a <= day b))))).
  { rewrite <- date_leb_spec. congruence. }
  lia.
Qed.


Lemma Sorted_Strongly (A : Type) (R : A -> A -> Prop) (l : list A) :
  (forall x y z, R x y -> R y z -> R x z) -> Sorted R l -> StronglySorted R l.
Proof.
  intros Ht H. induction H as [|x l Hs IH Hd]; constructor; [exact IH|].
  clear Hs. induction IH as [|y l' Hs' IH' Hall]; [constructor|].
  inversion Hd as [|? ? Hxy]; subst. constructor; [exact Hxy|].
  apply IH'. destruct l' as [|z l'']; constructor.
  inversion Hall; subst. eapply Ht; eauto.
Qed.







Lemma NoDup_keys_entries (K V : Type) (m : Js.Map K V) : NoDup (keys m) -> NoDup m.
Proof.
  unfold keys. intros H. induction m as [|e m IH]; [constructor|].
  simpl in H. inversion H; subst. constructor; [|auto].
  intros Hin. apply (in_map fst) in Hin. contradiction.
Qed.







Lemma manual_averages_ids (manualData : list RatingRow.t) :
  map SkillAverage.skill_id (manual_averages manualData)
  = keys (group_by_skill manualData).
Proof.
  unfold manual_averages, keys. rewrite map_map. apply map_ext.
  intros [k g]. reflexivity.
Qed.

Lemma group_by_skill_has (manualData : list RatingRow.t) (item : RatingRow.t) :
  In item manualData -> counted item = true ->
  In (skill_id_of item) (keys (group_by_skill manualData)).
Proof.
  intros Hin Hc. apply (has_keys String.eqb String.eqb_eq).
  rewrite has_get, group_by_skill_get. unfold group_of_skill.
  destruct (find (rated_as (skill_id_of item)) manualData) eqn:E; [reflexivity|].
  eapply find_none in E; [|exact Hin]. unfold rated_as in E.
  rewrite Hc, String.eqb_refl in E. discriminate.
Qed.

(** X6: the list of all skills has no skill twice; it holds every skill
    of a counted row, and only such skills. *)
Theorem every_rated_skill_is_listed_once (manualData : list RatingRow.t) :
  let all_skills := Overall.all_skills (rank (manual_averages manualData)) in
  NoDup (map SkillAverage.skill_id all_skills) /\
  (forall item, In item manualData -> counted item = true ->
                In (skill_id_of item) (map SkillAverage.skill_id all_skills)) /\
  (forall a, In a all_skills ->
             exists item, In item manualData /\ counted item = true /\
                          skill_id_of item = SkillAverage.skill_id a).
Proof.
  intros all_skills.
  destruct (rank_sorted_stable (manual_averages manualData)) as (Hp & _).
  cbv zeta in Hp. fold all_skills in Hp.
  assert (Hids : Permutation (map SkillAverage.skill_id all_skills)
                             (keys (group_by_skill manualData))).
  { rewrite <- manual_averages_ids. apply Permutation_map. exact Hp. }
  split; [|split].
  - eapply Permutation_NoDup; [apply Permutation_sym; exact Hids|].
    apply group_by_skill_keys.
  - intros item Hin Hc. eapply Permutation_in; [apply Permutation_sym; exact Hids|].
    apply group_by_skill_has; assumption.
  - intros a Ha. eapply Permutation_in in Ha; [|exact Hp].
    destruct (manual_average_entry _ _ Ha) as (g & Hg & _).
    destruct (group_entry _ _ _ Hg) as [_ Hne].
    unfold ratings_of_skill in Hne.
    destruct (filter (rated_as (SkillAverage.skill_id a)) manualData) as [|item l] eqn:E;
      [contradiction Hne; reflexivity|].
    assert (Hi : In item (filter (rated_as (SkillAverage.skill_id a)) manualData))
      by (rewrite E; left; reflexivity).
    apply filter_In in Hi as [Hi Hr]. unfold rated_as in Hr.
    apply andb_true_iff in Hr as [Hc Hk]. apply String.eqb_eq in Hk.
    exists item. auto.
Qed.













(** X10: on a server in UTC the week key of every date is a Monday, at
    most five days before and one day after the date, and the week key
    of a week key is itself. *)
Theorem utc_week_key_is_a_monday (n : Z) :
  let d := Date.civil_from_days n in
  exists m,
    weekKey 0 d = Date.civil_from_days m /\
    Date.WeekDay (Date.of_date_string (weekKey 0 d)) = 1 /\
    n - 5 <= m <= n + 1 /\
    weekKey 0 (weekKey 0 d) = weekKey 0 d.
Proof.
  intros d. unfold d. exists (n + 1 - (n + 4) mod 7).
  pose proof (Z.mod_pos_bound (n + 4) 7 ltac:(lia)) as Hb.
  pose proof (Z.div_mod (n + 4) 7 ltac:(lia)) as Hd.
  assert (Hm : (n + 1 - (n + 4) mod 7 + 4) mod 7 = 1).
  { replace (n + 1 - (n + 4) mod 7 + 4) with (1 + ((n + 4) / 7) * 7) by lia.
    rewrite Z.mod_add by lia. reflexivity. }
  rewrite weekKey_utc. split; [reflexivity|]. split; [|split; [lia|]].
  - unfold Date.WeekDay, Date.of_date_string.
    destruct (civil_roundtrip (n + 1 - (n + 4) mod 7)) as (E & _). cbv zeta in E.
    rewrite E, day_of_days by (unfold Date.msPerDay; lia). exact Hm.
  - rewrite weekKey_utc, Hm. f_equal. lia.
Qed.

(** X11: on a server in UTC the month key of a date with a year outside
    0..99 is the first day of its month, and the month key of a month key
    is itself. *)
Theorem utc_month_key_is_first_of_month (n : Z) :
  let d := Date.civil_from_days n in
  ~ 0 <= year d <= 99 ->
  monthKey 0 d = mkDate (year d) (month d) 1 /\
  monthKey 0 (monthKey 0 d) = monthKey 0 d.
Proof.
  intros d Hy.
  assert (E : monthKey 0 d = mkDate (year d) (month d) 1)
    by (apply (monthKey_utc n); exact Hy).
  split; [exact E|]. rewrite E.
  destruct (civil_roundtrip n) as (_ & Hm & _). fold d in Hm.
  rewrite <- (civil_of_first (year d) Hm).
  pose proof (monthKey_utc (Date.days_from_civil (year d) (month d) 1)) as H.
  cbv zeta in H. rewrite (civil_of_first (year d) Hm) in *.
  apply H. exact Hy.
Qed.

(** X11 at work: 2024-01-15 is the day 19737. *)
Lemma utc_month_key_is_first_of_month_witness :
  Date.civil_from_days 19737 = mkDate 2024 1 15 /\
  monthKey 0 (Date.civil_from_days 19737) = mkDate 2024 1 1 /\
  monthKey 0 (monthKey 0 (Date.civil_from_days 19737))
  = monthKey 0 (Date.civil_from_days 19737).
Proof.
  split; [reflexivity|].
  apply (utc_month_key_is_first_of_month 19737). vm_compute. intros [_ H].
  apply H. reflexivity.
Defined.

Section Keeps.
Variable R : Db -> Db -> Prop.
Hypothesis R_refl : forall d, R d d.
Hypothesis R_trans : forall a b c, R a b -> R b c -> R a c.

Lemma keeps_ret (A : Type) (a : A) : keeps R (ret a).
Proof. intros w. apply R_refl. Qed.

Lemma keeps_throw (A : Type) (e : Exn) : keeps R (@throw A e).
Proof. intros w. apply R_refl. Qed.

Lemma keeps_bind (A B : Type) (m : M A) (k : A -> M B) :
  keeps R m -> (forall a, keeps R (k a)) -> keeps R (bind m k).
Proof.
  intros Hm Hk w. unfold bind. specialize (Hm w).
  destruct (m w) as [[a|e] w1]; simpl in *; [|exact Hm].
  eapply R_trans; [exact Hm | apply Hk].
Qed.

Lemma keeps_try_catch (A : Type) (body : M A) (handler : Exn -> M A) :
  keeps R body -> (forall e, keeps R (handler e)) -> keeps R (try_catch body handler).
Proof.
  intros Hm Hk w. unfold try_catch. specialize (Hm w).
  destruct (body w) as [[a|e] w1]; simpl in *; [exact Hm|].
  eapply R_trans; [exact Hm | apply Hk].
Qed.

Lemma keeps_request (A : Type) (op : World -> Response A * World) :
  (forall w, R (db w) (db (snd (op w)))) -> keeps R (request op).
Proof.
  intros H w. unfold request, next_fault.
  destruct (faults w) as [|[|] fs]; simpl.
  - specialize (H w). destruct (op w). exact H.
  - apply R_refl.
  - specialize (H (with_faults fs w)). destruct (op (with_faults fs w)). exact H.
Qed.

Lemma keeps_read (A : Type) (rows : World -> Response A) :
  keeps R (Supabase.read rows).
Proof. apply keeps_request. intros w. apply R_refl. Qed.

Lemma keeps_write (A : Type) (stmt : World -> Response A * Db) :
  (forall w, R (db w) (snd (stmt w))) -> keeps R (Supabase.write stmt).
Proof.
  intros H. apply keeps_request. intros w. specialize (H w).
  destruct (stmt w). exact H.
Qed.
End Keeps.

(** One step along the structure of an action. *)
Ltac keeps_step :=
  match goal with
  | |- keeps _ (ret _) => apply keeps_ret
  | |- keeps _ (throw _) => apply keeps_throw
  | |- keeps _ (Supabase.read _) => apply keeps_read
  | |- keeps _ (try_catch _ _) => apply keeps_try_catch
  | |- keeps _ (bind _ _) => apply keeps_bind
  | |- keeps _ (if ?c then _ else _) => destruct c
  | |- keeps _ (match ?x with _ => _ end) => destruct x
  | |- keeps ?R (fun w => _) =>
      let w0 := fresh "w" in
      unfold keeps at 1; intro w0; cbv beta zeta;
      match goal with
      | |- R (db w0) (db (snd (?m w0))) =>
          let H := fresh in assert (H : keeps R m); [ | exact (H w0)]
      end
  | |- forall _, _ => intro
  end.

Ltac keeps_steps := repeat (keeps_step; try assumption).

Lemma eq_db_trans (a b c : Db) : a = b -> b = c -> a = c.
Proof. congruence. Qed.

Ltac unfold_reads :=
  unfold getPerformanceSummary, getOverallSkillAverages,
    getWeeklySkillTrends, getMonthlySkillTrends,
    getUserTasks, getTaskById, getCurrentUser, getAllSkills,
    Supabase.auth_getUser, Supabase.select_tasks, Supabase.rpc_overall,
    Supabase.select_rating_rows, Supabase.select_user_tasks,
    Supabase.select_task_by_id, Supabase.select_task_owner,
    Supabase.select_active_skills.

(** X12: the read actions never write: whatever they answer and
    whichever requests fail, [getAllSkills], [getUserTasks],
    [getTaskById] and the four aggregation entry points leave the
    database as it was. *)
Theorem read_actions_never_write (w : World) :
  db (snd (getAllSkills w)) = db w /\
  (forall userId limit offset, db (snd (getUserTasks userId limit offset w)) = db w) /\
  (forall taskId, db (snd (getTaskById taskId w)) = db w) /\
  db (snd (getOverallSkillAverages w)) = db w /\
  (forall weekCount, db (snd (getWeeklySkillTrends weekCount w)) = db w) /\
  (forall monthCount, db (snd (getMonthlySkillTrends monthCount w)) = db w) /\
  (forall startDate endDate,
     db (snd (getPerformanceSummary startDate endDate w)) = db w).
Proof.
  assert (Hr : forall d : Db, d = d) by reflexivity.
  pose proof eq_db_trans as Ht.
  repeat split; intros; symmetry;
    match goal with
    | |- db ?w0 = db (snd (?m ?w0)) => revert w0; change (keeps eq m)
    end; unfold_reads; keeps_steps.
Qed.

Lemma update_frame_refl (tid : uuid) (d : Db) : update_frame tid d d.
Proof. repeat split. Qed.

Lemma update_frame_trans (tid : uuid) (a b c : Db) :
  update_frame tid a b -> update_frame tid b c -> update_frame tid a c.
Proof.
  unfold update_frame, only_touches, same_ids_and_owners.
  intros ((H1 & H2 & H3) & H4 & H5) ((G1 & G2 & G3) & G4 & G5).
  repeat split; congruence.
Qed.

Lemma delete_frame_refl (tid : uuid) (d : Db) : delete_frame tid d d.
Proof. repeat split; apply incl_refl. Qed.

Lemma delete_frame_trans (tid : uuid) (a b c : Db) :
  delete_frame tid a b -> delete_frame tid b c -> delete_frame tid a c.
Proof.
  unfold delete_frame, only_touches.
  intros ((H1 & H2 & H3) & H4 & H5) ((G1 & G2 & G3) & G4 & G5).
  repeat split; try congruence; eapply incl_tran; eassumption.
Qed.

Lemma filter_map_fixed (A : Type) (p : A -> bool) (g : A -> A) (l : list A) :
  (forall x, p (g x) = p x) -> (forall x, p x = true -> g x = x) ->
  filter p (map g l) = filter p l.
Proof.
  intros Hp Hg. induction l as [|x l IH]; simpl; [reflexivity|].
  rewrite Hp. destruct (p x) eqn:E; [rewrite (Hg x E), IH | rewrite IH]; reflexivity.
Qed.

Lemma filter_filter_sub (A : Type) (p q : A -> bool) (l : list A) :
  (forall x, p x = true -> q x = true) ->
  filter p (filter q l) = filter p l.
Proof.
  intros H. induction l as [|x l IH]; simpl; [reflexivity|].
  destruct (q x) eqn:Eq; simpl.
  - destruct (p x); rewrite IH; reflexivity.
  - destruct (p x) eqn:Ep; [|exact IH]. rewrite (H x Ep) in Eq. discriminate.
Qed.

Lemma update_task_frame (tid : uuid) (fields : Task.t -> Task.t) :
  (forall t, Task.id (fields t) = Task.id t) ->
  (forall t, Task.user_id (fields t) = Task.user_id t) ->
  keeps (update_frame tid) (Supabase.update_task tid fields).
Proof.
  intros Hid Hu. unfold Supabase.update_task.
  apply keeps_write; [apply update_frame_refl|]. intros w. simpl.
  unfold update_frame, only_touches, same_ids_and_owners, other_tasks,
    other_ratings. simpl.
  repeat split.
  - apply filter_map_fixed.
    + intros t. destruct ((Task.id t =? tid)%string && Supabase.policy_task w t);
        [rewrite Hid|]; reflexivity.
    + intros t Ht. apply negb_true_iff in Ht. rewrite Ht. reflexivity.
  - rewrite map_map. apply map_ext. intros t.
    destruct ((Task.id t =? tid)%string && Supabase.policy_task w t);
      [apply Hid | reflexivity].
  - rewrite map_map. apply map_ext. intros t.
    destruct ((Task.id t =? tid)%string && Supabase.policy_task w t);
      [apply Hu | reflexivity].
Qed.

Lemma delete_skill_ratings_frame (tid : uuid) :
  forall w,
    let d' := snd (let '(r, d) :=
                     (Data tt,
                      mkDb (skills (db w)) (tasks (db w))
                        (filter (fun r => negb ((SkillRating.task_id r =? tid)%string
                                                && Supabase.policy_rating w r))
                                (skill_ratings (db w)))) in (r, d)) in
    only_touches tid (db w) d' /\ incl (skill_ratings d') (skill_ratings (db w)).
Proof.
  intros w. simpl. unfold only_touches, other_tasks, other_ratings. simpl.
  repeat split.
  - apply filter_filter_sub. intros r Hr. apply negb_true_iff in Hr.
    rewrite Hr. reflexivity.
  - intros r Hr. apply filter_In in Hr. tauto.
Qed.

Lemma keeps_delete_skill_ratings_update (tid : uuid) :
  keeps (update_frame tid) (Supabase.delete_skill_ratings tid).
Proof.
  unfold Supabase.delete_skill_ratings.
  apply keeps_write; [apply update_frame_refl|]. intros w.
  destruct (delete_skill_ratings_frame tid w) as [H _]. simpl in *.
  split; [exact H | split; reflexivity].
Qed.

Lemma ratingsToInsert_task (tid : uuid) (m : Js.Map uuid Z) (r : SkillRating.t) :
  In r (ratingsToInsert tid m) -> SkillRating.task_id r = tid.
Proof.
  unfold ratingsToInsert. rewrite in_map_iff. intros ([k v] & <- & _). reflexivity.
Qed.

Lemma keeps_insert_skill_ratings_update (tid : uuid) (m : Js.Map uuid Z) :
  keeps (update_frame tid) (Supabase.insert_skill_ratings (ratingsToInsert tid m)).
Proof.
  unfold Supabase.insert_skill_ratings.
  apply keeps_write; [apply update_frame_refl|]. intros w.
  destruct (forallb (Supabase.rating_row_ok w) (ratingsToInsert tid m)
            && Supabase.distinct_keys (ratingsToInsert tid m));
    simpl; [|apply update_frame_refl].
  unfold update_frame, only_touches, same_ids_and_owners, other_tasks,
    other_ratings. simpl.
  repeat split. rewrite filter_app.
  rewrite (@filter_none _ _ (ratingsToInsert tid m)); [apply app_nil_r|].
  intros r Hr. rewrite (ratingsToInsert_task _ _ _ Hr), String.eqb_refl.
  reflexivity.
Qed.

Lemma keeps_delete_task (tid : uuid) :
  keeps (delete_frame tid) (Supabase.delete_task tid).
Proof.
  unfold Supabase.delete_task.
  apply keeps_write; [apply delete_frame_refl|]. intros w. simpl.
  unfold delete_frame, only_touches, other_tasks, other_ratings. simpl.
  repeat split.
  - apply filter_filter_sub. intros t Ht. apply negb_true_iff in Ht.
    rewrite Ht. reflexivity.
  - apply filter_filter_sub. intros r Hr. apply negb_true_iff in Hr.
    apply negb_true_iff. apply not_true_iff_false. intros Hex.
    apply existsb_exists in Hex as (t & _ & Hb).
    apply andb_true_iff in Hb as [Hg He]. apply andb_true_iff in Hg as [Hid _].
    apply String.eqb_eq in Hid, He. rewrite <- He, Hid, String.eqb_refl in Hr.
    discriminate.
  - intros t Ht. apply filter_In in Ht. tauto.
  - intros r Hr. apply filter_In in Hr. tauto.
Qed.

Ltac frame_steps refl trans :=
  repeat (first
    [ match goal with
      | |- forall a b c : Db, _ => exact trans
      | |- forall d : Db, _ => exact refl
      end
    | keeps_step ]).

(** X13: whatever it answers and whichever requests fail, [updateTask]
    leaves the skills, the rows of the other tasks and the ratings of the
    other tasks as they were, and no task changes its id or its owner,
    appears or goes. *)
Theorem updateTask_touches_one_task_only
  (taskId : uuid) (formData : TaskSubmissionFormData.t) (w : World) :
  let d' := db (snd (updateTask taskId formData w)) in
  skills d' = skills (db w) /\
  other_tasks taskId d' = other_tasks taskId (db w) /\
  other_ratings taskId d' = other_ratings taskId (db w) /\
  map Task.id (tasks d') = map Task.id (tasks (db w)) /\
  map Task.user_id (tasks d') = map Task.user_id (tasks (db w)).
Proof.
  assert (H : keeps (update_frame taskId) (updateTask taskId formData)).
  { unfold updateTask, getCurrentUser, getAllSkills, Supabase.auth_getUser,
      Supabase.select_task_owner, Supabase.select_active_skills.
    frame_steps (update_frame_refl taskId) (@update_frame_trans taskId).
    - apply update_task_frame; reflexivity.
    - apply keeps_delete_skill_ratings_update.
    - apply keeps_insert_skill_ratings_update. }
  intros d'. destruct (H w) as ((H1 & H2 & H3) & H4 & H5). auto.
Qed.

(** X14: whatever it answers and whichever requests fail, [deleteTask]
    leaves the skills, the rows of the other tasks and the ratings of the
    other tasks as they were, and adds nothing. *)
Theorem deleteTask_touches_one_task_only (taskId : uuid) (w : World) :
  let d' := db (snd (deleteTask taskId w)) in
  skills d' = skills (db w) /\
  other_tasks taskId d' = other_tasks taskId (db w) /\
  other_ratings taskId d' = other_ratings taskId (db w) /\
  incl (tasks d') (tasks (db w)) /\
  incl (skill_ratings d') (skill_ratings (db w)).
Proof.
  assert (H : keeps (delete_frame taskId) (deleteTask taskId)).
  { unfold deleteTask, getCurrentUser, Supabase.auth_getUser,
      Supabase.select_task_owner.
    frame_steps (delete_frame_refl taskId) (@delete_frame_trans taskId).
    apply keeps_delete_task. }
  intros d'. destruct (H w) as ((H1 & H2 & H3) & H4 & H5). auto.
Qed.

Lemma key_filter (d : Db) (t : Task.t) :
  tasks_key d -> In t (tasks d) ->
  forall t', In t' (tasks d) -> Task.id t' = Task.id t -> t' = t.
Proof.
  unfold tasks_key. induction (tasks d) as [|x l IH]; simpl; [contradiction|].
  intros Hnd Hin t' Hin' Hid. inversion Hnd as [|? ? Hnotin Hnd']; subst.
  destruct Hin as [->|Hin], Hin' as [->|Hin']; auto.
  - exfalso. apply Hnotin. rewrite <- Hid. apply in_map. exact Hin'.
  - exfalso. apply Hnotin. rewrite Hid. apply in_map. exact Hin.
Qed.

Lemma filter_unique (A : Type) (p : A -> bool) (l : list A) (x : A) :
  NoDup l -> In x l -> p x = true -> (forall y, In y l -> p y = true -> y = x) ->
  filter p l = [x].
Proof.
  induction l as [|a l IH]; simpl; [contradiction|].
  intros Hnd Hin Hp Hu. inversion Hnd as [|? ? Hnotin Hnd']; subst.
  destruct Hin as [->|Hin].
  - rewrite Hp. f_equal. apply filter_none. intros y Hy.
    destruct (p y) eqn:E; [|reflexivity].
    assert (y = x) by (apply Hu; auto). subst. contradiction.
  - destruct (p a) eqn:E.
    + assert (a = x) by (apply Hu; auto). subst. contradiction.
    + apply IH; auto.
Qed.

Lemma NoDup_of_map (A B : Type) (f : A -> B) (l : list A) :
  NoDup (map f l) -> NoDup l.
Proof.
  induction l as [|a l IH]; simpl; intros H; [constructor|].
  inversion H; subst. constructor; [|auto].
  intros Hin. apply (in_map f) in Hin. contradiction.
Qed.

Lemma owner_policy (w : World) (user : uuid) (t : Task.t) :
  session w = Some user -> Task.user_id t = user -> Supabase.policy_task w t = true.
Proof.
  intros Hs Hu. unfold Supabase.policy_task, Supabase.owns. rewrite Hs, Hu.
  rewrite String.eqb_refl. destruct (rls w); reflexivity.
Qed.

Lemma tasks_by_id_owned (w : World) (user : uuid) (t : Task.t) :
  session w = Some user -> tasks_key (db w) -> In t (tasks (db w)) ->
  Task.user_id t = user ->
  Supabase.tasks_by_id w (Task.id t) = [t].
Proof.
  intros Hs Hk Hin Hu. unfold Supabase.tasks_by_id.
  apply filter_unique.
  - apply (NoDup_of_map Task.id). exact Hk.
  - exact Hin.
  - rewrite String.eqb_refl, (@owner_policy w user t Hs Hu). reflexivity.
  - intros t' Hin' Hp. apply andb_true_iff in Hp as [Hid _].
    apply String.eqb_eq in Hid. exact (@key_filter (db w) t Hk Hin t' Hin' Hid).
Qed.

Lemma delete_owned_tasks (w : World) (user : uuid) (t : Task.t) :
  session w = Some user -> tasks_key (db w) -> In t (tasks (db w)) ->
  Task.user_id t = user ->
  filter (fun t' => negb ((Task.id t' =? Task.id t)%string
                          && Supabase.policy_task w t'))
         (tasks (db w))
  = other_tasks (Task.id t) (db w).
Proof.
  intros Hs Hk Hin Hu. unfold other_tasks. apply filter_ext_in.
  intros t' Hin'. destruct (String.eqb_spec (Task.id t') (Task.id t)) as [E|E];
    [|reflexivity].
  rewrite (@key_filter (db w) t Hk Hin t' Hin' E), (@owner_policy w user t Hs Hu).
  reflexivity.
Qed.

Lemma delete_owned_ratings (w : World) (user : uuid) (t : Task.t) :
  session w = Some user -> tasks_key (db w) -> In t (tasks (db w)) ->
  Task.user_id t = user ->
  filter (fun r =>
            negb (existsb
                    (fun t' => (Task.id t' =? Task.id t)%string
                               && Supabase.policy_task w t'
                               && (Task.id t' =? SkillRating.task_id r)%string)
                    (tasks (db w))))
         (skill_ratings (db w))
  = other_ratings (Task.id t) (db w).
Proof.
  intros Hs Hk Hin Hu. unfold other_ratings. apply filter_ext. intros r.
  f_equal. destruct (String.eqb_spec (SkillRating.task_id r) (Task.id t)) as [E|E].
  - apply existsb_exists. exists t. split; [exact Hin|].
    rewrite String.eqb_refl, (@owner_policy w user t Hs Hu), E, String.eqb_refl.
    reflexivity.
  - apply not_true_iff_false. intros Hex.
    apply existsb_exists in Hex as (t' & _ & Hb).
    apply andb_true_iff in Hb as [Hb He]. apply andb_true_iff in Hb as [Hid _].
    apply String.eqb_eq in Hid, He. congruence.
Qed.

Lemma tasks_by_id_gone (w : World) (tid : uuid) :
  (forall t, In t (tasks (db w)) -> Task.id t <> tid) ->
  Supabase.tasks_by_id w tid = [].
Proof.
  intros H. unfold Supabase.tasks_by_id. apply filter_none. intros t Ht.
  destruct (String.eqb_spec (Task.id t) tid) as [E|E]; [|reflexivity].
  exfalso. exact (H t Ht E).
Qed.

Lemma other_tasks_without (tid : uuid) (d : Db) (t : Task.t) :
  In t (other_tasks tid d) -> Task.id t <> tid.
Proof.
  unfold other_tasks. rewrite filter_In. intros [_ H] E.
  rewrite E, String.eqb_refl in H. discriminate.
Qed.

(** X15: when no request fails, [deleteTask] on a task of the caller
    succeeds and removes the task together with its ratings and nothing
    else; after that [getTaskById] answers null for its id and a second
    [deleteTask] answers 'Task not found'. *)
Theorem deleteTask_removes_the_task_and_its_ratings
  (w : World) (user : uuid) (t : Task.t) :
  faults w = [] -> session w = Some user -> tasks_key (db w) ->
  In t (tasks (db w)) -> Task.user_id t = user ->
  exists w',
    deleteTask (Task.id t) w = (Returned (success tt), w') /\
    skills (db w') = skills (db w) /\
    tasks (db w') = other_tasks (Task.id t) (db w) /\
    skill_ratings (db w') = other_ratings (Task.id t) (db w) /\
    fst (getTaskById (Task.id t) w') = Returned None /\
    fst (deleteTask (Task.id t) w') = Returned (error "Task not found").
Proof.
  intros Hf Hs Hk Hin Hu.
  pose proof (@tasks_by_id_owned w user t Hs Hk Hin Hu) as Hone.
  pose proof (@delete_owned_tasks w user t Hs Hk Hin Hu) as Ht.
  pose proof (@delete_owned_ratings w user t Hs Hk Hin Hu) as Hr.
  set (w' := with_db (mkDb (skills (db w)) (other_tasks (Task.id t) (db w))
                           (other_ratings (Task.id t) (db w))) w).
  assert (Hgone : Supabase.tasks_by_id w' (Task.id t) = []).
  { apply tasks_by_id_gone. intros t' Ht'. apply (@other_tasks_without _ (db w) _ Ht'). }
  assert (Hf' : faults w' = []) by exact Hf.
  assert (Hs' : session w' = Some user) by exact Hs.
  exists w'. split; [|repeat split].
  - unfold_actions. run. rewrite Hone. cbn [map Supabase.single].
    rewrite Hu, String.eqb_refl. cbn [negb]. run.
    unfold w'. rewrite <- Ht, <- Hr. reflexivity.
  - unfold_actions. run. rewrite Hgone. reflexivity.
  - unfold_actions. run. rewrite Hgone. reflexivity.
Qed.

(** X15 at work: Alice deletes her task of January and keeps the one of
    June with its ratings. *)
Lemma deleteTask_removes_the_task_and_its_ratings_witness :
  let w := Scenario.world Scenario.two_periods (Some "alice") [] in
  exists w',
    deleteTask "t0" w = (Returned (success tt), w') /\
    map Task.id (tasks (db w')) = ["t9"] /\
    skill_ratings (db w')
    = [SkillRating.mk "t9" "s1" 1; SkillRating.mk "t9" "s2" 1] /\
    fst (getTaskById "t0" w') = Returned None.
Proof.
  destruct (@deleteTask_removes_the_task_and_its_ratings
              (Scenario.world Scenario.two_periods (Some "alice") []) "alice"
              (Scenario.task "t0" "alice" (mkDate 2024 1 10)))
    as (w' & E & _ & Ht & Hr & Hg & _).
  - reflexivity.
  - reflexivity.
  - unfold tasks_key. simpl.
    repeat constructor; simpl; intuition discriminate.
  - left. reflexivity.
  - reflexivity.
  - exists w'. split; [exact E|]. rewrite Ht, Hr.
    split; [reflexivity|]. split; [reflexivity | exact Hg].
Defined.

Lemma stored_rows_ok (w1 : World) (tid : uuid) (m : Js.Map uuid Z) :
  forallb (Supabase.rating_row_ok w1) (ratingsToInsert tid m) = true ->
  Forall (fun e => 1 <= snd e <= 5 /\ In (fst e) (map Skill.id (skills (db w1)))) m.
Proof.
  unfold ratingsToInsert. rewrite forallb_forall, Forall_forall.
  intros H [k v] Hin.
  specialize (H (SkillRating.mk tid k v)).
  assert (Hr : In (SkillRating.mk tid k v)
                  (map (fun '(skill_id, rating) => SkillRating.mk tid skill_id rating) m)).
  { apply in_map_iff. exists (k, v). auto. }
  specialize (H Hr). unfold Supabase.rating_row_ok in H. simpl in H.
  repeat (apply andb_true_iff in H as [H ?]).
  simpl. split; [lia|].
  match goal with
  | E : existsb (fun s => (Skill.id s =? k)%string) _ = true |- _ =>
      apply existsb_exists in E as (s0 & Hs0 & E0); apply String.eqb_eq in E0;
      rewrite <- E0; apply in_map; exact Hs0
  end.
Qed.

Lemma distinct_keys_NoDup (tid : uuid) (m : Js.Map uuid Z) :
  Supabase.distinct_keys (ratingsToInsert tid m) = true -> NoDup (map fst m).
Proof.
  induction m as [|[k v] m IH]; simpl; intros H; [constructor|].
  apply andb_true_iff in H as [Hn Hd]. constructor; [|apply IH; exact Hd].
  intros Hin. apply negb_true_iff in Hn.
  apply in_map_iff in Hin as ([k' v'] & Hk & Hin). simpl in Hk. subst k'.
  assert (Hex : existsb (Supabase.same_key (SkillRating.mk tid k v))
                        (ratingsToInsert tid m) = true).
  { apply existsb_exists. exists (SkillRating.mk tid k v').
    split; [apply in_map_iff; exists (k, v'); auto|].
    unfold Supabase.same_key. simpl. rewrite !String.eqb_refl. reflexivity. }
  congruence.
Qed.

Lemma existsb_id_false (l : list Task.t) (tid : uuid) :
  existsb (fun t' => (Task.id t' =? tid)%string) l = false ->
  ~ In tid (map Task.id l).
Proof.
  intros H Hin. apply in_map_iff in Hin as (t & <- & Hin).
  pose proof (existsb_false _ _ _ H Hin) as E. simpl in E.
  rewrite String.eqb_refl in E. discriminate.
Qed.

(** What a success of [submitTask] guarantees, whichever requests
    failed on the way. *)
Lemma submitTask_success (w w' : World) (formData : TaskSubmissionFormData.t)
  (t : Task.t) :
  submitTask formData w = (Returned (success t), w') ->
  session w = Some (Task.user_id t) /\
  t = new_task (Task.id t) (Task.user_id t) formData /\
  length (TaskSubmissionFormData.skill_ratings formData)
  = length (Supabase.active_skills w) /\
  ~ In (Task.id t) (map Task.id (tasks (db w))) /\
  Forall (fun e => 1 <= snd e <= 5 /\ In (fst e) (map Skill.id (skills (db w))))
         (TaskSubmissionFormData.skill_ratings formData) /\
  NoDup (map fst (TaskSubmissionFormData.skill_ratings formData)) /\
  db w' = mkDb (skills (db w)) (tasks (db w) ++ [t])
               (skill_ratings (db w)
                ++ ratingsToInsert (Task.id t)
                     (TaskSubmissionFormData.skill_ratings formData)) /\
  session w' = session w /\ rls w' = rls w.
Proof.
  unfold_actions.
  next_request; try (intros [=]; fail);
    (auth_step; try (intros [=]; fail)).
  all: next_request; try (intros [=]; fail).
  all: match goal with
       | |- context [negb (Z.of_nat ?a =? Z.of_nat ?b)] =>
           destruct (Z.eqb_spec (Z.of_nat a) (Z.of_nat b)) as [El|El];
           cbn [negb]; try (intros [=]; fail)
       end.
  all: apply Nat2Z.inj in El.
  all: change (Supabase.active_skills _) with (Supabase.active_skills w) in El.
  all: next_request; try (intros [=]; fail).
  all: match goal with
       | |- context [Supabase.policy_task ?w0 ?t0 && negb (existsb ?p ?l)] =>
           destruct (Supabase.policy_task w0 t0) eqn:Ep;
           [destruct (existsb p l) eqn:Ex|];
           cbn [andb negb]; try (intros [=]; fail)
       end.
  all: next_request.
  all: try (next_request; intros [=]; fail).
  all: match goal with
       | |- context [forallb ?p ?l && Supabase.distinct_keys ?l2] =>
           destruct (forallb p l) eqn:Eok;
           [destruct (Supabase.distinct_keys l2) eqn:Ed|];
           cbn [andb]
       end.
  all: try (next_request; intros [=]; fail).
  all: intros H; injection H as <- <-.
  all: cbn [Task.id Task.user_id db with_db with_uuid_drawn with_faults
            skills tasks skill_ratings] in *.
  all: apply stored_rows_ok in Eok; apply distinct_keys_NoDup in Ed;
       apply existsb_id_false in Ex.
  all: repeat (split; [first [assumption | reflexivity]|]).
  all: first [assumption | reflexivity | symmetry; assumption].
Qed.

(** X16: when [submitTask] answers with success, whichever requests
    failed on the way, the task it answers is stored as the last row of
    [tasks] with a new id, it belongs to the signed-in caller and carries
    the fields of the form, the map has the size of the list of active
    skills, and the database holds one new rating row for each entry of
    the map, each for a stored skill that occurs once, rated from 1 to
    5; nothing else has changed. *)
Theorem success_of_submitTask_means_stored
  (w w' : World) (formData : TaskSubmissionFormData.t) (t : Task.t) :
  submitTask formData w = (Returned (success t), w') ->
  session w = Some (Task.user_id t) /\
  t = new_task (Task.id t) (Task.user_id t) formData /\
  length (TaskSubmissionFormData.skill_ratings formData)
  = length (Supabase.active_skills w) /\
  ~ In (Task.id t) (map Task.id (tasks (db w))) /\
  acceptable (db w) (TaskSubmissionFormData.skill_ratings formData) /\
  db w' = with_task (db w) t (TaskSubmissionFormData.skill_ratings formData).
Proof.
  intros H. destruct (submitTask_success _ _ H)
    as (H1 & H2 & H3 & H4 & H5 & H6 & H7 & _).
  unfold acceptable, with_task. auto 10.
Qed.

(** X16 at work: Alice's first task, rated 5 and 3. *)
Lemma success_of_submitTask_means_stored_witness :
  let formData := Scenario.form (mkDate 2024 1 10) [("s1", 5); ("s2", 3)] in
  exists t w',
    submitTask formData Scenario.fresh = (Returned (success t), w') /\
    session Scenario.fresh = Some (Task.user_id t) /\
    db w' = with_task (db Scenario.fresh) t [("s1", 5); ("s2", 3)].
Proof.
  eexists. eexists. split; [reflexivity|].
  destruct (@success_of_submitTask_means_stored Scenario.fresh _
              (Scenario.form (mkDate 2024 1 10) [("s1", 5); ("s2", 3)]) _ eq_refl)
    as (H1 & _ & _ & _ & _ & H6).
  split; [exact H1 | exact H6].
Defined.



Lemma find_task_new (l : list Task.t) (t : Task.t) :
  ~ In (Task.id t) (map Task.id l) ->
  find (fun t' => (Task.id t' =? Task.id t)%string) (l ++ [t]) = Some t.
Proof.
  intros H. induction l as [|x l IH]; simpl.
  - rewrite String.eqb_refl. reflexivity.
  - destruct (String.eqb_spec (Task.id x) (Task.id t)) as [E|E].
    + exfalso. apply H. left. exact E.
    + apply IH. intros Hin. apply H. right. exact Hin.
Qed.

Lemma no_rating_of_new (d : Db) (tid : uuid) (r : SkillRating.t) :
  referential d -> ~ In tid (map Task.id (tasks d)) ->
  In r (skill_ratings d) -> (SkillRating.task_id r =? tid)%string = false.
Proof.
  intros Href Hfresh Hin. apply String.eqb_neq. intros E.
  destruct (Href r Hin) as (t & Ht & Hid). apply Hfresh.
  rewrite <- E, <- Hid. apply in_map. exact Ht.
Qed.


Lemma policy_rating_new (d : Db) (user : uuid) (t : Task.t) (w1 : World)
  (r : SkillRating.t) :
  holds_new d user t w1 ->
  SkillRating.task_id r = Task.id t -> Supabase.policy_rating w1 r = true.
Proof.
  intros (Hu & Hs & Hfresh & _ & Ht) E.
  unfold Supabase.policy_rating, Supabase.find_task.
  rewrite E, Ht, (@find_task_new _ _ Hfresh).
  unfold Supabase.owns. rewrite Hs, Hu, String.eqb_refl.
  destruct (rls w1); reflexivity.
Qed.


Lemma new_task_alone (d : Db) (user : uuid) (t : Task.t) (w1 : World) :
  holds_new d user t w1 -> Supabase.tasks_by_id w1 (Task.id t) = [t].
Proof.
  intros (Hu & Hs & Hfresh & _ & Ht).
  unfold Supabase.tasks_by_id. rewrite Ht, filter_app. simpl.
  rewrite String.eqb_refl, (@owner_policy w1 user t Hs Hu). simpl.
  rewrite filter_none; [reflexivity|].
  intros t' Hin. destruct (String.eqb_spec (Task.id t') (Task.id t)) as [E|E];
    [|reflexivity].
  exfalso. apply Hfresh. rewrite <- E. apply in_map. exact Hin.
Qed.

Lemma new_task_details (d : Db) (user : uuid) (t : Task.t) (w1 : World)
  (ratings : Js.Map uuid Z) :
  holds_new d user t w1 -> referential d ->
  skill_ratings (db w1) = skill_ratings d ++ ratingsToInsert (Task.id t) ratings ->
  map RatingWithSkill.row (TaskWithDetails.skill_ratings (Supabase.with_details w1 t))
  = ratingsToInsert (Task.id t) ratings.
Proof.
  intros Hnew Href Hg. pose proof Hnew as (Hu & Hs & Hfresh & _ & Ht).
  unfold Supabase.with_details. cbn [TaskWithDetails.skill_ratings].
  rewrite map_map. cbn [RatingWithSkill.row]. rewrite map_id.
  rewrite Hg, filter_app.
  rewrite filter_none.
  - simpl. apply filter_all. intros r Hr.
    pose proof (ratingsToInsert_task _ _ _ Hr) as E.
    rewrite E, String.eqb_refl, (@policy_rating_new d user t w1 r Hnew E).
    reflexivity.
  - intros r Hr. rewrite (@no_rating_of_new _ _ _ Href Hfresh Hr). reflexivity.
Qed.

Lemma task_average_mean (rows : list RatingWithSkill.t) :
  task_average rows
  = match rows with
    | [] => 0%Q
    | _ => mean (map (fun r => SkillRating.rating (RatingWithSkill.row r)) rows)
    end.
Proof.
  unfold task_average, mean, Js.sum. rewrite length_map.
  assert (E : forall a,
             fold_left (fun sum r => sum + SkillRating.rating (RatingWithSkill.row r))
                       rows a
             = fold_left Z.add
                 (map (fun r => SkillRating.rating (RatingWithSkill.row r)) rows) a).
  { induction rows as [|x l IH]; intros a; simpl; [reflexivity | apply IH]. }
  rewrite E. destruct rows; reflexivity.
Qed.

Lemma ratingsToInsert_ratings (tid : uuid) (m : Js.Map uuid Z) :
  map SkillRating.rating (ratingsToInsert tid m) = map snd m.
Proof.
  unfold ratingsToInsert. rewrite map_map. apply map_ext. intros [k v]. reflexivity.
Qed.




(** X18: a task that [submitTask] answered with success is read back by
    [getTaskById], when the database kept its foreign key and no later
    request fails: the task is the one that was answered, its ratings are
    the entries of the submitted map in their order, and its average
    rating is their mean (0 for an empty map). *)
Theorem submitted_task_is_read_back
  (w w' : World) (formData : TaskSubmissionFormData.t) (t : Task.t) :
  submitTask formData w = (Returned (success t), w') ->
  referential (db w) -> faults w' = [] ->
  let ratings := TaskSubmissionFormData.skill_ratings formData in
  exists d,
    getTaskById (Task.id t) w' = (Returned (Some d), w') /\
    TaskWithDetails.task d = t /\
    map RatingWithSkill.row (TaskWithDetails.skill_ratings d)
    = ratingsToInsert (Task.id t) ratings /\
    TaskWithDetails.average_rating d
    = Some (match ratings with
            | [] => 0%Q
            | _ => mean (map snd ratings)
            end).
Proof.
  intros Hsub Href Hf' ratings.
  destruct (submitTask_success _ _ Hsub)
    as (Hs & Ht & Hlen & Hfresh & Hall & Hnd & Hdb & Hs' & Hr').
  assert (Hsess : session w' = Some (Task.user_id t)) by congruence.
  assert (Hnew : holds_new (db w) (Task.user_id t) t w').
  { repeat split; try assumption; rewrite Hdb; reflexivity. }
  assert (Hg : skill_ratings (db w')
               = skill_ratings (db w) ++ ratingsToInsert (Task.id t) ratings)
    by (rewrite Hdb; reflexivity).
  pose proof (@new_task_alone _ _ _ _ Hnew) as Hone.
  pose proof (@new_task_details _ _ _ _ ratings Hnew Href Hg) as Hrows.
  exists (with_average (Supabase.with_details w' t)).
  split; [|split; [reflexivity | split; [exact Hrows|]]].
  - unfold_actions. run. rewrite Hone. cbn [map Supabase.single].
    cbn [TaskWithDetails.task Supabase.with_details].
    rewrite String.eqb_refl. reflexivity.
  - cbn [with_average TaskWithDetails.average_rating]. f_equal.
    rewrite task_average_mean.
    rewrite <- (map_map RatingWithSkill.row SkillRating.rating), Hrows.
    rewrite ratingsToInsert_ratings.
    assert (El : length (TaskWithDetails.skill_ratings (Supabase.with_details w' t))
                 = length ratings).
    { rewrite <- (length_map RatingWithSkill.row), Hrows.
      unfold ratingsToInsert. apply length_map. }
    destruct (TaskWithDetails.skill_ratings (Supabase.with_details w' t)),
      ratings; try discriminate; reflexivity.
Qed.

(** X18 at work: Alice's first task, rated 5 and 3, has the average 4. *)
Lemma submitted_task_is_read_back_witness :
  let formData := Scenario.form (mkDate 2024 1 10) [("s1", 5); ("s2", 3)] in
  exists t w' d,
    submitTask formData Scenario.fresh = (Returned (success t), w') /\
    getTaskById (Task.id t) w' = (Returned (Some d), w') /\
    TaskWithDetails.task d = t /\
    TaskWithDetails.average_rating d = Some (mean [5; 3]) /\
    Qeq (mean [5; 3]) 4%Q.
Proof.
  eexists. eexists.
  destruct (@submitted_task_is_read_back Scenario.fresh _
              (Scenario.form (mkDate 2024 1 10) [("s1", 5); ("s2", 3)]) _ eq_refl)
    as (d & E & Ht & _ & Ha).
  - intros r [].
  - reflexivity.
  - exists d. split; [reflexivity|]. split; [exact E|]. split; [exact Ht|].
    split; [exact Ha | reflexivity].
Defined.

Lemma active_skills_filter (w : World) :
  filter (fun s => Supabase.policy_skill w s && Skill.is_active s) (skills (db w))
  = filter Skill.is_active (skills (db w)).
Proof.
  apply filter_ext. intros s. unfold Supabase.policy_skill.
  destruct (rls w), (Skill.is_active s); reflexivity.
Qed.

Lemma ltb_asym (a b : string) : (b <? a)%string = true -> (a <? b)%string = false.
Proof.
  unfold String.ltb. rewrite (String.compare_antisym a b).
  destruct (String.compare b a); simpl; congruence.
Qed.

Lemma not_ltb_leb (a b : string) : (b <? a)%string = false -> (a <=? b)%string = true.
Proof.
  unfold String.ltb, String.leb. rewrite (String.compare_antisym b a).
  destruct (String.compare a b); simpl; congruence.
Qed.

Lemma active_skills_spec (w : World) :
  Permutation (Supabase.active_skills w) (filter Skill.is_active (skills (db w))) /\
  Sorted name_le (Supabase.active_skills w).
Proof.
  unfold Supabase.active_skills. rewrite active_skills_filter. split.
  - apply stable_sort_perm.
  - eapply Sorted_impl; [|apply stable_sort_sorted].
    + intros x y H. apply not_ltb_leb. exact H.
    + intros x y H. apply ltb_asym. exact H.
Qed.

(** X19: [getAllSkills] answers the active skills of the database, each
    as often as it is stored, sorted by name ascending, and no inactive
    skill; it throws 'Failed to fetch skills' only when its request
    fails. *)
Theorem getAllSkills_lists_the_active_skills_by_name (w : World) :
  match fst (getAllSkills w) with
  | Returned data =>
      Permutation data (filter Skill.is_active (skills (db w))) /\
      Sorted name_le data /\
      (forall s, In s data <-> In s (skills (db w)) /\ Skill.is_active s = true)
  | Thrown e =>
      e = Error "Failed to fetch skills" /\ exists fs, faults w = true :: fs
  end.
Proof.
  destruct (active_skills_spec w) as [Hp Hs].
  assert (Hin : forall s, In s (Supabase.active_skills w)
                          <-> In s (skills (db w)) /\ Skill.is_active s = true).
  { intros s. rewrite <- filter_In. split; apply Permutation_in;
      [exact Hp | apply Permutation_sym; exact Hp]. }
  unfold_actions. next_request; simpl; eauto.
Qed.

Lemma getUserTasks_cases (w : World) (userId : option uuid) (limit offset : Z) :
  exists data w',
    getUserTasks userId limit offset w = (Returned data, w') /\
    (data = [] \/
     exists user,
       session w = Some user /\
       data = map with_average (Supabase.user_tasks w user limit offset)).
Proof.
  unfold_actions.
  next_request; try (eexists; eexists; split; [reflexivity | left; reflexivity]);
    (auth_step; try (eexists; eexists; split; [reflexivity | left; reflexivity])).
  all: match goal with
       | |- context [negb (?a =? ?b)%string] =>
           destruct (String.eqb_spec a b) as [E|E]; cbn [negb];
           try (eexists; eexists; split; [reflexivity | left; reflexivity])
       end.
  all: rewrite E.
  all: next_request;
    try (eexists; eexists; split; [reflexivity | left; reflexivity]).
  all: eexists; eexists; split; [reflexivity|]; right; exists user;
    split; reflexivity.
Qed.

Lemma StronglySorted_firstn (A : Type) (R : A -> A -> Prop) (l : list A) (n : nat) :
  StronglySorted R l -> StronglySorted R (firstn n l).
Proof.
  intros H. revert n. induction H as [|x l Hs IH Hall]; intros [|n]; simpl;
    try constructor; auto.
  rewrite Forall_forall in *. intros y Hy. apply Hall.
  eapply (In_nth_error) in Hy. destruct Hy as [i Hi].
  clear - Hi. revert l i Hi. induction n as [|n IH]; intros [|a l] [|i]; simpl;
    try discriminate; intros H.
  - injection H as <-. left. reflexivity.
  - right. eapply IH. exact H.
Qed.

Lemma StronglySorted_skipn (A : Type) (R : A -> A -> Prop) (l : list A) (n : nat) :
  StronglySorted R l -> StronglySorted R (skipn n l).
Proof.
  intros H. revert n. induction H as [|x l Hs IH Hall]; intros [|n]; simpl;
    try constructor; auto.
Qed.

Lemma StronglySorted_map (A B : Type) (R : B -> B -> Prop) (f : A -> B) (l : list A) :
  StronglySorted (fun a b => R (f a) (f b)) l -> StronglySorted R (map f l).
Proof.
  intros H. induction H as [|x l Hs IH Hall]; simpl; constructor; [exact IH|].
  rewrite Forall_forall in *. intros y Hy. apply in_map_iff in Hy as (a & <- & Ha).
  apply Hall. exact Ha.
Qed.

Lemma user_tasks_sorted (w : World) (user : uuid) (limit offset : Z) :
  StronglySorted newer_first (map with_average (Supabase.user_tasks w user limit offset)).
Proof.
  unfold Supabase.user_tasks.
  apply StronglySorted_map. apply StronglySorted_firstn, StronglySorted_skipn.
  apply StronglySorted_map. apply Sorted_Strongly.
  - intros x y z. unfold newer_first. cbn. intros H1 H2.
    eapply date_leb_trans; eassumption.
  - eapply Sorted_impl; [|apply stable_sort_sorted].
    + intros x y H. unfold may_precede in H. apply negb_false_iff in H.
      unfold newer_first. cbn. exact H.
    + intros x y H. apply negb_true_iff in H. apply negb_false_iff.
      apply date_leb_total. exact H.
Qed.

Lemma In_firstn_skipn (A : Type) (l : list A) (n k : nat) (x : A) :
  In x (firstn n (skipn k l)) -> In x l.
Proof.
  intros H. apply (In_nth_error) in H. destruct H as [i Hi].
  rewrite nth_error_firstn in Hi. destruct (i <? n)%nat; [|discriminate].
  rewrite nth_error_skipn in Hi. eapply nth_error_In. exact Hi.
Qed.

Lemma user_tasks_In (w : World) (user : uuid) (limit offset : Z)
  (d : TaskWithDetails.t) :
  In d (Supabase.user_tasks w user limit offset) ->
  In (TaskWithDetails.task d) (tasks (db w)) /\
  Task.user_id (TaskWithDetails.task d) = user /\
  map RatingWithSkill.row (TaskWithDetails.skill_ratings d)
  = filter (fun r => (SkillRating.task_id r =? Task.id (TaskWithDetails.task d))%string
                     && Supabase.policy_rating w r)
           (skill_ratings (db w)).
Proof.
  unfold Supabase.user_tasks. intros H. apply In_firstn_skipn in H.
  apply in_map_iff in H as (t & <- & Ht).
  eapply Permutation_in in Ht; [|apply stable_sort_perm].
  apply filter_In in Ht as [Hin Hb]. apply andb_true_iff in Hb as [Hu _].
  apply String.eqb_eq in Hu.
  split; [exact Hin|]. split; [exact Hu|].
  unfold Supabase.with_details. cbn [TaskWithDetails.skill_ratings TaskWithDetails.task].
  rewrite map_map. cbn [RatingWithSkill.row]. apply map_id.
Qed.

(** X20: [getUserTasks] always returns; its answer has at most [limit]
    entries, is sorted from the newest task date on, and every entry is a
    stored task of the signed-in caller with the ratings of that task the
    caller may see and with their mean as average rating. *)
Theorem getUserTasks_lists_own_tasks_newest_first
  (w : World) (userId : option uuid) (limit offset : Z) :
  exists data w',
    getUserTasks userId limit offset w = (Returned data, w') /\
    (length data <= Z.to_nat limit)%nat /\
    StronglySorted newer_first data /\
    forall d, In d data ->
      In (TaskWithDetails.task d) (tasks (db w)) /\
      session w = Some (Task.user_id (TaskWithDetails.task d)) /\
      map RatingWithSkill.row (TaskWithDetails.skill_ratings d)
      = filter (fun r => (SkillRating.task_id r
                          =? Task.id (TaskWithDetails.task d))%string
                         && Supabase.policy_rating w r)
               (skill_ratings (db w)) /\
      TaskWithDetails.average_rating d
      = Some (task_average (TaskWithDetails.skill_ratings d)).
Proof.
  destruct (getUserTasks_cases w userId limit offset)
    as (data & w' & E & [-> | (user & Hs & ->)]).
  - exists [], w'. split; [exact E|]. split; [simpl; lia|].
    split; [constructor | intros d []].
  - eexists. exists w'. split; [exact E|]. split; [|split].
    + rewrite length_map. unfold Supabase.user_tasks. rewrite length_firstn. lia.
    + apply user_tasks_sorted.
    + intros d Hd. apply in_map_iff in Hd as (d0 & <- & Hd0).
      destruct (user_tasks_In _ _ _ _ _ Hd0) as (H1 & H2 & H3).
      cbn [with_average TaskWithDetails.task TaskWithDetails.skill_ratings
           TaskWithDetails.average_rating].
      repeat split; try assumption. rewrite H2. exact Hs.
Qed.

(** X21: when nobody is signed in, or the authentication request fails,
    the three write actions answer the error 'Not authenticated' and
    leave the database as it was, [getUserTasks] answers the empty list
    and [getTaskById] null. *)
Theorem nothing_is_done_without_a_session
  (w : World) (formData : TaskSubmissionFormData.t) (taskId : uuid)
  (userId : option uuid) (limit offset : Z) :
  auth_fails w ->
  (fst (submitTask formData w) = Returned (error "Not authenticated") /\
   db (snd (submitTask formData w)) = db w) /\
  (fst (updateTask taskId formData w) = Returned (error "Not authenticated") /\
   db (snd (updateTask taskId formData w)) = db w) /\
  (fst (deleteTask taskId w) = Returned (error "Not authenticated") /\
   db (snd (deleteTask taskId w)) = db w) /\
  fst (getUserTasks userId limit offset w) = Returned [] /\
  fst (getTaskById taskId w) = Returned None.
Proof.
  intros [Hs | [fs Hf]]; unfold_actions.
  - repeat split; next_request; try rewrite Hs; reflexivity.
  - unfold next_fault. rewrite Hf. repeat split.
Qed.

(** X21 at work: Alice's task with nobody signed in. *)
Lemma nothing_is_done_without_a_session_witness :
  let w := Scenario.world Scenario.one_task None [] in
  let formData := Scenario.form (mkDate 2024 1 10) [("s1", 5); ("s2", 3)] in
  fst (submitTask formData w) = Returned (error "Not authenticated") /\
  fst (deleteTask "t0" w) = Returned (error "Not authenticated") /\
  db (snd (deleteTask "t0" w)) = Scenario.one_task /\
  fst (getUserTasks (Some "alice") 50 0 w) = Returned [].
Proof.
  destruct (@nothing_is_done_without_a_session
              (Scenario.world Scenario.one_task None [])
              (Scenario.form (mkDate 2024 1 10) [("s1", 5); ("s2", 3)])
              "t0" (Some "alice") 50 0)
    as ((H1 & _) & _ & (H3 & H4) & H5 & _).
  - left. reflexivity.
  - split; [exact H1|]. split; [exact H3|]. split; [exact H4 | exact H5].
Defined.


Lemma keys_set_NoDup (m : Js.Map uuid Z) (k : uuid) (v : Z) :
  NoDup (keys m) -> NoDup (keys (Js.set String.eqb m k v)).
Proof.
  intros H. rewrite (keys_set String.eqb String.eqb_eq).
  destruct (Js.has String.eqb m k) eqn:E; [exact H|].
  apply NoDup_app; [exact H | constructor; [intros []|constructor] |].
  intros x Hx [<-|[]]. apply (has_keys String.eqb String.eqb_eq) in Hx. congruence.
Qed.

Lemma set_entries (m : Js.Map uuid Z) (k : uuid) (v : Z) (e : uuid * Z) :
  In e (Js.set String.eqb m k v) -> e = (k, v) \/ In e m.
Proof.
  induction m as [|[k0 v0] m IH]; simpl.
  - intros [<-|[]]. left. reflexivity.
  - destruct (k0 =? k)%string; simpl.
    + intros [<-|H]; auto.
    + intros [<-|H]; auto. destruct (IH H); auto.
Qed.

Lemma offered_spec (skills : list Skill.t) (c : TaskSubmissionForm.Click) :
  TaskSubmissionForm.offered skills c = true ->
  In (TaskSubmissionForm.skillId c) (map Skill.id skills) /\
  1 <= TaskSubmissionForm.rating c <= 5.
Proof.
  unfold TaskSubmissionForm.offered. intros H. apply andb_true_iff in H as [H1 H2]. split.
  - apply existsb_exists in H1 as (s & Hs & E). apply String.eqb_eq in E.
    rewrite <- E. apply in_map. exact Hs.
  - apply existsb_exists in H2 as (r & Hr & E). apply Z.eqb_eq in E. subst r.
    unfold RatingInput.ratings in Hr. simpl in Hr. lia.
Qed.

Lemma skillRatings_snoc (skills : list Skill.t)
  (clicks : list TaskSubmissionForm.Click) (c : TaskSubmissionForm.Click) :
  TaskSubmissionForm.skillRatings skills (clicks ++ [c])
  = if TaskSubmissionForm.offered skills c
    then TaskSubmissionForm.handleRatingChange
           (TaskSubmissionForm.skillRatings skills clicks)
           (TaskSubmissionForm.skillId c) (TaskSubmissionForm.rating c)
    else TaskSubmissionForm.skillRatings skills clicks.
Proof. unfold TaskSubmissionForm.skillRatings. rewrite fold_left_app. reflexivity. Qed.

Lemma skillRatings_acceptable (skills : list Skill.t)
  (clicks : list TaskSubmissionForm.Click) :
  NoDup (keys (TaskSubmissionForm.skillRatings skills clicks)) /\
  Forall (fun e => 1 <= snd e <= 5 /\ In (fst e) (map Skill.id skills))
         (TaskSubmissionForm.skillRatings skills clicks).
Proof.
  induction clicks as [|c clicks IH] using rev_ind.
  - split; constructor.
  - rewrite skillRatings_snoc.
    destruct (TaskSubmissionForm.offered skills c) eqn:Eo; [|exact IH].
    destruct IH as [Hnd Hall]. destruct (offered_spec _ _ Eo) as [Hk Hr].
    unfold TaskSubmissionForm.handleRatingChange. split; [apply keys_set_NoDup; exact Hnd|].
    rewrite Forall_forall in *. intros e He.
    apply set_entries in He as [-> | He]; [simpl; auto | auto].
Qed.

Lemma skillRatings_get (skills : list Skill.t)
  (clicks : list TaskSubmissionForm.Click) (k : uuid) :
  Js.get String.eqb (TaskSubmissionForm.skillRatings skills clicks) k
  = option_map TaskSubmissionForm.rating
      (find (fun c => TaskSubmissionForm.offered skills c
                      && (TaskSubmissionForm.skillId c =? k)%string)
            (rev clicks)).
Proof.
  induction clicks as [|c clicks IH] using rev_ind; [reflexivity|].
  rewrite skillRatings_snoc, rev_app_distr. simpl.
  destruct (TaskSubmissionForm.offered skills c) eqn:Eo; simpl; [|exact IH].
  unfold TaskSubmissionForm.handleRatingChange.
  destruct (String.eqb_spec (TaskSubmissionForm.skillId c) k) as [<-|Hne].
  - apply (get_set_same String.eqb String.eqb_eq).
  - rewrite (get_set_other String.eqb String.eqb_eq _ _ Hne). exact IH.
Qed.

(** X22: whatever the user clicks, the rating map of the submission
    form has no skill twice, holds only skills the form has loaded, with
    ratings from 1 to 5, and has at most as many entries as there are
    loaded skills; the rating of a skill is the one of its last click. *)
Theorem form_ratings_are_acceptable (skills : list Skill.t)
  (clicks : list TaskSubmissionForm.Click) :
  let m := TaskSubmissionForm.skillRatings skills clicks in
  NoDup (map fst m) /\
  Forall (fun e => 1 <= snd e <= 5 /\ In (fst e) (map Skill.id skills)) m /\
  (length m <= length skills)%nat /\
  forall k, Js.get String.eqb m k
            = option_map TaskSubmissionForm.rating
                (find (fun c => TaskSubmissionForm.offered skills c
                                && (TaskSubmissionForm.skillId c =? k)%string)
                      (rev clicks)).
Proof.
  intros m. destruct (skillRatings_acceptable skills clicks) as [Hnd Hall].
  fold m in Hnd, Hall. split; [exact Hnd|]. split; [exact Hall|]. split.
  - rewrite <- (length_map fst m), <- (length_map Skill.id skills).
    apply NoDup_incl_length; [exact Hnd|].
    intros k Hk. apply in_map_iff in Hk as (e & <- & He).
    rewrite Forall_forall in Hall. apply (Hall e He).
  - intros k. apply skillRatings_get.
Qed.

Lemma NoDup_map_perm (A B : Type) (f : A -> B) (l l' : list A) :
  Permutation l l' -> NoDup (map f l') -> NoDup (map f l).
Proof.
  intros Hp H. eapply Permutation_NoDup; [|exact H].
  apply Permutation_map, Permutation_sym. exact Hp.
Qed.

(* A key of the rows is a key of the rows that a query selects. *)
Lemma NoDup_map_filter (Row Key : Type) (key : Row -> Key)
    (selected : Row -> bool) (rows : list Row)
    (Hkey : NoDup (map key rows)) :
  NoDup (map key (filter selected rows)).
Proof.
  induction rows as [|row rows IH]; simpl in *; [constructor|].
  apply NoDup_cons_iff in Hkey as [Hfresh Hrest].
  destruct (selected row); simpl; [|exact (IH Hrest)].
  apply NoDup_cons; [|exact (IH Hrest)].
  rewrite in_map_iff. intros (other & Esame & Hother).
  apply Hfresh. rewrite <- Esame. apply in_map.
  apply filter_In in Hother. tauto.
Qed.

(** X23: when the form has loaded the active skills of the database
    and the skill ids are a key, a submission of the form that
    [submitTask] answers with success rates every active skill: the keys
    of the map are the active skills, each once, and every active skill
    has a stored rating from 1 to 5 for the new task. *)
Theorem form_submission_rates_every_active_skill
  (w w' : World) (formData : TaskSubmissionFormData.t)
  (clicks : list TaskSubmissionForm.Click)
  (t : Task.t) :
  NoDup (map Skill.id (skills (db w))) ->
  TaskSubmissionFormData.skill_ratings formData
  = TaskSubmissionForm.skillRatings (Supabase.active_skills w) clicks ->
  submitTask formData w = (Returned (success t), w') ->
  Permutation (map fst (TaskSubmissionFormData.skill_ratings formData))
              (map Skill.id (Supabase.active_skills w)) /\
  forall s, In s (skills (db w)) -> Skill.is_active s = true ->
    exists r, 1 <= r <= 5 /\
              In (SkillRating.mk (Task.id t) (Skill.id s) r) (skill_ratings (db w')).
Proof.
  intros Hkey Hform Hsub.
  destruct (submitTask_success _ _ Hsub)
    as (_ & _ & Hlen & _ & _ & _ & Hdb & _).
  destruct (skillRatings_acceptable (Supabase.active_skills w) clicks) as [Hnd Hall].
  rewrite <- Hform in Hnd, Hall.
  destruct (active_skills_spec w) as [Hp _].
  assert (Hids : NoDup (map Skill.id (Supabase.active_skills w))).
  { eapply NoDup_map_perm; [exact Hp|]. apply NoDup_map_filter. exact Hkey. }
  assert (Hperm : Permutation (map fst (TaskSubmissionFormData.skill_ratings formData))
                              (map Skill.id (Supabase.active_skills w))).
  { apply NoDup_Permutation_bis.
    - exact Hnd.
    - rewrite !length_map, Hlen. apply le_n.
    - intros k Hk. apply in_map_iff in Hk as (e & <- & He).
      rewrite Forall_forall in Hall. apply (Hall e He). }
  split; [exact Hperm|].
  intros s Hs Ha.
  assert (Hin : In (Skill.id s) (map fst (TaskSubmissionFormData.skill_ratings formData))).
  { eapply Permutation_in; [apply Permutation_sym; exact Hperm|].
    apply in_map. eapply Permutation_in; [apply Permutation_sym; exact Hp|].
    apply filter_In. auto. }
  apply in_map_iff in Hin as ([k r] & Hk & He). simpl in Hk. subst k.
  exists r. split.
  - rewrite Forall_forall in Hall. apply (Hall _ He).
  - rewrite Hdb. cbn [skill_ratings]. apply in_or_app. right.
    unfold ratingsToInsert. apply in_map_iff. exists (Skill.id s, r). auto.
Qed.

(** X23 at work: Alice rates Analysis 5, Planning 3 and then Analysis 4. *)
Lemma form_submission_rates_every_active_skill_witness :
  let clicks := [TaskSubmissionForm.click "s1" 5; TaskSubmissionForm.click "s2" 3;
                 TaskSubmissionForm.click "s1" 4] in
  let formData :=
    Scenario.form (mkDate 2024 1 10)
      (TaskSubmissionForm.skillRatings (Supabase.active_skills Scenario.fresh)
                                       clicks) in
  exists t w',
    submitTask formData Scenario.fresh = (Returned (success t), w') /\
    TaskSubmissionFormData.skill_ratings formData = [("s1", 4); ("s2", 3)] /\
    Permutation (map fst (TaskSubmissionFormData.skill_ratings formData))
                (map Skill.id (Supabase.active_skills Scenario.fresh)).
Proof.
  eexists. eexists. split; [reflexivity|]. split; [reflexivity|].
  eapply (@form_submission_rates_every_active_skill Scenario.fresh).
  - simpl. repeat constructor; simpl; intuition discriminate.
  - reflexivity.
  - reflexivity.
Defined.

Lemma count_if_bounds (flag : Task.t -> bool) (l : list Task.t) :
  0 <= count_if flag l <= Z.of_nat (length l).
Proof.
  unfold count_if. pose proof (filter_length_le flag l). lia.
Qed.

Lemma rate_bounds (c n : Z) : 0 < n -> 0 <= c <= n -> (0 <= rate c n <= 100)%Q.
Proof.
  intros Hn Hc. unfold rate.
  destruct (@quotient_bounds 0 1 c n Hn ltac:(lia)) as [H1 H2].
  change (inject_Z 0) with 0%Q in H1. change (inject_Z 1) with 1%Q in H2.
  set (x := (inject_Z c / inject_Z n)%Q) in *. lra.
Qed.

(** X24: in every answer of [getPerformanceSummary] the number of tasks
    is not negative and the three rates lie between 0 and 100; a summary
    that counts no task is the all-zero one. *)
Theorem summary_rates_are_percentages
  (from to : option CivilDate) (w : World) :
  exists s w',
    getPerformanceSummary from to w = (Returned s, w') /\
    0 <= PerformanceSummary.total_tasks s /\
    (0 <= PerformanceSummary.on_time_delivery_rate s <= 100)%Q /\
    (0 <= PerformanceSummary.manager_issues_rate s <= 100)%Q /\
    (0 <= PerformanceSummary.manager_helped_rate s <= 100)%Q /\
    (PerformanceSummary.total_tasks s = 0 -> s = no_summary).
Proof.
  destruct (getPerformanceSummary_total from to w) as (s & w' & E).
  exists s, w'. split; [exact E|].
  apply getPerformanceSummary_cases in E.
  destruct E as [-> | (user & w1 & o & _ & Hne & _ & _ & ->)].
  - cbn. repeat split; try lra; lia.
  - set (l := Supabase.tasks_of w user from to) in *.
    assert (Hpos : 0 < Z.of_nat (length l)).
    { destruct l; [congruence|]. cbn [length]. lia. }
    cbn [summary_from PerformanceSummary.total_tasks
         PerformanceSummary.on_time_delivery_rate
         PerformanceSummary.manager_issues_rate
         PerformanceSummary.manager_helped_rate].
    split; [lia|].
    split; [apply rate_bounds; [exact Hpos | apply count_if_bounds]|].
    split; [apply rate_bounds; [exact Hpos | apply count_if_bounds]|].
    split; [apply rate_bounds; [exact Hpos | apply count_if_bounds]|].
    intros H0. lia.
Qed.
